(** * unlock-your-drive: the task transforms of DailyTaskCard and TaskManager

    A shallow embedding of the data transformations performed by the event
    handlers of [src/components/DailyTaskCard.tsx] and
    [src/components/TaskManager.tsx], and the properties their
    specification states about them; then of what the two components
    compute to render (the listed sub-tasks, the warning, the header date,
    the edit dialog, the overdue mark), with further properties of the
    handlers and of the rendering.

    Conventions of the embedding.
    - A JavaScript string is the list of its UTF-16 code units ([jsstring]);
      [lit] writes an ASCII literal.
    - A JavaScript number that holds an integer is a [Z] (an [N] where the
      data model says it is non-negative).  This is exact as long as the
      values stay below 2^53 in magnitude, which is the case for day counts,
      durations in seconds and time values.
    - A [Date] is its time value: milliseconds since the epoch, or [None] for
      the Invalid Date (time value NaN).  Local time is UTC plus the offset
      the host's time zone has at the instant, which clock changes
      (daylight saving) make differ from one instant to another; what
      [Date.parse] makes of a string is the host's too.
    - The wall clock ([new Date()], [Date.now()]) is an explicit argument
      [now]; callbacks to the owner ([onRoadmapUpdate], [onTasksChange],
      [onSelectTask]) are the values a handler returns. *)

From Stdlib Require Import ZArith NArith List String Ascii Bool Lia DecimalString
  DecimalZ DecimalPos.
From stdpp Require Import base option list.

Local Open Scope Z_scope.

(** ** The JavaScript operations the handlers use *)

Module JS.

(** A string: its UTF-16 code units. *)
Definition jsstring := list N.

(** An ASCII literal of the source. *)
Definition lit (s : string) : jsstring :=
  map N_of_ascii (list_ascii_of_string s).

(** A string is falsy exactly when it is empty. *)
Definition truthy (s : jsstring) : bool :=
  match s with [] => false | _ :: _ => true end.

(** [a || b] on strings. *)
Definition or_else (a b : jsstring) : jsstring :=
  if truthy a then a else b.

(** WhiteSpace and LineTerminator code points (ECMA-262, 12.2 and 12.3),
    the characters [String.prototype.trim] and [parseInt] strip. *)
Definition isWhiteSpace (c : N) : bool :=
  ((9 <=? c) && (c <=? 13) || (c =? 32) || (c =? 160) || (c =? 5760)
   || (8192 <=? c) && (c <=? 8202) || (c =? 8232) || (c =? 8233)
   || (c =? 8239) || (c =? 8287) || (c =? 12288) || (c =? 65279))%N.

Fixpoint trimStart (s : jsstring) : jsstring :=
  match s with
  | c :: s' => if isWhiteSpace c then trimStart s' else s
  | [] => []
  end.

Definition trimEnd (s : jsstring) : jsstring :=
  reverse (trimStart (reverse s)).

(** [s.trim()] *)
Definition trim (s : jsstring) : jsstring := trimEnd (trimStart s).

(** [s.split(sep)] for a one-character separator: the segments between
    the occurrences of [sep]; always at least one segment. *)
Fixpoint split (sep : N) (s : jsstring) : list jsstring :=
  match s with
  | [] => [[]]
  | c :: s' =>
      if (c =? sep)%N then [] :: split sep s'
      else match split sep s' with
           | seg :: rest => (c :: seg) :: rest
           | [] => [[c]]
           end
  end.

(** [segs.join(sep)], the inverse of [split]. *)
Fixpoint join (sep : N) (segs : list jsstring) : jsstring :=
  match segs with
  | [] => []
  | [seg] => seg
  | seg :: rest => seg ++ sep :: join sep rest
  end.

Definition semicolon : N := 59.

(** [String(n)] for an integer [n]: its decimal digits, with a leading
    minus sign when negative. *)
Definition Number_toString (n : Z) : jsstring :=
  lit (NilZero.string_of_int (Z.to_int n)).

(** The text of NaN in a template literal. *)
Definition NaN_toString : jsstring := lit "NaN".

Definition digit (c : N) : option Z :=
  if ((48 <=? c) && (c <=? 57))%N then Some (Z.of_N (c - 48)) else None.

(** The value of the longest prefix of decimal digits; [acc] is [None]
    until a first digit is read. *)
Fixpoint digits (acc : option Z) (s : jsstring) : option Z :=
  match s with
  | c :: s' =>
      match digit c with
      | Some d => digits (Some (10 * default 0 acc + d)) s'
      | None => acc
      end
  | [] => acc
  end.

(** [parseInt(s, 10)]: leading white space is skipped, then an optional
    sign, then the longest prefix of digits; [None] is NaN. *)
Definition parseInt (s : jsstring) : option Z :=
  match trimStart s with
  | 45%N :: r => Z.opp <$> digits None r
  | 43%N :: r => digits None r
  | r => digits None r
  end.

(** [Math.ceil(a / b)] on integers, for a positive [b].  The quotient of
    the doubles is the rounded exact quotient, and for a divisor of
    86400000 and fewer than 2^27 days the rounding does not reach the
    integer below, so the ceiling is that of the exact quotient. *)
Definition ceil_div (a b : Z) : Z := - ((- a) / b).

(** *** Dates (ECMA-262, 21.4.1) *)

(** A Date object: its time value, [None] for the Invalid Date. *)
Definition Date := option Z.

Definition msPerDay : Z := 86400000.
Definition msPerHour : Z := 3600000.
Definition msPerMinute : Z := 60000.
Definition msPerSecond : Z := 1000.

Definition Day (t : Z) : Z := t / msPerDay.
Definition TimeWithinDay (t : Z) : Z := t mod msPerDay.

Definition MakeTime (hour min sec ms : Z) : Z :=
  hour * msPerHour + min * msPerMinute + sec * msPerSecond + ms.

Definition MakeDate (day time : Z) : Z := day * msPerDay + time.

(** Time values beyond 8.64e15 ms from the epoch are not dates. *)
Definition TimeClip (t : Z) : Date :=
  if Z.abs t <=? 8640000000000000 then Some t else None.

(** What the handlers take from the host.  [LocalTZA t isUTC] is the
    local time zone adjustment in milliseconds (ECMA-262, 9th edition,
    20.3.1.7): for [isUTC = true] the offset of local time from UTC in
    force at the UTC time value [t]; for [isUTC = false] the offset with
    which the local time value [t] is read, which for a local time that a
    clock change skips is the offset before the change, and for a local
    time that a clock change repeats the offset of its first occurrence.
    [Date_parse] is the time value [Date.parse] gives a string ([None]
    when it is not a date). *)
Record Host := {
  LocalTZA : Z -> bool -> Z;
  Date_parse : jsstring -> option Z
}.

Section HostDates.
Variable host : Host.

Definition LocalTime (t : Z) : Z := t + LocalTZA host t true.
Definition UTC (t : Z) : Z := t - LocalTZA host t false.

(** [new Date(s)] for a string [s]. *)
Definition Date_ofString (s : jsstring) : Date :=
  Date_parse host s ≫= TimeClip.

(** [d.setHours(hour, min, sec, ms)], as the value [d] holds
    afterwards. *)
Definition setHours (hour min sec ms : Z) (d : Date) : Date :=
  t ← d;
  TimeClip (UTC (MakeDate (Day (LocalTime t)) (MakeTime hour min sec ms))).

(** [d.setDate(d.getDate() + n)], as the value [d] holds afterwards.
    [MakeDay] of the year and month of [d] and of its day of the month
    plus [n] is the day number [n] days after that of [d]; the time
    within the day is kept. *)
Definition setDate_getDate_plus (n : Z) (d : Date) : Date :=
  t ← d;
  TimeClip (UTC (MakeDate (Day (LocalTime t) + n)
                          (TimeWithinDay (LocalTime t)))).
End HostDates.

(** *** Calendar dates, to write instants down *)

(** Days from 1970-01-01 to the civil date [y]-[m]-[d] (proleptic
    Gregorian calendar). *)
Definition days_from_civil (y m d : Z) : Z :=
  let y' := if m <=? 2 then y - 1 else y in
  let era := y' / 400 in
  let yoe := y' - era * 400 in
  let mp := (m + 9) mod 12 in
  let doy := (153 * mp + 2) / 5 + d - 1 in
  let doe := yoe * 365 + yoe / 4 - yoe / 100 + doy in
  era * 146097 + doe - 719468.

(** The time value of [y]-[mo]-[d]T[h]:[mi]:[s] in UTC. *)
Definition instant (y mo d h mi s : Z) : Z :=
  MakeDate (days_from_civil y mo d) (MakeTime h mi s 0).

Definition InLeapYear (y : Z) : bool :=
  (y mod 4 =? 0) && (negb (y mod 100 =? 0) || (y mod 400 =? 0)).

Definition DaysInMonth (y m : Z) : Z :=
  if m =? 2 then (if InLeapYear y then 29 else 28)
  else if (m =? 4) || (m =? 6) || (m =? 9) || (m =? 11) then 30
  else 31.

(** [Date.parse] on the date-only form [YYYY-MM-DD] of the Date Time
    String Format, the form an [<input type="date">] holds: midnight UTC
    of that day.  Any other string is not a date for this host. *)
Definition parse_date_only (s : jsstring) : option Z :=
  match s with
  | [y1; y2; y3; y4; 45%N; m1; m2; 45%N; d1; d2] =>
      y1 ← digit y1; y2 ← digit y2; y3 ← digit y3; y4 ← digit y4;
      m1 ← digit m1; m2 ← digit m2; d1 ← digit d1; d2 ← digit d2;
      let y := 1000 * y1 + 100 * y2 + 10 * y3 + y4 in
      let m := 10 * m1 + m2 in
      let d := 10 * d1 + d2 in
      if (1 <=? m) && (m <=? 12) && (1 <=? d) && (d <=? DaysInMonth y m)
      then Some (MakeDate (days_from_civil y m d) 0)
      else None
  | _ => None
  end.

(** A host in the zone UTC-05:00, without clock changes, that reads
    date-only strings. *)
Definition host_utc_minus_5 : Host :=
  {| LocalTZA := λ _ _, - 5 * msPerHour; Date_parse := parse_date_only |}.

(** A host in UTC that reads date-only strings. *)
Definition host_utc : Host :=
  {| LocalTZA := λ _ _, 0; Date_parse := parse_date_only |}.

(** A host in New York in 2024: UTC-05:00, and UTC-04:00 from
    2024-03-10T07:00Z (02:00 local, when clocks go to 03:00) until
    2024-11-03T06:00Z (02:00 local, when clocks go back to 01:00). *)
Definition host_new_york : Host :=
  let spring := instant 2024 3 10 7 0 0 in
  let fall := instant 2024 11 3 6 0 0 in
  {| LocalTZA := λ t isUTC,
       if isUTC
       then if (spring <=? t) && (t <? fall)
            then - 4 * msPerHour else - 5 * msPerHour
       else if (spring - 4 * msPerHour <=? t) && (t <? fall - 4 * msPerHour)
            then - 4 * msPerHour else - 5 * msPerHour;
     Date_parse := parse_date_only |}.

(** A host in the Azores in 2024: UTC-01:00, and UTC from
    2024-03-31T01:00Z (00:00 local, when clocks go to 01:00) until
    2024-10-27T01:00Z (01:00 local, when clocks go back to 00:00). *)
Definition host_azores : Host :=
  let spring := instant 2024 3 31 1 0 0 in
  let fall := instant 2024 10 27 1 0 0 in
  {| LocalTZA := λ t isUTC,
       if isUTC
       then if (spring <=? t) && (t <? fall) then 0 else - msPerHour
       else if (spring <=? t) && (t <? fall) then 0 else - msPerHour;
     Date_parse := parse_date_only |}.

(** A zone without clock changes: one offset at all times. *)
Definition fixed_offset (host : Host) : Prop :=
  ∀ t isUTC t' isUTC', LocalTZA host t isUTC = LocalTZA host t' isUTC'.

(** The zone has the local time value [t]: the instant that [t] is read
    as shows [t] on the local clock.  It fails exactly for the local
    times that a clock change skips. *)
Definition local_time_exists (host : Host) (t : Z) : Prop :=
  LocalTime host (UTC host t) = t.

End JS.

(** ** DailyTaskCard.tsx *)

Module DailyTaskCard.
Import JS.

(** Modelled from the spec: the [StudyLog] interface is declared in
    [./StudyTimer], which is not among the sources; a log carries a
    [duration], a non-negative integer number of seconds. *)
Record StudyLog := { duration : N }.

Module SubTask.
Record t := mk {
  text : jsstring;
  completed : bool;
  studyLogs : list StudyLog
}.
End SubTask.

(** An entry of [roadmap.dailyTasks]; [subTasks] is absent until a first
    completion event builds it. *)
Module DailyTask.
Record t := mk {
  day : Z;
  task : jsstring;
  completed : bool;
  subTasks : option (list SubTask.t)
}.
End DailyTask.

(** [task.subTasks?.[i]] *)
Definition subTaskAt (task : DailyTask.t) (i : nat) : option SubTask.t :=
  DailyTask.subTasks task ≫= (λ sts, sts !! i).

(** [task.subTasks?.[i]?.completed ?? false] *)
Definition prevCompleted (task : DailyTask.t) (i : nat) : bool :=
  default false (SubTask.completed <$> subTaskAt task i).

(** [task.subTasks?.[i]?.studyLogs ?? []] *)
Definition prevStudyLogs (task : DailyTask.t) (i : nat) : list StudyLog :=
  default [] (SubTask.studyLogs <$> subTaskAt task i).

(** The [subTasks] array built at lines 30-34. *)
Definition rebuildSubTasks (task : DailyTask.t) (subTaskIndex : Z)
    (completed : bool) : list SubTask.t :=
  imap (λ i s,
          SubTask.mk (trim s)
            (if decide (Z.of_nat i = subTaskIndex) then completed
             else prevCompleted task i)
            (prevStudyLogs task i))
       (split semicolon (DailyTask.task task)).

(** [{ ...task, subTasks, completed: allCompleted }] *)
Definition rebuildTask (task : DailyTask.t) (subTaskIndex : Z)
    (completed : bool) : DailyTask.t :=
  let subTasks := rebuildSubTasks task subTaskIndex completed in
  let allCompleted := forallb SubTask.completed subTasks in
  DailyTask.mk (DailyTask.day task) (DailyTask.task task) allCompleted
               (Some subTasks).

(** The callback given to [roadmap.dailyTasks.map]; the variable
    [justCompletedTask] it assigns is threaded through as state. *)
Definition updateTask (day subTaskIndex : Z) (completed : bool)
    (task : DailyTask.t) (justCompletedTask : option DailyTask.t)
    : DailyTask.t * option DailyTask.t :=
  if decide (DailyTask.day task = day) then
    let wasPreviouslyComplete := DailyTask.completed task in
    let task' := rebuildTask task subTaskIndex completed in
    let allCompleted := DailyTask.completed task' in
    (task',
     if allCompleted && negb wasPreviouslyComplete then Some task'
     else justCompletedTask)
  else (task, justCompletedTask).

(** [Array.prototype.map] with a callback that updates a captured
    variable. *)
Fixpoint map_st {S A B : Type} (f : A -> S -> B * S) (l : list A) (s : S)
    : list B * S :=
  match l with
  | [] => ([], s)
  | x :: l' =>
      let '(y, s1) := f x s in
      let '(ys, s2) := map_st f l' s1 in
      (y :: ys, s2)
  end.

(** [handleSubTaskCompletion] (the specification's [applyCompletion]):
    the two arguments it passes to [onRoadmapUpdate]. *)
Definition handleSubTaskCompletion (dailyTasks : list DailyTask.t)
    (day subTaskIndex : Z) (completed : bool)
    : list DailyTask.t * option DailyTask.t :=
  map_st (updateTask day subTaskIndex completed) dailyTasks None.

(** [logs.reduce((acc, log) => acc + log.duration, 0)] *)
Definition totalSeconds (logs : list StudyLog) : N :=
  fold_left (λ acc log, acc + duration log)%N logs 0%N.

(** [formatStudyTime]; [None] is [null], and an absent argument
    ([undefined]) is [None] too. *)
Definition formatStudyTime (logs : option (list StudyLog))
    : option jsstring :=
  match logs with
  | None | Some [] => None
  | Some logs =>
      let totalSeconds := totalSeconds logs in
      if (totalSeconds =? 0)%N then None
      else
        let hours := (totalSeconds / 3600)%N in
        let minutes := ((totalSeconds mod 3600) / 60)%N in
        let seconds := (totalSeconds mod 60)%N in
        if (0 <? hours)%N then
          Some (Number_toString (Z.of_N hours) ++ lit "h "
                ++ Number_toString (Z.of_N minutes) ++ lit "m logged")
        else if (0 <? minutes)%N then
          Some (Number_toString (Z.of_N minutes) ++ lit "m "
                ++ Number_toString (Z.of_N seconds) ++ lit "s logged")
        else Some (Number_toString (Z.of_N seconds) ++ lit "s logged")
  end.

(** *** Notions of the specification and sample data *)

(** A task for which the completion signal is raised: it is the task of the
    day, it was not complete, and its rebuilt sub-tasks all are. *)
Definition justCompletes (day subTaskIndex : Z) (completed : bool)
    (task : DailyTask.t) : Prop :=
  DailyTask.day task = day
  ∧ DailyTask.completed task = false
  ∧ DailyTask.completed (rebuildTask task subTaskIndex completed) = true.

(** A roadmap of two days; the first has three sub-tasks in its text and
    one sub-task record. *)
Definition task_day1 : DailyTask.t :=
  DailyTask.mk 1 (lit "read; write ;rest") false
    (Some [SubTask.mk (lit "read") true [Build_StudyLog 45]]).

Definition roadmap_example : list DailyTask.t :=
  [ task_day1; DailyTask.mk 2 (lit "run") false None ].

End DailyTaskCard.

(** ** TaskManager.tsx *)

Module TaskManager.
Import JS.

Inductive Priority := low | medium | high | extreme.

Module Task.
Record t := mk {
  id : jsstring;
  title : jsstring;
  targetDate : Date;
  startDate : Date;
  category : jsstring;
  priority : Priority
}.
End Task.

(** The two values of [deadlineType]. *)
Module DeadlineType.
Inductive t := date | days.
End DeadlineType.

(** The fields of the dialog, as the text the inputs hold. *)
Module FormData.
Record t := mk {
  title : jsstring;
  targetDate : jsstring;
  category : jsstring;
  priority : Priority
}.
End FormData.

(** The form after a successful submit (line 89). *)
Definition emptyForm : FormData.t :=
  FormData.mk [] [] [] high.

(** What a handler reads and changes: the two properties the owner holds
    ([tasks] through [onTasksChange], [selectedTaskId] through
    [onSelectTask]) and the component's own state. *)
Record State := mkState {
  tasks : list Task.t;
  selectedTaskId : option jsstring;
  isAddDialogOpen : bool;
  editingTask : option Task.t;
  deadlineType : DeadlineType.t;
  numberOfDays : jsstring;
  formData : FormData.t
}.

Section Handlers.
Variable host : Host.

(** Lines 57-67: the date the request asks for, or [None] where the
    handler returns early. *)
Definition requestedDate (now : Z) (st : State) : option Date :=
  match deadlineType st with
  | DeadlineType.date =>
      if truthy (FormData.targetDate (formData st))
      then Some (Date_ofString host (FormData.targetDate (formData st)))
      else None
  | DeadlineType.days =>
      match parseInt (numberOfDays st) with
      | None => None
      | Some days =>
          if (days =? 0) || (days <=? 0) then None
          else Some (setDate_getDate_plus host days (Some now))
      end
  end.

(** Lines 71-78. *)
Definition taskData (now : Z) (st : State) (targetDateValue : Date)
    : Task.t :=
  Task.mk
    (or_else (default [] (Task.id <$> editingTask st))
             (Number_toString now))
    (FormData.title (formData st))
    targetDateValue
    (default (Some now) (Task.startDate <$> editingTask st))
    (or_else (FormData.category (formData st)) (lit "General"))
    (FormData.priority (formData st)).

(** [handleSubmit] (the specification's [submitMission]). *)
Definition handleSubmit (now : Z) (st : State) : State :=
  match requestedDate now st with
  | None => st
  | Some targetDateValue =>
      let targetDateValue := setHours host 23 59 59 999 targetDateValue in
      let taskData := taskData now st targetDateValue in
      let updatedTasks :=
        match editingTask st with
        | Some editing =>
            map (λ task,
                   if decide (Task.id task = Task.id editing)
                   then taskData else task)
                (tasks st)
        | None => tasks st ++ [taskData]
        end in
      mkState updatedTasks
              (match editingTask st with
               | None => Some (Task.id taskData)
               | Some _ => selectedTaskId st
               end)
              false None DeadlineType.date (lit "30") emptyForm
  end.
End Handlers.

(** [handleDelete] (the specification's [deleteMission]). *)
Definition handleDelete (taskId : jsstring) (st : State) : State :=
  let updatedTasks :=
    filter (λ task, Task.id task ≠ taskId) (tasks st) in
  mkState updatedTasks
          (if bool_decide (selectedTaskId st = Some taskId)
              && (0 <? length updatedTasks)%nat
           then Task.id <$> head updatedTasks
           else if (length updatedTasks =? 0)%nat then None
           else selectedTaskId st)
          (isAddDialogOpen st) (editingTask st) (deadlineType st)
          (numberOfDays st) (formData st).

(** [getTimeLeft] (the specification's [timeLeft]). *)
Definition getTimeLeft (now : Z) (targetDate : Date) : jsstring :=
  match targetDate with
  | None => NaN_toString ++ lit " days overdue"
  | Some target =>
      let difference := target - now in
      let days := ceil_div difference (1000 * 60 * 60 * 24) in
      if 1 <? days then Number_toString days ++ lit " days left"
      else if days =? 1 then lit "1 day left"
      else if days =? 0 then lit "Today!"
      else Number_toString (Z.abs days) ++ lit " days overdue"
  end.

(** *** Notions of the specification and sample data *)

(** The validation of a request, in the words of the specification: a
    date string that is not empty in date mode, a number of days that
    parses to a positive number in days mode. *)
Definition validRequest (st : State) : Prop :=
  match deadlineType st with
  | DeadlineType.date => FormData.targetDate (formData st) ≠ []
  | DeadlineType.days =>
      ∃ n : Z, parseInt (numberOfDays st) = Some n ∧ 0 < n
  end.

(** The last millisecond of a day. *)
Definition endOfDay : Z := MakeTime 23 59 59 999.

(** The last instant of the local day of an instant. *)
Definition localEndOfDay (host : Host) (c : Z) : Z :=
  UTC host (MakeDate (Day (LocalTime host c)) endOfDay).

(** The instants of the label scenarios. *)
Definition scenario_now : Z := instant 2024 1 10 0 0 0.
Definition scenario_in_three_days : Date := Some (instant 2024 1 12 23 59 59).
Definition scenario_noon : Date := Some (instant 2024 1 10 12 0 0).
Definition scenario_two_days_ago : Date := Some (instant 2024 1 8 0 0 0).

(** A mission with the given id. *)
Definition mission (id : string) : Task.t :=
  Task.mk (lit id) (lit "title") (Some 1705103999999) (Some 1704844800000)
          (lit "General") medium.

Definition delete_state (tasks : list Task.t) (selected : option jsstring)
    : State :=
  mkState tasks selected false None DeadlineType.date (lit "30") emptyForm.

(** A form in date mode with an empty title and the date 2024-01-12. *)
Definition empty_title_state : State :=
  mkState [] None true None DeadlineType.date (lit "30")
          (FormData.mk [] (lit "2024-01-12") (lit "Fitness") high).

(** A form in days mode, with the given text in the number field, and one
    in date mode with no date. *)
Definition in_days (text : string) : State :=
  mkState [mission "a"] None true None DeadlineType.days (lit text)
          (FormData.mk (lit "Run") [] [] high).

Definition by_date_without_date : State :=
  mkState [mission "a"] None true None DeadlineType.date (lit "30")
          (FormData.mk (lit "Run") [] [] high).

(** A form in date mode with the given text as date. *)
Definition by_date (text : string) : State :=
  mkState [mission "a"] None true None DeadlineType.date (lit "30")
          (FormData.mk (lit "Run") (lit text) [] high).

(** A request for a mission two days from 2024-01-10T15:00:00Z, made in
    the zone UTC-05:00 with one mission in the list. *)
Definition in_two_days_state : State :=
  mkState [mission "a"] (Some (lit "a")) true None DeadlineType.days
          (lit "2") (FormData.mk (lit "Run") [] [] high).

Definition afternoon : Z := instant 2024 1 10 15 0 0.

(** An edit of mission "a" in a list of two. *)
Definition edit_state : State :=
  mkState [mission "a"; mission "b"] (Some (lit "b")) true
          (Some (mission "a")) DeadlineType.date (lit "30")
          (FormData.mk (lit "New") (lit "2024-02-01") (lit "Fitness") low).

(** A task with the empty id, under edit. *)
Definition unnamed : Task.t :=
  Task.mk [] (lit "old") (Some 1705103999999) (Some 1700000000000)
          (lit "General") medium.

Definition edit_unnamed_state : State :=
  mkState [unnamed] None true (Some unnamed) DeadlineType.date (lit "30")
          (FormData.mk (lit "New") (lit "2024-02-01") (lit "Fitness") low).

End TaskManager.

(** ** Calendar fields, [toISOString] and [includes] *)

Module JSDate.
Import JS.

(** The civil date (year, month 1-12, day of the month) of a day number,
    the inverse of [days_from_civil]. *)
Definition civil_from_days (z : Z) : Z * Z * Z :=
  let z := z + 719468 in
  let era := z / 146097 in
  let doe := z - era * 146097 in
  let yoe := (doe - doe / 1460 + doe / 36524 - doe / 146096) / 365 in
  let y := yoe + era * 400 in
  let doy := doe - (365 * yoe + yoe / 4 - yoe / 100) in
  let mp := (5 * doy + 2) / 153 in
  let d := doy - (153 * mp + 2) / 5 + 1 in
  let m := if mp <? 10 then mp + 3 else mp - 9 in
  (if m <=? 2 then y + 1 else y, m, d).

(** A month from 1 to 12 and a day that the month has. *)
Definition validDate (y m d : Z) : Prop :=
  1 ≤ m ≤ 12 ∧ 1 ≤ d ≤ DaysInMonth y m.

(** The day number of the first day of year [y] (ECMA-262, 21.4.1.3). *)
Definition DayFromYear (y : Z) : Z :=
  365 * (y - 1970) + (y - 1969) / 4 - (y - 1901) / 100 + (y - 1601) / 400.

(** The number of days from the first of January of year [y] to the civil
    date [y]-[m]-[d]. *)
Definition dayWithinYear (y m d : Z) : Z :=
  let leap := if InLeapYear y then 1 else 0 in
  d - 1 +
  (if m =? 1 then 0 else if m =? 2 then 31 else
   leap + (if m =? 3 then 59 else if m =? 4 then 90 else if m =? 5 then 120
   else if m =? 6 then 151 else if m =? 7 then 181 else if m =? 8 then 212
   else if m =? 9 then 243 else if m =? 10 then 273 else if m =? 11 then 304
   else 334)).

(** The year of a time value: the largest [y] with
    [DayFromYear y <= Day t] (see [YearFromTime_spec]). *)
Definition YearFromTime (t : Z) : Z := (civil_from_days (Day t)).1.1.

Definition DayWithinYear (t : Z) : Z :=
  Day t - DayFromYear (YearFromTime t).

(** 1 in a leap year, 0 otherwise. *)
Definition InLeapYearOf (t : Z) : Z :=
  if InLeapYear (YearFromTime t) then 1 else 0.

(** The month of a time value, 0 to 11, by the table of 21.4.1.4. *)
Definition MonthFromTime (t : Z) : Z :=
  let dwy := DayWithinYear t in
  let leap := InLeapYearOf t in
  if dwy <? 31 then 0
  else if dwy <? 59 + leap then 1
  else if dwy <? 90 + leap then 2
  else if dwy <? 120 + leap then 3
  else if dwy <? 151 + leap then 4
  else if dwy <? 181 + leap then 5
  else if dwy <? 212 + leap then 6
  else if dwy <? 243 + leap then 7
  else if dwy <? 273 + leap then 8
  else if dwy <? 304 + leap then 9
  else if dwy <? 334 + leap then 10
  else 11.

(** The day of the month of a time value, by the table of 21.4.1.5. *)
Definition DateFromTime (t : Z) : Z :=
  let dwy := DayWithinYear t in
  let leap := InLeapYearOf t in
  let month := MonthFromTime t in
  if month =? 0 then dwy + 1
  else if month =? 1 then dwy - 30
  else if month =? 2 then dwy - 58 - leap
  else if month =? 3 then dwy - 89 - leap
  else if month =? 4 then dwy - 119 - leap
  else if month =? 5 then dwy - 150 - leap
  else if month =? 6 then dwy - 180 - leap
  else if month =? 7 then dwy - 211 - leap
  else if month =? 8 then dwy - 242 - leap
  else if month =? 9 then dwy - 272 - leap
  else if month =? 10 then dwy - 303 - leap
  else dwy - 333 - leap.

Definition HourFromTime (t : Z) : Z := (t / msPerHour) mod 24.
Definition MinFromTime (t : Z) : Z := (t / msPerMinute) mod 60.
Definition SecFromTime (t : Z) : Z := (t / msPerSecond) mod 60.
Definition msFromTime (t : Z) : Z := t mod msPerSecond.

(** [MakeDay(year, month, date)]: the day number of the first of the month
    (months beyond 0-11 carried into the year), plus [date - 1]. *)
Definition MakeDay (year month date : Z) : Z :=
  let ym := year + month / 12 in
  let mn := month mod 12 in
  days_from_civil ym (mn + 1) 1 + date - 1.

Section Host.
Variable host : Host.

(** [d.getDate()]; [None] is NaN. *)
Definition getDate (d : Date) : option Z :=
  t ← d; Some (DateFromTime (LocalTime host t)).

(** [d.setDate(dt)], as the value [d] holds afterwards. *)
Definition setDate (dt : Z) (d : Date) : Date :=
  t ← d;
  let t := LocalTime host t in
  TimeClip (UTC host (MakeDate (MakeDay (YearFromTime t) (MonthFromTime t) dt)
                               (TimeWithinDay t))).
End Host.

(** The last [width] decimal digits of [n], most significant first. *)
Fixpoint pad (width : nat) (n : Z) : jsstring :=
  match width with
  | O => []
  | S width' => pad width' (n / 10) ++ [Z.to_N (48 + n mod 10)]
  end.

(** The year of the Date Time String Format: four digits from 0 to 9999,
    otherwise a sign and six digits. *)
Definition yearString (y : Z) : jsstring :=
  if (0 <=? y) && (y <=? 9999) then pad 4 y
  else (if 0 <=? y then lit "+" else lit "-") ++ pad 6 (Z.abs y).

(** The date-only string [YYYY-MM-DD] of a civil date. *)
Definition dateString (y m d : Z) : jsstring :=
  pad 4 y ++ lit "-" ++ pad 2 m ++ lit "-" ++ pad 2 d.

(** [d.toISOString()]; [None] where it throws a RangeError (the Invalid
    Date). *)
Definition toISOString (d : Date) : option jsstring :=
  t ← d;
  Some (yearString (YearFromTime t) ++ lit "-"
        ++ pad 2 (MonthFromTime t + 1) ++ lit "-"
        ++ pad 2 (DateFromTime t) ++ lit "T"
        ++ pad 2 (HourFromTime t) ++ lit ":"
        ++ pad 2 (MinFromTime t) ++ lit ":"
        ++ pad 2 (SecFromTime t) ++ lit "."
        ++ pad 3 (msFromTime t) ++ lit "Z").

Fixpoint startsWith (prefix s : jsstring) : bool :=
  match prefix, s with
  | [], _ => true
  | _ :: _, [] => false
  | a :: prefix', b :: s' => (a =? b)%N && startsWith prefix' s'
  end.

(** [s.includes(searchString)] *)
Fixpoint includes (searchString s : jsstring) : bool :=
  startsWith searchString s
  || match s with
     | [] => false
     | _ :: s' => includes searchString s'
     end.

(** A host reads the date-only form as the specification of [Date.parse]
    says: midnight UTC of that day. *)
Definition reads_date_only (host : Host) : Prop :=
  ∀ s t, parse_date_only s = Some t → Date_parse host s = Some t.

End JSDate.

(** ** DailyTaskCard.tsx: what the card shows *)

Module DailyTaskCardView.
Import JS JSDate DailyTaskCard.

(** [roadmap.dailyTasks.find(task => task.day === selectedDay)] *)
Definition selectedDayTask (dailyTasks : list DailyTask.t) (selectedDay : Z)
    : option DailyTask.t :=
  snd <$> list_find (λ task, DailyTask.day task = selectedDay) dailyTasks.

(** Line 61: the texts the card lists,
    [selectedDayTask?.task.split(';').map(s => s.trim()).filter(Boolean)
     || []]. *)
Definition subTasks (selectedDayTask : option DailyTask.t) : list jsstring :=
  match selectedDayTask with
  | Some task =>
      filter (λ s, truthy s = true)
             (map trim (split semicolon (DailyTask.task task)))
  | None => []
  end.

(** Line 62. *)
Definition previousIncompleteTasks (dailyTasks : list DailyTask.t)
    (currentDay : Z) : list DailyTask.t :=
  filter (λ task, DailyTask.day task < currentDay
                  ∧ DailyTask.completed task = false) dailyTasks.

(** Line 75: whether the warning about unfinished days is shown. *)
Definition incompleteWarning (dailyTasks : list DailyTask.t)
    (selectedDay currentDay : Z) : bool :=
  (0 <? length (previousIncompleteTasks dailyTasks currentDay))%nat
  && (currentDay <=? selectedDay).

(** Lines 63-66: the date in the header of the card. *)
Definition selectedDate (host : Host) (startDate : Date) (selectedDay : Z)
    : Date :=
  match getDate host startDate with
  | Some date => setDate host (date + selectedDay - 1) startDate
  | None => startDate
  end.

(** Line 94: [selectedDayTask.subTasks?.[index]]. *)
Definition subTaskData (task : DailyTask.t) (index : nat)
    : option SubTask.t :=
  subTaskAt task index.

(** Line 101: the state of the checkbox of a listed sub-task,
    [subTaskData?.completed ?? false]. *)
Definition checked (task : DailyTask.t) (index : nat) : bool :=
  default false (SubTask.completed <$> subTaskData task index).

(** Line 95: the study time under a listed sub-task. *)
Definition studyTime (task : DailyTask.t) (index : nat) : option jsstring :=
  formatStudyTime (SubTask.studyLogs <$> subTaskData task index).

(** Line 102: a click on the checkbox of the listed sub-task [index]. *)
Definition onCheckedChange (dailyTasks : list DailyTask.t) (selectedDay : Z)
    (index : nat) (checked : bool) : list DailyTask.t * option DailyTask.t :=
  handleSubTaskCompletion dailyTasks selectedDay (Z.of_nat index) checked.

(** A sequence of clicks on checkboxes of the selected day, each at a
    listed position with the value it sets; the owner stores the list a
    click returns as the roadmap's before the next one. *)
Definition clicks (dailyTasks : list DailyTask.t) (selectedDay : Z)
    (events : list (nat * bool)) : list DailyTask.t :=
  fold_left (λ tasks event,
               (onCheckedChange tasks selectedDay event.1 event.2).1)
            events dailyTasks.

(** A day whose text ends in a semicolon: two entries are rendered, three
    positions are rebuilt. *)
Definition task_trailing : DailyTask.t :=
  DailyTask.mk 3 (lit "read; write;") false None.

Definition roadmap_trailing : list DailyTask.t := [task_trailing].

End DailyTaskCardView.

(** ** TaskManager.tsx: the dialog and the cards *)

Module TaskManagerView.
Import JS JSDate TaskManager.

(** How a handler ends: it returns, or an exception leaves it, with the
    state updates made until then (the setters called before the throw
    have queued their updates). *)
Inductive Outcome :=
| Returns (st : State)
| Throws (st : State).

(** [handleEdit]: [toISOString] throws a RangeError for an Invalid
    Date, after the first two updates. *)
Definition handleEdit (task : Task.t) (st : State) : Outcome :=
  match toISOString (Task.targetDate task) with
  | Some iso =>
      Returns
        (mkState (tasks st) (selectedTaskId st) true (Some task)
                 DeadlineType.date (numberOfDays st)
                 (FormData.mk (Task.title task)
                              (default [] (head (split 84 iso)))
                              (Task.category task) (Task.priority task)))
  | None =>
      Throws
        (mkState (tasks st) (selectedTaskId st) (isAddDialogOpen st)
                 (Some task) DeadlineType.date (numberOfDays st)
                 (formData st))
  end.

(** The [onClick] of the New button (line 135).  The button is the
    trigger of the dialog; opening it is the dialog's own doing and not
    part of this handler. *)
Definition handleNew (st : State) : State :=
  mkState (tasks st) (selectedTaskId st) (isAddDialogOpen st) None
          DeadlineType.date (lit "30") emptyForm.

(** Line 180: whether the time left of a card is shown in red. *)
Definition overdue (now : Z) (task : Task.t) : bool :=
  includes (lit "overdue") (getTimeLeft now (Task.targetDate task)).

(** The selection names a task of the list, or nothing. *)
Definition selectionValid (st : State) : Prop :=
  match selectedTaskId st with
  | Some id => id ∈ Task.id <$> tasks st
  | None => True
  end.

(** A mission due at the end of 2024-03-31 in the Azores, the day clocks
    go forward there. *)
Definition azores_mission : Task.t :=
  Task.mk (lit "z") (lit "Sail") (Some (instant 2024 3 31 23 59 59 + 999))
          (Some 1700000000000) (lit "Travel") low.

(** Two missions, the second selected, and a form in days mode asking for
    three hundred million days. *)
Definition two_missions : State :=
  delete_state [mission "a"; mission "b"] (Some (lit "b")).

Definition far_state : State :=
  mkState [mission "a"] (Some (lit "a")) true None DeadlineType.days
          (lit "300000000") (FormData.mk (lit "Run") [] [] high).


(** The dialog in days mode once more, after the request of
    [in_two_days_state] was accepted at [scenario_now]. *)
Definition in_days_after (text : string) : State :=
  mkState (tasks (handleSubmit host_utc scenario_now in_two_days_state))
          (selectedTaskId
             (handleSubmit host_utc scenario_now in_two_days_state))
          true None DeadlineType.days (lit text)
          (FormData.mk (lit "Walk") [] [] low).

End TaskManagerView.

(** * Properties *)

(** ** The JavaScript operations *)

Module JSFacts.
Import JS.

Lemma split_not_nil sep s : split sep s ≠ [].
Proof.
  destruct s as [|c s]; simpl; [done|].
  destruct (c =? sep)%N; [done|]. by destruct (split sep s).
Qed.

(** Joining the segments with the separator gives the string back. *)
Lemma join_split sep s : join sep (split sep s) = s.
Proof.
  induction s as [|c s IH]; simpl; [done|].
  destruct (N.eqb_spec c sep) as [->|Hne].
  - pose proof (split_not_nil sep s) as Hnil.
    destruct (split sep s) as [|seg rest]; [done|].
    simpl in *. by rewrite IH.
  - pose proof (split_not_nil sep s) as Hnil.
    destruct (split sep s) as [|seg rest]; [done|].
    destruct rest as [|seg' rest]; simpl in *; by rewrite <- IH.
Qed.

(** No segment holds the separator. *)
Lemma split_no_sep sep s : Forall (λ seg, sep ∉ seg) (split sep s).
Proof.
  induction s as [|c s IH]; simpl.
  - repeat constructor. by intros ?%elem_of_nil.
  - destruct (N.eqb_spec c sep) as [->|Hne].
    + constructor; [by intros ?%elem_of_nil | done].
    + destruct (split sep s) as [|seg rest]; simpl.
      * repeat constructor. intros [->|?%elem_of_nil]%elem_of_cons; done.
      * inversion IH; subst. constructor; [|done].
        intros [->|?]%elem_of_cons; done.
Qed.

(** Joined segments: the first, then each other one after a separator. *)
Lemma join_cons sep first rest :
  join sep (first :: rest) = first ++ concat (map (cons sep) rest).
Proof.
  revert first. induction rest as [|seg rest IH]; intros first.
  - simpl. by rewrite app_nil_r.
  - change (join sep (first :: seg :: rest))
      with (first ++ sep :: join sep (seg :: rest)).
    by rewrite IH.
Qed.

(** The segments of a string: written one after the other with a
    separator between them they give the string, and none holds the
    separator. *)
Lemma split_spec sep s :
  ∃ first rest,
    split sep s = first :: rest
    ∧ s = first ++ concat (map (cons sep) rest)
    ∧ Forall (λ seg, sep ∉ seg) (first :: rest).
Proof.
  pose proof (split_not_nil sep s) as Hnil.
  pose proof (join_split sep s) as Hjoin.
  pose proof (split_no_sep sep s) as Hno.
  destruct (split sep s) as [|first rest]; [done|].
  exists first, rest. split; [done|]. split; [|done].
  by rewrite <- join_cons.
Qed.

(** The code units [isWhiteSpace] accepts. *)
Lemma isWhiteSpace_iff c :
  isWhiteSpace c = true
  ↔ (9 ≤ c ≤ 13 ∨ c = 32 ∨ c = 160 ∨ c = 5760 ∨ 8192 ≤ c ≤ 8202
     ∨ c = 8232 ∨ c = 8233 ∨ c = 8239 ∨ c = 8287 ∨ c = 12288
     ∨ c = 65279)%N.
Proof.
  unfold isWhiteSpace.
  rewrite !orb_true_iff, !andb_true_iff, !N.leb_le, !N.eqb_eq. lia.
Qed.

(** The sub-task texts of "a; b ; c". *)
Example split_trim_abc :
  map trim (split semicolon (lit "a; b ; c")) = [lit "a"; lit "b"; lit "c"].
Proof. reflexivity. Qed.

(** [trimStart] drops a prefix of white space and stops at the first
    character that is not. *)
Lemma trimStart_spec s :
  ∃ pre, s = pre ++ trimStart s
         ∧ Forall (λ c, isWhiteSpace c = true) pre
         ∧ (∀ c, head (trimStart s) = Some c → isWhiteSpace c = false).
Proof.
  induction s as [|c s (pre & Heq & Hpre & Hhd)]; simpl.
  - exists []. repeat split; [done|]. intros c Hc. discriminate.
  - destruct (isWhiteSpace c) eqn:Hc.
    + exists (c :: pre). simpl. rewrite <- Heq. repeat split; [|done].
      by constructor.
    + exists []. repeat split; [done|]. intros c' [= <-]. done.
Qed.

(** [trim] drops white space at both ends and nothing else. *)
Lemma trim_spec s :
  ∃ pre post, s = pre ++ trim s ++ post
    ∧ Forall (λ c, isWhiteSpace c = true) pre
    ∧ Forall (λ c, isWhiteSpace c = true) post
    ∧ (∀ c, head (trim s) = Some c → isWhiteSpace c = false)
    ∧ (∀ c, last (trim s) = Some c → isWhiteSpace c = false).
Proof.
  destruct (trimStart_spec s) as (pre & Heq & Hpre & Hhd).
  destruct (trimStart_spec (reverse (trimStart s)))
    as (post & Heq' & Hpost & Hlast).
  unfold trim, trimEnd. set (m := trimStart s) in *.
  set (r := trimStart (reverse m)) in *.
  assert (Hm : m = reverse r ++ reverse post).
  { rewrite <- reverse_app, <- Heq'. by rewrite reverse_involutive. }
  exists pre, (reverse post). repeat split.
  - by rewrite <- Hm.
  - done.
  - apply Forall_forall. intros c Hc. rewrite elem_of_reverse in Hc.
    rewrite Forall_forall in Hpost. auto.
  - intros c Hc. apply Hhd. rewrite Hm.
    by destruct (reverse r).
  - intros c Hc. apply Hlast. by rewrite last_reverse in Hc.
Qed.

(** [ceil_div a b] is the least integer whose product with [b] reaches
    [a]. *)
Lemma ceil_div_spec a b :
  0 < b → b * (ceil_div a b - 1) < a ≤ b * ceil_div a b.
Proof.
  intros Hb. unfold ceil_div.
  pose proof (Z.div_mod (- a) b ltac:(lia)).
  pose proof (Z.mod_pos_bound (- a) b Hb). nia.
Qed.

Lemma ceil_div_unique a b q :
  0 < b → b * (q - 1) < a ≤ b * q → ceil_div a b = q.
Proof.
  intros Hb Hq. pose proof (ceil_div_spec a b Hb). nia.
Qed.

(** In a zone without clock changes local time is UTC plus one offset. *)
Lemma fixed_offset_inv host :
  fixed_offset host →
  ∃ offset, (∀ t, LocalTime host t = t + offset)
            ∧ (∀ t, UTC host t = t - offset).
Proof.
  intros Hfixed. exists (LocalTZA host 0 true). unfold LocalTime, UTC.
  split; intros t; f_equal; apply Hfixed.
Qed.

End JSFacts.

(** ** Sub-task completion and study time (DailyTaskCard) *)

Module DailyTaskCardFacts.
Import JS DailyTaskCard.

Lemma map_st_fst {S A B} (f : A → S → B * S) (g : A → B) l s :
  (∀ x s', (f x s').1 = g x) → (map_st f l s).1 = map g l.
Proof.
  intros Hfg. revert s. induction l as [|x l IH]; intros s; simpl; [done|].
  specialize (Hfg x s). destruct (f x s) as [y s1]. simpl in Hfg. subst y.
  specialize (IH s1). destruct (map_st f l s1) as [ys s2]. simpl in *.
  by rewrite IH.
Qed.

Lemma updateTask_fst day idx c task s :
  (updateTask day idx c task s).1
  = if decide (DailyTask.day task = day) then rebuildTask task idx c
    else task.
Proof. unfold updateTask. by case_decide. Qed.

(** The list given to [onRoadmapUpdate] is the image of the roadmap under
    the rebuild of the tasks of the day. *)
Lemma handleSubTaskCompletion_fst dailyTasks day idx c :
  (handleSubTaskCompletion dailyTasks day idx c).1
  = map (λ task, if decide (DailyTask.day task = day)
                 then rebuildTask task idx c else task) dailyTasks.
Proof. apply map_st_fst. intros. apply updateTask_fst. Qed.

(** Position by position: the task of the day is rebuilt, any other is
    kept. *)
Lemma handleSubTaskCompletion_at dailyTasks day idx c n task :
  dailyTasks !! n = Some task →
  (handleSubTaskCompletion dailyTasks day idx c).1 !! n
  = Some (if decide (DailyTask.day task = day) then rebuildTask task idx c
          else task).
Proof.
  intros Hn. by rewrite handleSubTaskCompletion_fst, list_lookup_fmap, Hn.
Qed.

Lemma rebuildSubTasks_lookup task idx c i :
  rebuildSubTasks task idx c !! i
  = (λ s, SubTask.mk (trim s)
            (if decide (Z.of_nat i = idx) then c else prevCompleted task i)
            (prevStudyLogs task i))
    <$> split semicolon (DailyTask.task task) !! i.
Proof. unfold rebuildSubTasks. by rewrite list_lookup_imap. Qed.

Lemma rebuildSubTasks_length task idx c :
  length (rebuildSubTasks task idx c)
  = length (split semicolon (DailyTask.task task)).
Proof. apply length_imap. Qed.

(** Rebuilding a rebuilt task with the same event changes nothing. *)
Lemma rebuildTask_idemp task idx c :
  rebuildTask (rebuildTask task idx c) idx c = rebuildTask task idx c.
Proof.
  assert (Hsub : rebuildSubTasks (rebuildTask task idx c) idx c
                 = rebuildSubTasks task idx c).
  { unfold rebuildSubTasks.
    change (DailyTask.task (rebuildTask task idx c))
      with (DailyTask.task task).
    apply imap_ext. intros i seg Hseg. cbv beta.
    unfold prevCompleted at 1, prevStudyLogs at 1, subTaskAt.
    change (DailyTask.subTasks (rebuildTask task idx c))
      with (Some (rebuildSubTasks task idx c)).
    cbn [mbind option_bind].
    rewrite rebuildSubTasks_lookup, Hseg. cbn.
    by case_decide. }
  unfold rebuildTask at 1. by rewrite Hsub.
Qed.

(** The value of [justCompletedTask] after the traversal: either no task
    of the list raised the signal and it is as before, or it is the rebuilt
    form of a task that did. *)
Lemma map_st_updateTask_snd day idx c l s :
  ((map_st (updateTask day idx c) l s).2 = s
   ∧ ∀ task, task ∈ l → ¬ justCompletes day idx c task)
  ∨ (∃ task, task ∈ l ∧ justCompletes day idx c task
       ∧ (map_st (updateTask day idx c) l s).2
         = Some (rebuildTask task idx c)).
Proof.
  revert s. induction l as [|x l IH]; intros s; simpl.
  - left. split; [done|]. by intros t ?%elem_of_nil.
  - destruct (updateTask day idx c x s) as [y s1] eqn:Hx.
    specialize (IH s1). destruct (map_st (updateTask day idx c) l s1)
      as [ys s2]. simpl in *.
    destruct IH as [[-> Hno]|(t & Ht & Hj & ->)].
    + unfold updateTask in Hx. case_decide as Hday.
      * destruct (DailyTask.completed (rebuildTask x idx c)
                  && negb (DailyTask.completed x)) eqn:Hb;
          injection Hx as <- <-.
        -- apply andb_true_iff in Hb as [Hall Hwas].
           apply negb_true_iff in Hwas.
           right. exists x. split; [apply elem_of_cons; by left|].
           by repeat split.
        -- left. split; [done|]. intros t [->|Ht]%elem_of_cons; [|by apply Hno].
           intros (_ & Hwas & Hall). by rewrite Hall, Hwas in Hb.
      * injection Hx as <- <-. left. split; [done|].
        intros t [->|Ht]%elem_of_cons; [|by apply Hno].
        by intros (? & _).
    + right. exists t. split; [apply elem_of_cons; by right|]. done.
Qed.

(** The shape of a rebuilt task: day and text kept, the sub-tasks built
    from the split text, the flag their conjunction. *)
Lemma rebuildTask_shape task idx c :
  rebuildTask task idx c
  = DailyTask.mk (DailyTask.day task) (DailyTask.task task)
      (forallb SubTask.completed (rebuildSubTasks task idx c))
      (Some (rebuildSubTasks task idx c)).
Proof. reflexivity. Qed.

(** The previous completed value at a position is that of the sub-task
    record there, and [false] when the task has no record there. *)
Lemma prevCompleted_spec task i :
  prevCompleted task i
  = match DailyTask.subTasks task with
    | Some previous =>
        match previous !! i with
        | Some subTask => SubTask.completed subTask
        | None => false
        end
    | None => false
    end.
Proof.
  unfold prevCompleted, subTaskAt.
  destruct (DailyTask.subTasks task) as [previous|]; simpl; [|done].
  by destruct (previous !! i).
Qed.

Lemma prevStudyLogs_spec task i :
  prevStudyLogs task i
  = match DailyTask.subTasks task with
    | Some previous =>
        match previous !! i with
        | Some subTask => SubTask.studyLogs subTask
        | None => []
        end
    | None => []
    end.
Proof.
  unfold prevStudyLogs, subTaskAt.
  destruct (DailyTask.subTasks task) as [previous|]; simpl; [|done].
  by destruct (previous !! i).
Qed.

(** C1. For every roadmap, day, sub-task index and new value,
    [handleSubTaskCompletion] returns a list of the same length in which
    every task of another day stands unchanged at its position, and every
    task of the given day is replaced by a task with the same day and text
    and with one sub-task for each segment of the text split on [;] (the
    segments, written one after the other with a [;] between them, give
    the text, and none holds a [;]).  The text of a sub-task is its
    segment without the white space at its two ends; its completed value
    is the new value at the given index and elsewhere the completed value
    of the sub-task the task had at that position before ([false] when it
    had none); its study logs are those of that sub-task (none when it had
    none).  The completed flag of the task is the conjunction of the
    completed values of these sub-tasks. *)
Theorem handleSubTaskCompletion_rebuilds
    (dailyTasks : list DailyTask.t) (day subTaskIndex : Z) (completed : bool) :
  let updatedTasks :=
    (handleSubTaskCompletion dailyTasks day subTaskIndex completed).1 in
  let whiteSpace (c : N) : Prop :=
    (9 ≤ c ≤ 13 ∨ c = 32 ∨ c = 160 ∨ c = 5760 ∨ 8192 ≤ c ≤ 8202
     ∨ c = 8232 ∨ c = 8233 ∨ c = 8239 ∨ c = 8287 ∨ c = 12288
     ∨ c = 65279)%N in
  length updatedTasks = length dailyTasks
  ∧ ∀ (n : nat) (task : DailyTask.t),
      dailyTasks !! n = Some task →
      (DailyTask.day task ≠ day → updatedTasks !! n = Some task)
      ∧ (DailyTask.day task = day →
         ∃ (first : jsstring) (rest : list jsstring)
           (subTasks : list SubTask.t),
           DailyTask.task task
           = first ++ concat (map (cons (N_of_ascii ";")) rest)
           ∧ Forall (λ segment, N_of_ascii ";" ∉ segment) (first :: rest)
           ∧ updatedTasks !! n
             = Some (DailyTask.mk (DailyTask.day task) (DailyTask.task task)
                       (forallb SubTask.completed subTasks) (Some subTasks))
           ∧ (forallb SubTask.completed subTasks = true
              ↔ ∀ subTask, subTask ∈ subTasks →
                  SubTask.completed subTask = true)
           ∧ length subTasks = length (first :: rest)
           ∧ ∀ (i : nat) (segment : jsstring),
               (first :: rest) !! i = Some segment →
               ∃ subTask : SubTask.t,
                 subTasks !! i = Some subTask
                 ∧ (∃ pre post,
                      segment = pre ++ SubTask.text subTask ++ post
                      ∧ Forall whiteSpace pre ∧ Forall whiteSpace post)
                 ∧ (∀ c, head (SubTask.text subTask) = Some c →
                      ¬ whiteSpace c)
                 ∧ (∀ c, last (SubTask.text subTask) = Some c →
                      ¬ whiteSpace c)
                 ∧ SubTask.completed subTask
                   = (if decide (Z.of_nat i = subTaskIndex) then completed
                      else match DailyTask.subTasks task with
                           | Some previous =>
                               match previous !! i with
                               | Some before => SubTask.completed before
                               | None => false
                               end
                           | None => false
                           end)
                 ∧ SubTask.studyLogs subTask
                   = match DailyTask.subTasks task with
                     | Some previous =>
                         match previous !! i with
                         | Some before => SubTask.studyLogs before
                         | None => []
                         end
                     | None => []
                     end).
Proof.
  intros updatedTasks whiteSpace. subst updatedTasks. split.
  { by rewrite handleSubTaskCompletion_fst, length_map. }
  intros n task Hn.
  rewrite (handleSubTaskCompletion_at _ _ _ _ _ _ Hn). split.
  - intros Hday. by rewrite decide_False.
  - intros Hday. rewrite decide_True by done.
    destruct (JSFacts.split_spec semicolon (DailyTask.task task))
      as (first & rest & Hsplit & Htext & Hno).
    exists first, rest, (rebuildSubTasks task subTaskIndex completed).
    split; [exact Htext|]. split; [exact Hno|].
    split; [by rewrite rebuildTask_shape|]. split.
    { rewrite forallb_forall. split; intros Hall subTask Hin;
        apply Hall; by apply list_elem_of_In. }
    split; [by rewrite rebuildSubTasks_length, Hsplit|].
    intros i segment Hseg. rewrite <- Hsplit in Hseg.
    eexists. split; [by rewrite rebuildSubTasks_lookup, Hseg|].
    cbn [SubTask.text SubTask.completed SubTask.studyLogs].
    destruct (JSFacts.trim_spec segment)
      as (pre & post & Heq & Hpre & Hpost & Hhead & Hlast).
    split; [|split; [|split; [|split]]].
    + exists pre, post. split; [exact Heq|].
      split; (eapply Forall_impl; [eassumption|]);
        intros c Hc; by apply JSFacts.isWhiteSpace_iff.
    + intros c Hc Hws. apply JSFacts.isWhiteSpace_iff in Hws.
      by rewrite (Hhead c Hc) in Hws.
    + intros c Hc Hws. apply JSFacts.isWhiteSpace_iff in Hws.
      by rewrite (Hlast c Hc) in Hws.
    + by rewrite prevCompleted_spec.
    + by rewrite prevStudyLogs_spec.
Qed.

(** C9. When no task of the roadmap has the given day,
    [handleSubTaskCompletion] returns the roadmap unchanged and no
    just-completed task. *)
Theorem handleSubTaskCompletion_lookup_miss
    (dailyTasks : list DailyTask.t) (day subTaskIndex : Z) (completed : bool) :
  Forall (λ task, DailyTask.day task ≠ day) dailyTasks →
  handleSubTaskCompletion dailyTasks day subTaskIndex completed
  = (dailyTasks, None).
Proof.
  intros Hmiss. rewrite Forall_forall in Hmiss.
  pose proof (handleSubTaskCompletion_fst dailyTasks day subTaskIndex completed)
    as Hfst.
  pose proof (map_st_updateTask_snd day subTaskIndex completed dailyTasks None)
    as Hsnd.
  fold (handleSubTaskCompletion dailyTasks day subTaskIndex completed) in Hsnd.
  destruct (handleSubTaskCompletion dailyTasks day subTaskIndex completed)
    as [updated just]. simpl in *. f_equal.
  - rewrite Hfst. rewrite <- (list_fmap_id dailyTasks) at 2.
    apply list_fmap_ext. intros i task Hi. case_decide as Hday; [|done].
    exfalso. eapply Hmiss; [|exact Hday]. by eapply list_elem_of_lookup_2.
  - destruct Hsnd as [[-> _]|(task & Hin & (Hday & _) & _)]; [done|].
    exfalso. by eapply Hmiss.
Qed.

Lemma handleSubTaskCompletion_lookup_miss_witness :
  Forall (λ task, DailyTask.day task ≠ 7) roadmap_example
  ∧ handleSubTaskCompletion roadmap_example 7 0 true
    = (roadmap_example, None).
Proof.
  assert (H : Forall (λ task, DailyTask.day task ≠ 7) roadmap_example).
  { repeat constructor; simpl; lia. }
  split; [exact H|].
  exact (handleSubTaskCompletion_lookup_miss roadmap_example 7 0 true H).
Defined.

(** C10. [handleSubTaskCompletion] is a total function, and for a
    sub-task index that is not a position of the split text of a task of
    the given day (negative, or at least the number of segments), the task
    is rebuilt with, at every position, the trimmed segment, the completed
    value and study logs of the previous sub-task record at that position
    ([false] and no logs when there is none), and the completed flag is the
    conjunction of those values: the new value is used nowhere. *)
Theorem handleSubTaskCompletion_index_out_of_range
    (dailyTasks : list DailyTask.t) (day subTaskIndex : Z) (completed : bool)
    (n : nat) (task : DailyTask.t) :
  dailyTasks !! n = Some task →
  DailyTask.day task = day →
  subTaskIndex < 0
  ∨ Z.of_nat (length (split semicolon (DailyTask.task task)))
    ≤ subTaskIndex →
  ∃ subTasks : list SubTask.t,
    (handleSubTaskCompletion dailyTasks day subTaskIndex completed).1 !! n
    = Some (DailyTask.mk (DailyTask.day task) (DailyTask.task task)
              (forallb SubTask.completed subTasks) (Some subTasks))
    ∧ length subTasks = length (split semicolon (DailyTask.task task))
    ∧ ∀ (i : nat) (segment : jsstring),
        split semicolon (DailyTask.task task) !! i = Some segment →
        subTasks !! i
        = Some (SubTask.mk (trim segment)
                  (match DailyTask.subTasks task ≫= (λ previous, previous !! i)
                   with
                   | Some subTask => SubTask.completed subTask
                   | None => false
                   end)
                  (match DailyTask.subTasks task ≫= (λ previous, previous !! i)
                   with
                   | Some subTask => SubTask.studyLogs subTask
                   | None => []
                   end)).
Proof.
  intros Hn Hday Hrange.
  rewrite (handleSubTaskCompletion_at _ _ _ _ _ _ Hn).
  rewrite decide_True by done.
  exists (rebuildSubTasks task subTaskIndex completed).
  split; [by rewrite rebuildTask_shape|].
  split; [apply rebuildSubTasks_length|].
  intros i segment Hseg. rewrite rebuildSubTasks_lookup, Hseg. simpl.
  apply lookup_lt_Some in Hseg.
  rewrite decide_False by lia.
  rewrite prevCompleted_spec, prevStudyLogs_spec.
  destruct (DailyTask.subTasks task) as [previous|]; simpl; [|done].
  by destruct (previous !! i).
Qed.

Lemma handleSubTaskCompletion_index_out_of_range_witness :
  roadmap_example !! 0%nat = Some task_day1
  ∧ DailyTask.day task_day1 = 1
  ∧ (3 < 0
     ∨ Z.of_nat (length (split semicolon (DailyTask.task task_day1))) ≤ 3)
  ∧ ∃ subTasks : list SubTask.t,
      (handleSubTaskCompletion roadmap_example 1 3 true).1 !! 0%nat
      = Some (DailyTask.mk (DailyTask.day task_day1)
                (DailyTask.task task_day1)
                (forallb SubTask.completed subTasks) (Some subTasks))
      ∧ length subTasks
        = length (split semicolon (DailyTask.task task_day1))
      ∧ ∀ (i : nat) (segment : jsstring),
          split semicolon (DailyTask.task task_day1) !! i = Some segment →
          subTasks !! i
          = Some (SubTask.mk (trim segment)
                    (match DailyTask.subTasks task_day1
                           ≫= (λ previous, previous !! i)
                     with
                     | Some subTask => SubTask.completed subTask
                     | None => false
                     end)
                    (match DailyTask.subTasks task_day1
                           ≫= (λ previous, previous !! i)
                     with
                     | Some subTask => SubTask.studyLogs subTask
                     | None => []
                     end)).
Proof.
  assert (H : 3 < 0
     ∨ Z.of_nat (length (split semicolon (DailyTask.task task_day1))) ≤ 3).
  { right. vm_compute. discriminate. }
  exact (conj eq_refl (conj eq_refl (conj H
    (handleSubTaskCompletion_index_out_of_range roadmap_example 1 3 true
       0 task_day1 eq_refl eq_refl H)))).
Defined.

(** With three segments and one previous record, index 3 changes no
    completed value: the sub-tasks are rebuilt from what was there. *)
Example handleSubTaskCompletion_index_3_of_3 :
  handleSubTaskCompletion roadmap_example 1 3 true
  = ([ DailyTask.mk 1 (lit "read; write ;rest") false
         (Some [SubTask.mk (lit "read") true [Build_StudyLog 45];
                SubTask.mk (lit "write") false [];
                SubTask.mk (lit "rest") false []]);
       DailyTask.mk 2 (lit "run") false None ],
     None).
Proof. vm_compute. reflexivity. Qed.

(** C4. Applying the same completion event a second time, to the list
    the first application returned, returns that list again and no
    just-completed task.  A just-completed task is returned exactly when a
    task of the given day was not complete and its recomputed flag is true,
    and it is then the rebuilt form of such a task, which stands in the
    returned list. *)
Theorem handleSubTaskCompletion_idempotent
    (dailyTasks : list DailyTask.t) (day subTaskIndex : Z) (completed : bool) :
  let first := handleSubTaskCompletion dailyTasks day subTaskIndex completed in
  let second := handleSubTaskCompletion first.1 day subTaskIndex completed in
  second.1 = first.1
  ∧ second.2 = None
  ∧ (∀ justCompleted : DailyTask.t,
       first.2 = Some justCompleted →
       justCompleted ∈ first.1
       ∧ ∃ task, task ∈ dailyTasks
           ∧ DailyTask.day task = day
           ∧ DailyTask.completed task = false
           ∧ justCompleted = rebuildTask task subTaskIndex completed
           ∧ DailyTask.completed justCompleted = true)
  ∧ (∀ task : DailyTask.t,
       task ∈ dailyTasks →
       DailyTask.day task = day →
       DailyTask.completed task = false →
       DailyTask.completed (rebuildTask task subTaskIndex completed) = true →
       is_Some first.2).
Proof.
  intros first second.
  assert (Hfirst : first.1
    = map (λ task, if decide (DailyTask.day task = day)
                   then rebuildTask task subTaskIndex completed else task)
          dailyTasks) by apply handleSubTaskCompletion_fst.
  assert (Hidem : second.1 = first.1).
  { subst second. rewrite handleSubTaskCompletion_fst, Hfirst.
    rewrite <- list_fmap_compose. apply list_fmap_ext. intros i task _.
    simpl. destruct (decide (DailyTask.day task = day)) as [Hday|Hday].
    - rewrite decide_True by done. apply rebuildTask_idemp.
    - by rewrite decide_False. }
  split; [exact Hidem|]. split; [|split].
  - destruct (map_st_updateTask_snd day subTaskIndex completed first.1 None)
      as [[Hnone _]|(task & Hin & (Hday & Hwas & Hall) & _)]; [exact Hnone|].
    exfalso. rewrite Hfirst in Hin. apply list_elem_of_fmap in Hin
      as (task0 & -> & _).
    destruct (decide (DailyTask.day task0 = day)) as [Hday0|Hday0];
      [|done].
    rewrite rebuildTask_idemp in Hall. congruence.
  - intros justCompleted Hjust.
    destruct (map_st_updateTask_snd day subTaskIndex completed dailyTasks None)
      as [[Hnone _]|(task & Hin & (Hday & Hwas & Hall) & Hsome)].
    + change (first.2 = None) in Hnone. congruence.
    + change (first.2 = Some (rebuildTask task subTaskIndex completed))
        in Hsome.
      rewrite Hsome in Hjust. injection Hjust as <-.
      split.
      * rewrite Hfirst. apply list_elem_of_fmap. exists task.
        split; [|done]. by rewrite decide_True.
      * exists task. by repeat split.
  - intros task Hin Hday Hwas Hall.
    destruct (map_st_updateTask_snd day subTaskIndex completed dailyTasks None)
      as [[_ Hno]|(task' & _ & _ & Hsome)].
    + exfalso. apply (Hno task Hin). by repeat split.
    + change (first.2 = Some (rebuildTask task' subTaskIndex completed))
        in Hsome.
      by rewrite Hsome.
Qed.

(** The second call of the idempotence law on a concrete roadmap: checking
    the last open sub-task completes the day and raises the signal, and the
    same event again changes nothing and raises none. *)
Example handleSubTaskCompletion_twice :
  let roadmap := [DailyTask.mk 1 (lit "a; b") false
                    (Some [SubTask.mk (lit "a") true [];
                           SubTask.mk (lit "b") false []])] in
  let done_ := DailyTask.mk 1 (lit "a; b") true
                 (Some [SubTask.mk (lit "a") true [];
                        SubTask.mk (lit "b") true []]) in
  handleSubTaskCompletion roadmap 1 1 true = ([done_], Some done_)
  ∧ handleSubTaskCompletion [done_] 1 1 true = ([done_], None).
Proof. vm_compute. split; reflexivity. Qed.

Lemma totalSeconds_acc logs acc :
  fold_left (λ acc log, acc + duration log)%N logs acc
  = (acc + totalSeconds logs)%N.
Proof.
  unfold totalSeconds. revert acc.
  induction logs as [|log logs IH]; intros acc; simpl; [lia|].
  rewrite (IH (acc + _)%N), (IH (0 + _)%N). lia.
Qed.

(** The total is the sum of the durations. *)
Lemma totalSeconds_cons log logs :
  totalSeconds (log :: logs) = (duration log + totalSeconds logs)%N.
Proof. unfold totalSeconds at 1. simpl. apply totalSeconds_acc. Qed.

(** The total is the sum of the durations of all the logs. *)
Lemma totalSeconds_sum logs :
  totalSeconds logs = fold_right N.add 0%N (map duration logs).
Proof.
  induction logs as [|log logs IH]; [done|].
  rewrite totalSeconds_cons, IH. done.
Qed.

(** C5. [formatStudyTime] returns [null] for an absent or empty list of
    logs and whenever the durations of the logs sum to 0; otherwise, with
    hours, minutes and seconds the floor quotients and remainders of the
    sum of the durations, it returns the hours and minutes when hours > 0,
    else the minutes and seconds when minutes > 0, else the seconds alone.
    A single log of 0, 45, 125 and 3725 seconds gives [null],
    "45s logged", "2m 5s logged" and "1h 2m logged", and so do several
    logs with these sums. *)
Theorem formatStudyTime_spec :
  formatStudyTime None = None
  ∧ formatStudyTime (Some []) = None
  ∧ (∀ logs : list StudyLog,
       let total := fold_right N.add 0%N (map duration logs) in
       let hours := (total / 3600)%N in
       let minutes := ((total mod 3600) / 60)%N in
       let seconds := (total mod 60)%N in
       (total = 0%N → formatStudyTime (Some logs) = None)
       ∧ (total ≠ 0%N → (0 < hours)%N →
          formatStudyTime (Some logs)
          = Some (Number_toString (Z.of_N hours) ++ lit "h "
                  ++ Number_toString (Z.of_N minutes) ++ lit "m logged"))
       ∧ (total ≠ 0%N → hours = 0%N → (0 < minutes)%N →
          formatStudyTime (Some logs)
          = Some (Number_toString (Z.of_N minutes) ++ lit "m "
                  ++ Number_toString (Z.of_N seconds) ++ lit "s logged"))
       ∧ (total ≠ 0%N → hours = 0%N → minutes = 0%N →
          formatStudyTime (Some logs)
          = Some (Number_toString (Z.of_N seconds) ++ lit "s logged")))
  ∧ formatStudyTime (Some [Build_StudyLog 0]) = None
  ∧ formatStudyTime (Some [Build_StudyLog 45]) = Some (lit "45s logged")
  ∧ formatStudyTime (Some [Build_StudyLog 125]) = Some (lit "2m 5s logged")
  ∧ formatStudyTime (Some [Build_StudyLog 3725])
    = Some (lit "1h 2m logged")
  ∧ formatStudyTime (Some [Build_StudyLog 0; Build_StudyLog 0]) = None
  ∧ formatStudyTime (Some [Build_StudyLog 40; Build_StudyLog 5])
    = Some (lit "45s logged")
  ∧ formatStudyTime (Some [Build_StudyLog 0; Build_StudyLog 65;
                           Build_StudyLog 60])
    = Some (lit "2m 5s logged")
  ∧ formatStudyTime (Some [Build_StudyLog 3600; Build_StudyLog 65;
                           Build_StudyLog 60])
    = Some (lit "1h 2m logged").
Proof.
  split; [done|]. split; [done|]. split.
  - intros logs. rewrite <- totalSeconds_sum.
    intros total hours minutes seconds. subst total hours minutes seconds.
    split.
    { intros Hzero. destruct logs as [|log logs]; [done|].
      unfold formatStudyTime. by rewrite Hzero. }
    assert (Hformat : totalSeconds logs ≠ 0%N →
      formatStudyTime (Some logs)
      = if (0 <? totalSeconds logs / 3600)%N then
          Some (Number_toString (Z.of_N (totalSeconds logs / 3600))
                ++ lit "h "
                ++ Number_toString
                     (Z.of_N (totalSeconds logs mod 3600 / 60))
                ++ lit "m logged")
        else if (0 <? totalSeconds logs mod 3600 / 60)%N then
          Some (Number_toString
                  (Z.of_N (totalSeconds logs mod 3600 / 60)) ++ lit "m "
                ++ Number_toString (Z.of_N (totalSeconds logs mod 60))
                ++ lit "s logged")
        else Some (Number_toString (Z.of_N (totalSeconds logs mod 60))
                   ++ lit "s logged")).
    { intros Htotal. destruct logs as [|log logs]; [done|].
      unfold formatStudyTime.
      by rewrite (proj2 (N.eqb_neq _ _) Htotal). }
    split; [|split].
    + intros Htotal Hh. rewrite (Hformat Htotal).
      apply N.ltb_lt in Hh. by rewrite Hh.
    + intros Htotal Hh Hm. rewrite (Hformat Htotal), Hh.
      apply N.ltb_lt in Hm. by rewrite Hm.
    + intros Htotal Hh Hm. by rewrite (Hformat Htotal), Hh, Hm.
  - vm_compute. repeat split; reflexivity.
Qed.

End DailyTaskCardFacts.

(** ** Missions and deadlines (TaskManager) *)

Module TaskManagerFacts.
Import JS JSFacts TaskManager.

(** *** The time-remaining label *)

(** C2, as stated, fails on its scenarios: from 2024-01-10T00:00:00 the
    target 2024-01-12T23:59:59 is one second short of three days away, so
    the label is "3 days left" and not "2 days left"; and the target
    2024-01-10T12:00:00 is half a day away, so the label is "1 day left"
    and not "Today!". *)
Lemma getTimeLeft_scenarios_counterexample :
  getTimeLeft scenario_now scenario_in_three_days = lit "3 days left"
  ∧ getTimeLeft scenario_now scenario_in_three_days ≠ lit "2 days left"
  ∧ getTimeLeft scenario_now scenario_noon = lit "1 day left"
  ∧ getTimeLeft scenario_now scenario_noon ≠ lit "Today!".
Proof. vm_compute. repeat split; discriminate. Qed.

(** C2, amended. For every target date and now, with [days] the ceiling
    of (target - now) / 86400000, [getTimeLeft] returns "{days} days left"
    when days > 1, "1 day left" when days = 1, "Today!" when days = 0 and
    "{abs(days)} days overdue" when days < 0; with now =
    2024-01-10T00:00:00 the targets 2024-01-12T23:59:59,
    2024-01-10T12:00:00 and 2024-01-08T00:00:00 give "3 days left",
    "1 day left" and "2 days overdue". *)
Theorem getTimeLeft_spec (now target : Z) :
  let days := ceil_div (target - now) 86400000 in
  86400000 * (days - 1) < target - now ≤ 86400000 * days
  ∧ (1 < days →
     getTimeLeft now (Some target) = Number_toString days ++ lit " days left")
  ∧ (days = 1 → getTimeLeft now (Some target) = lit "1 day left")
  ∧ (days = 0 → getTimeLeft now (Some target) = lit "Today!")
  ∧ (days < 0 →
     getTimeLeft now (Some target)
     = Number_toString (Z.abs days) ++ lit " days overdue")
  ∧ getTimeLeft scenario_now scenario_in_three_days = lit "3 days left"
  ∧ getTimeLeft scenario_now scenario_noon = lit "1 day left"
  ∧ getTimeLeft scenario_now scenario_two_days_ago = lit "2 days overdue".
Proof.
  intros days. split; [by apply ceil_div_spec|].
  unfold getTimeLeft. change (1000 * 60 * 60 * 24) with 86400000.
  fold days. repeat split.
  - intros Hd. apply Z.ltb_lt in Hd. by rewrite Hd.
  - intros ->. done.
  - intros ->. done.
  - intros Hd.
    destruct (1 <? days) eqn:H1; [apply Z.ltb_lt in H1; lia|].
    destruct (days =? 1) eqn:H2; [apply Z.eqb_eq in H2; lia|].
    destruct (days =? 0) eqn:H3; [apply Z.eqb_eq in H3; lia|]. done.
Qed.

(** The label of a date that is not one. *)
Example getTimeLeft_invalid_date now :
  getTimeLeft now None = lit "NaN days overdue".
Proof. reflexivity. Qed.

(** *** Deleting a mission *)

(** C3, as stated, fails when the selection is the id of no task of the
    list: deleting the only task "a" while "z" is selected removes a task
    that is not the selected one and still sets the selection to null. *)
Lemma handleDelete_selection_counterexample :
  selectedTaskId (delete_state [mission "a"] (Some (lit "z")))
  ≠ Some (lit "a")
  ∧ selectedTaskId
      (handleDelete (lit "a") (delete_state [mission "a"] (Some (lit "z"))))
    = None
  ∧ selectedTaskId
      (handleDelete (lit "a") (delete_state [mission "a"] (Some (lit "z"))))
    ≠ selectedTaskId (delete_state [mission "a"] (Some (lit "z"))).
Proof. vm_compute. repeat split; discriminate. Qed.

(** C3, amended. [handleDelete] keeps, in order, exactly the tasks whose
    id is not the deleted one.  If the deleted id was the selected one, the
    selection becomes the id of the first remaining task, or null when none
    remains.  If it was not, the selection is unchanged while tasks remain
    and becomes null when none remains; in particular it is unchanged
    whenever it was null or the id of a task of the list.  The rest of the
    state is untouched. *)
Theorem handleDelete_spec (taskId : jsstring) (st : State) :
  let st' := handleDelete taskId st in
  tasks st' = filter (λ task, Task.id task ≠ taskId) (tasks st)
  ∧ (∀ task, task ∈ tasks st' ↔ task ∈ tasks st ∧ Task.id task ≠ taskId)
  ∧ (selectedTaskId st = Some taskId →
     selectedTaskId st' = Task.id <$> head (tasks st'))
  ∧ (selectedTaskId st ≠ Some taskId →
     (tasks st' ≠ [] → selectedTaskId st' = selectedTaskId st)
     ∧ (tasks st' = [] → selectedTaskId st' = None)
     ∧ (selectedTaskId st = None
        ∨ (∃ task, task ∈ tasks st ∧ selectedTaskId st = Some (Task.id task))
        → selectedTaskId st' = selectedTaskId st))
  ∧ isAddDialogOpen st' = isAddDialogOpen st
  ∧ editingTask st' = editingTask st
  ∧ deadlineType st' = deadlineType st
  ∧ numberOfDays st' = numberOfDays st
  ∧ formData st' = formData st.
Proof.
  intros st'. subst st'. unfold handleDelete. simpl.
  set (updatedTasks := filter (λ task, Task.id task ≠ taskId) (tasks st)).
  split; [done|]. split.
  { intros task. unfold updatedTasks. rewrite list_elem_of_filter. tauto. }
  split; [|split; [|done]].
  - intros Hsel. rewrite bool_decide_eq_true_2 by done.
    destruct updatedTasks as [|first rest]; done.
  - intros Hsel. rewrite bool_decide_eq_false_2 by done. simpl.
    assert (Hnonempty : updatedTasks ≠ [] →
              (if (length updatedTasks =? 0)%nat then None
               else selectedTaskId st) = selectedTaskId st).
    { by destruct updatedTasks. }
    split; [done|]. split.
    + by intros ->.
    + intros [Hnone|(task & Hin & Htask)].
      * rewrite Hnone. by destruct (length updatedTasks =? 0)%nat.
      * apply Hnonempty. intros Hempty.
        assert (Hin' : task ∈ updatedTasks).
        { apply list_elem_of_filter. split; [congruence|done]. }
        rewrite Hempty in Hin'. by apply elem_of_nil in Hin'.
Qed.

(** The deletion selection law on a list of three. *)
Example handleDelete_three :
  let three := [mission "a"; mission "b"; mission "c"] in
  handleDelete (lit "a") (delete_state three (Some (lit "a")))
  = delete_state [mission "b"; mission "c"] (Some (lit "b"))
  ∧ handleDelete (lit "b") (delete_state three (Some (lit "a")))
    = delete_state [mission "a"; mission "c"] (Some (lit "a"))
  ∧ handleDelete (lit "a") (delete_state [mission "a"] (Some (lit "a")))
    = delete_state [] None.
Proof. vm_compute. repeat split; reflexivity. Qed.

(** *** Submitting a mission *)

Lemma endOfDay_value : endOfDay = msPerDay - 1.
Proof. reflexivity. Qed.

Section Submit.
Variable host : Host.

(** In a zone without clock changes every local time exists. *)
Lemma LocalTime_UTC t : fixed_offset host → LocalTime host (UTC host t) = t.
Proof.
  intros Hfixed. unfold LocalTime, UTC.
  rewrite (Hfixed (t - LocalTZA host t false) true t false). lia.
Qed.

Lemma Day_MakeDate day time :
  0 ≤ time < msPerDay →
  Day (MakeDate day time) = day ∧ TimeWithinDay (MakeDate day time) = time.
Proof.
  intros Htime. unfold Day, TimeWithinDay, MakeDate. split.
  - symmetry. apply (Z.div_unique _ _ day time); lia.
  - symmetry. apply (Z.mod_unique _ _ day time); lia.
Qed.

(** The local end of day lies in the same local day, at 23:59:59.999,
    when the zone has that local time. *)
Lemma localEndOfDay_spec c :
  local_time_exists host (MakeDate (Day (LocalTime host c)) endOfDay) →
  Day (LocalTime host (localEndOfDay host c)) = Day (LocalTime host c)
  ∧ TimeWithinDay (LocalTime host (localEndOfDay host c)) = endOfDay.
Proof.
  unfold local_time_exists, localEndOfDay. intros ->.
  apply Day_MakeDate. rewrite endOfDay_value. unfold msPerDay. lia.
Qed.

Lemma TimeClip_Some t t' : TimeClip t = Some t' → t' = t.
Proof. unfold TimeClip. case_match; congruence. Qed.

Lemma setHours_endOfDay (d : Date) :
  setHours host 23 59 59 999 d = d ≫= (λ c, TimeClip (localEndOfDay host c)).
Proof. reflexivity. Qed.

(** A date set to 23:59:59.999 that is still a date is the local end of
    the local day it was in, as the host reads that local time. *)
Lemma setHours_endOfDay_Some (d : Date) (t : Z) :
  setHours host 23 59 59 999 d = Some t →
  ∃ c, d = Some c
       ∧ t = localEndOfDay host c
       ∧ (local_time_exists host (MakeDate (Day (LocalTime host c)) endOfDay) →
          Day (LocalTime host t) = Day (LocalTime host c)
          ∧ TimeWithinDay (LocalTime host t) = endOfDay).
Proof.
  rewrite setHours_endOfDay. destruct d as [c|]; simpl; [|done].
  intros ->%TimeClip_Some. exists c.
  split; [done|]. split; [done|]. apply localEndOfDay_spec.
Qed.

(** A date moved by [n] days of the month that is still a date is what
    the host reads the local time [n] days later as; it lies [n] local
    days later, at the same local time of day, when the zone has that
    local time. *)
Lemma setDate_getDate_plus_Some (n now c : Z) :
  setDate_getDate_plus host n (Some now) = Some c →
  let moved := MakeDate (Day (LocalTime host now) + n)
                        (TimeWithinDay (LocalTime host now)) in
  c = UTC host moved
  ∧ (local_time_exists host moved →
     Day (LocalTime host c) = Day (LocalTime host now) + n
     ∧ TimeWithinDay (LocalTime host c)
       = TimeWithinDay (LocalTime host now)).
Proof.
  unfold setDate_getDate_plus. simpl. intros Hc.
  apply TimeClip_Some in Hc. subst c. cbv zeta.
  split; [done|]. unfold local_time_exists. intros ->.
  apply Day_MakeDate. apply Z.mod_pos_bound. reflexivity.
Qed.

(** The handler accepts exactly the valid requests. *)
Lemma requestedDate_valid now st :
  validRequest st ↔ is_Some (requestedDate host now st).
Proof.
  unfold validRequest, requestedDate.
  destruct (deadlineType st).
  - destruct (FormData.targetDate (formData st)) as [|c s]; simpl.
    + split; [done|]. by intros [? ?].
    + split; [eauto|done].
  - destruct (parseInt (numberOfDays st)) as [n|].
    + destruct (Z.eqb_spec n 0) as [->|Hn0]; simpl.
      * split; [intros (? & [= <-] & ?); lia | by intros [? ?]].
      * destruct (Z.leb_spec n 0); simpl.
        -- split; [intros (? & [= <-] & ?); lia | by intros [? ?]].
        -- split; [eauto|]. intros _. exists n. split; [done|lia].
    + split; [by intros (? & ? & ?) | by intros [? ?]].
Qed.

Lemma handleSubmit_invalid now st :
  ¬ validRequest st → handleSubmit host now st = st.
Proof.
  intros Hinvalid. unfold handleSubmit.
  destruct (requestedDate host now st) as [d|] eqn:Hd; [|done].
  exfalso. apply Hinvalid. apply (requestedDate_valid now). by rewrite Hd.
Qed.

(** C6, amended. [handleSubmit] changes nothing, neither the task list
    nor the form, in date mode when the date string is empty and in days
    mode when the number of days is not a number or parses to a number that
    is not positive.  It does not look at the title: a valid request with
    no task under edit appends a task that carries the title of the form,
    whatever it is. *)
Theorem handleSubmit_rejects (now : Z) (st : State) :
  (deadlineType st = DeadlineType.date →
   FormData.targetDate (formData st) = [] →
   handleSubmit host now st = st)
  ∧ (deadlineType st = DeadlineType.days →
     parseInt (numberOfDays st) = None →
     handleSubmit host now st = st)
  ∧ (deadlineType st = DeadlineType.days →
     ∀ n : Z, parseInt (numberOfDays st) = Some n → n ≤ 0 →
     handleSubmit host now st = st)
  ∧ (validRequest st → editingTask st = None →
     ∃ newTask : Task.t,
       tasks (handleSubmit host now st) = tasks st ++ [newTask]
       ∧ Task.title newTask = FormData.title (formData st)).
Proof.
  repeat split.
  - intros Hmode Hempty. apply handleSubmit_invalid.
    unfold validRequest. rewrite Hmode, Hempty. intros Hne. by apply Hne.
  - intros Hmode Hnan. apply handleSubmit_invalid.
    unfold validRequest. rewrite Hmode, Hnan. by intros (? & ? & ?).
  - intros Hmode n Hn Hle. apply handleSubmit_invalid.
    unfold validRequest. rewrite Hmode, Hn. intros (? & [= <-] & ?). lia.
  - intros [computed Hc]%(requestedDate_valid now) Hnew.
    unfold handleSubmit. rewrite Hc, Hnew. simpl. eauto.
Qed.

(** C7, amended. On a valid request with no task under edit, the list
    after [handleSubmit] is the list before with one task appended; its
    start date is now, its category is "General" when the category of the
    form is empty (and the category of the form otherwise), its id is the
    text of now, and its target date is the date the request computes (the
    parsed date string in date mode, now moved by the parsed number of
    days in days mode) with [setHours(23, 59, 59, 999)] applied.  When the
    computed date is not a date, neither is the target date.  When it is,
    the target date is the instant the host reads 23:59:59.999 of the
    local day of the computed date as, or no date when that instant is
    beyond the range of time values; it shows that day and 23:59:59.999 on
    the local clock when the zone has that local time, which is always so
    in a zone without clock changes. *)
Theorem handleSubmit_appends (now : Z) (st : State) :
  editingTask st = None →
  validRequest st →
  ∃ (computed : Date) (newTask : Task.t),
    requestedDate host now st = Some computed
    ∧ tasks (handleSubmit host now st) = tasks st ++ [newTask]
    ∧ Task.startDate newTask = Some now
    ∧ (FormData.category (formData st) = [] →
       Task.category newTask = lit "General")
    ∧ (FormData.category (formData st) ≠ [] →
       Task.category newTask = FormData.category (formData st))
    ∧ Task.title newTask = FormData.title (formData st)
    ∧ Task.priority newTask = FormData.priority (formData st)
    ∧ Task.id newTask = Number_toString now
    ∧ (deadlineType st = DeadlineType.date →
       computed = Date_ofString host (FormData.targetDate (formData st)))
    ∧ (deadlineType st = DeadlineType.days →
       ∃ n : Z, parseInt (numberOfDays st) = Some n ∧ 0 < n
         ∧ computed = setDate_getDate_plus host n (Some now)
         ∧ ∀ c, computed = Some c →
             local_time_exists host
               (MakeDate (Day (LocalTime host now) + n)
                         (TimeWithinDay (LocalTime host now))) →
             Day (LocalTime host c) = Day (LocalTime host now) + n)
    ∧ Task.targetDate newTask = setHours host 23 59 59 999 computed
    ∧ (computed = None → Task.targetDate newTask = None)
    ∧ (∀ c : Z, computed = Some c →
       let localDay := LocalTime host c / 86400000 in
       let localEnd := localDay * 86400000 + 86399999 in
       let target := localEnd - LocalTZA host localEnd false in
       (Z.abs target ≤ 8640000000000000 →
        Task.targetDate newTask = Some target)
       ∧ (8640000000000000 < Z.abs target →
          Task.targetDate newTask = None)
       ∧ (local_time_exists host localEnd →
          LocalTime host target / 86400000 = localDay
          ∧ LocalTime host target mod 86400000 = 86399999))
    ∧ (fixed_offset host →
       ∀ t : Z, Task.targetDate newTask = Some t →
       ∃ c : Z, computed = Some c
         ∧ LocalTime host t / 86400000 = LocalTime host c / 86400000
         ∧ LocalTime host t mod 86400000 = 86399999).
Proof.
  intros Hnew Hvalid.
  pose proof Hvalid as [computed Hc]%(requestedDate_valid now).
  exists computed, (taskData now st (setHours host 23 59 59 999 computed)).
  split; [done|]. split.
  { unfold handleSubmit. by rewrite Hc, Hnew. }
  unfold taskData. rewrite Hnew.
  cbn [Task.startDate Task.category Task.title Task.priority Task.id
       Task.targetDate].
  split; [done|]. split; [by intros ->|]. split.
  { intros Hcat. by destruct (FormData.category (formData st)). }
  split; [done|]. split; [done|]. split; [done|]. split; [|split].
  - intros Hmode. unfold requestedDate in Hc. rewrite Hmode in Hc.
    destruct (truthy (FormData.targetDate (formData st))); congruence.
  - intros Hmode. unfold requestedDate in Hc. rewrite Hmode in Hc.
    unfold validRequest in Hvalid. rewrite Hmode in Hvalid.
    destruct Hvalid as (n & Hn & Hpos). exists n. rewrite Hn in Hc.
    destruct ((n =? 0) || (n <=? 0)); [done|]. injection Hc as <-.
    split; [done|]. split; [done|]. split; [done|].
    intros c Hsome Hexists.
    apply setDate_getDate_plus_Some in Hsome as [_ Hday].
    by destruct (Hday Hexists).
  - split; [done|]. split; [by intros ->|]. split.
    + intros c Hcomputed. subst computed.
      set (localEnd := LocalTime host c / 86400000 * 86400000 + 86399999).
      set (target := localEnd - LocalTZA host localEnd false).
      assert (Htarget : localEndOfDay host c = target) by reflexivity.
      rewrite setHours_endOfDay. simpl. rewrite Htarget.
      unfold TimeClip. split; [|split].
      * intros Hrange. by rewrite (proj2 (Z.leb_le _ _) Hrange).
      * intros Hrange. by rewrite (proj2 (Z.leb_gt _ _) Hrange).
      * intros Hexists.
        destruct (localEndOfDay_spec c Hexists) as [Hday Htime].
        rewrite Htarget in Hday, Htime. split; [exact Hday|exact Htime].
    + intros Hfixed t Ht.
      apply setHours_endOfDay_Some in Ht as (c & -> & -> & Hlocal).
      exists c. split; [done|].
      destruct (Hlocal (LocalTime_UTC _ Hfixed)) as [Hday Htime].
      split; [exact Hday|exact Htime].
Qed.

(** In a list without two elements of the same image, elements of the same
    image are the same. *)
Lemma NoDup_fmap_lookup_inj {A B} (f : A → B) (l : list A) x y :
  NoDup (f <$> l) → x ∈ l → y ∈ l → f x = f y → x = y.
Proof.
  intros Hnd [i Hi]%list_elem_of_lookup [j Hj]%list_elem_of_lookup Hf.
  assert (i = j) as ->.
  { eapply (NoDup_lookup _ i j (f x) Hnd); rewrite list_lookup_fmap.
    - by rewrite Hi.
    - rewrite Hj. simpl. by rewrite Hf. }
  congruence.
Qed.

(** C8, amended. On a valid request with a task under edit whose id is
    not empty, [handleSubmit] replaces every task with the id of the task
    under edit by a record with that id and the start date of the task
    under edit, and the title, category and priority of the form and the
    computed target date; every task with another id stands unchanged at
    its position.  When ids are unique and the task under edit is a task
    of the list, the replaced task is the task under edit, so the record
    has its own start date. *)
Theorem handleSubmit_edits (now : Z) (st : State) (editing : Task.t) :
  editingTask st = Some editing →
  Task.id editing ≠ [] →
  validRequest st →
  ∃ computed : Date,
    requestedDate host now st = Some computed
    ∧ let replacement :=
        Task.mk (Task.id editing) (FormData.title (formData st))
                (setHours host 23 59 59 999 computed)
                (Task.startDate editing)
                (or_else (FormData.category (formData st)) (lit "General"))
                (FormData.priority (formData st)) in
      length (tasks (handleSubmit host now st)) = length (tasks st)
      ∧ ∀ (n : nat) (task : Task.t),
          tasks st !! n = Some task →
          (Task.id task ≠ Task.id editing →
           tasks (handleSubmit host now st) !! n = Some task)
          ∧ (Task.id task = Task.id editing →
             tasks (handleSubmit host now st) !! n = Some replacement
             ∧ Task.id replacement = Task.id task
             ∧ (editing ∈ tasks st → NoDup (Task.id <$> tasks st) →
                Task.startDate replacement = Task.startDate task)).
Proof.
  intros Hedit Hid [computed Hc]%(requestedDate_valid now).
  exists computed. split; [done|]. intros replacement.
  assert (Htasks : tasks (handleSubmit host now st)
    = map (λ task, if decide (Task.id task = Task.id editing)
                   then replacement else task) (tasks st)).
  { unfold handleSubmit. rewrite Hc, Hedit. simpl.
    unfold taskData. rewrite Hedit. simpl. unfold or_else at 1.
    destruct (Task.id editing); [done|]. done. }
  rewrite Htasks. split; [by rewrite length_map|].
  intros n task Hn. rewrite list_lookup_fmap, Hn. simpl. split.
  - intros Hne. by rewrite decide_False.
  - intros Heq. rewrite decide_True by done. split; [done|].
    split; [done|]. intros Hin Hnodup.
    assert (task = editing) as ->; [|done].
    eapply (NoDup_fmap_lookup_inj Task.id); [done| |done|done].
    by eapply list_elem_of_lookup_2.
Qed.

End Submit.

(** C6, as stated, fails for the empty title: the handler does not check
    it, and a request with an empty title and a date appends a task with an
    empty title. *)
Lemma handleSubmit_empty_title_counterexample :
  FormData.title (formData empty_title_state) = []
  ∧ tasks (handleSubmit host_utc scenario_now empty_title_state)
    = [Task.mk (lit "1704844800000") [] (Some 1705103999999)
               (Some 1704844800000) (lit "Fitness") high]
  ∧ handleSubmit host_utc scenario_now empty_title_state
    ≠ empty_title_state.
Proof. vm_compute. repeat split; discriminate. Qed.

(** The rejected requests of the specification, each left as it was. *)
Example handleSubmit_rejected_requests :
  handleSubmit host_utc scenario_now by_date_without_date
  = by_date_without_date
  ∧ handleSubmit host_utc scenario_now (in_days "0") = in_days "0"
  ∧ handleSubmit host_utc scenario_now (in_days "-3") = in_days "-3"
  ∧ handleSubmit host_utc scenario_now (in_days "soon") = in_days "soon"
  ∧ handleSubmit host_utc scenario_now (in_days " ") = in_days " ".
Proof. vm_compute. repeat split; reflexivity. Qed.

Lemma handleSubmit_appends_witness :
  editingTask in_two_days_state = None
  ∧ validRequest in_two_days_state
  ∧ ∃ (computed : Date) (newTask : Task.t),
      requestedDate host_utc_minus_5 afternoon in_two_days_state
      = Some computed
      ∧ tasks (handleSubmit host_utc_minus_5 afternoon in_two_days_state)
        = tasks in_two_days_state ++ [newTask]
      ∧ Task.startDate newTask = Some afternoon
      ∧ Task.category newTask = lit "General"
      ∧ Task.targetDate newTask = Some (instant 2024 1 13 4 59 59 + 999).
Proof.
  assert (Hvalid : validRequest in_two_days_state).
  { exists 2. split; [reflexivity|lia]. }
  split; [reflexivity|]. split; [exact Hvalid|].
  destruct (handleSubmit_appends host_utc_minus_5 afternoon in_two_days_state
              eq_refl Hvalid)
    as (computed & newTask & Hreq & Htasks & Hstart & Hcat & _ & _ & _ & _
        & _ & _ & Htarget & _).
  exists computed, newTask. split; [exact Hreq|]. split; [exact Htasks|].
  split; [exact Hstart|]. split; [exact (Hcat eq_refl)|].
  rewrite Htarget. vm_compute in Hreq. injection Hreq as <-.
  vm_compute. reflexivity.
Defined.

(** C7, as stated, fails where the computed date is not a date: a
    request in days mode for 300000000 days, and a request in date mode
    with a text the host does not read as a date, are valid, and each
    appends a task whose target date is the Invalid Date, which has no time
    of day. *)
Lemma handleSubmit_invalid_target_counterexample :
  editingTask (in_days "300000000") = None
  ∧ validRequest (in_days "300000000")
  ∧ tasks (handleSubmit host_utc scenario_now (in_days "300000000"))
    = tasks (in_days "300000000")
      ++ [Task.mk (lit "1704844800000") (lit "Run") None
                  (Some scenario_now) (lit "General") high]
  ∧ editingTask (by_date "garbage") = None
  ∧ validRequest (by_date "garbage")
  ∧ tasks (handleSubmit host_utc scenario_now (by_date "garbage"))
    = tasks (by_date "garbage")
      ++ [Task.mk (lit "1704844800000") (lit "Run") None
                  (Some scenario_now) (lit "General") high].
Proof.
  split; [reflexivity|]. split.
  { exists 300000000. split; [reflexivity|lia]. }
  split; [vm_compute; reflexivity|]. split; [reflexivity|]. split.
  { vm_compute. discriminate. }
  vm_compute. reflexivity.
Qed.

(** In date mode the string is read as midnight UTC, so in a zone west of
    Greenwich the computed date lies in the local day before, and that is
    the day whose last instant the target date is: for 2024-01-12 in the
    zone UTC-05:00, it is 2024-01-11T23:59:59.999 local time. *)
Example handleSubmit_date_mode_local_day :
  Task.targetDate
  <$> tasks (handleSubmit host_utc_minus_5 scenario_now empty_title_state)
  = [Some (instant 2024 1 12 4 59 59 + 999)]
  ∧ Task.targetDate
    <$> tasks (handleSubmit host_utc scenario_now empty_title_state)
    = [Some (instant 2024 1 12 23 59 59 + 999)].
Proof. vm_compute. split; reflexivity. Qed.

(** A number of days that carries the date beyond the range of time
    values: the request is valid and the appended task has no target
    date. *)
Example handleSubmit_days_out_of_range :
  Task.targetDate
  <$> tasks (handleSubmit host_utc scenario_now
               (mkState [] None true None DeadlineType.days
                        (lit "300000000") emptyForm))
  = [None].
Proof. vm_compute. reflexivity. Qed.

Lemma handleSubmit_edits_witness :
  editingTask edit_state = Some (mission "a")
  ∧ Task.id (mission "a") ≠ []
  ∧ validRequest edit_state
  ∧ tasks (handleSubmit host_utc scenario_now edit_state) !! 0%nat
    = Some (Task.mk (lit "a") (lit "New")
              (Some (instant 2024 2 1 23 59 59 + 999))
              (Task.startDate (mission "a")) (lit "Fitness") low)
  ∧ tasks (handleSubmit host_utc scenario_now edit_state) !! 1%nat
    = Some (mission "b").
Proof.
  assert (Hid : Task.id (mission "a") ≠ []) by discriminate.
  assert (Hvalid : validRequest edit_state) by discriminate.
  split; [reflexivity|]. split; [exact Hid|]. split; [exact Hvalid|].
  destruct (handleSubmit_edits host_utc scenario_now edit_state (mission "a")
              eq_refl Hid Hvalid) as (computed & Hreq & Hrest).
  cbv zeta in Hrest. destruct Hrest as [_ Hall].
  vm_compute in Hreq. injection Hreq as <-. split.
  - destruct (Hall 0%nat (mission "a") eq_refl) as [_ Hsame].
    destruct (Hsame eq_refl) as [Hlook _]. rewrite Hlook.
    vm_compute. reflexivity.
  - destruct (Hall 1%nat (mission "b") eq_refl) as [Hother _].
    apply Hother. discriminate.
Defined.

(** C8, as stated, fails for a task whose id is the empty string: the
    record that replaces it carries the text of the current time as its
    id. *)
Lemma handleSubmit_edit_empty_id_counterexample :
  editingTask edit_unnamed_state = Some unnamed
  ∧ tasks edit_unnamed_state = [unnamed]
  ∧ tasks (handleSubmit host_utc scenario_now edit_unnamed_state)
    = [Task.mk (lit "1704844800000") (lit "New")
               (Some (instant 2024 2 1 23 59 59 + 999))
               (Some 1700000000000) (lit "Fitness") low]
  ∧ Task.id <$> tasks (handleSubmit host_utc scenario_now edit_unnamed_state)
    ≠ Task.id <$> tasks edit_unnamed_state.
Proof. vm_compute. repeat split; discriminate. Qed.

End TaskManagerFacts.

(** * Further properties *)

(** ** Calendar fields and date strings *)

Module JSDateFacts.
Import JS JSFacts JSDate.

Ltac div_lia := Z.div_mod_to_equations; lia.

Lemma days_from_civil_civil_from_days z :
  let '(y, m, d) := civil_from_days z in days_from_civil y m d = z.
Proof.
  unfold civil_from_days, days_from_civil. cbv beta iota zeta.
  set (z' := z + 719468).
  set (era := z' / 146097).
  set (doe := z' - era * 146097).
  assert (Hdoe : 0 <= doe < 146097) by (subst doe era; div_lia).
  set (yoe := (doe - doe / 1460 + doe / 36524 - doe / 146096) / 365).
  assert (Hyoe : 0 <= yoe <= 399) by (subst yoe; div_lia).
  set (doy := doe - (365 * yoe + yoe / 4 - yoe / 100)).
  assert (Hdoy : 0 <= doy <= 365) by (subst doy yoe; div_lia).
  set (mp := (5 * doy + 2) / 153).
  assert (Hmp : 0 <= mp <= 11) by (subst mp; div_lia).
  destruct (Z.ltb_spec mp 10).
  - rewrite (proj2 (Z.leb_gt (mp + 3) 2)) by lia.
    replace ((yoe + era * 400) / 400) with era by div_lia.
    replace ((mp + 3 + 9) mod 12) with mp by div_lia.
    replace (yoe + era * 400 - era * 400) with yoe by lia.
    unfold doy, doe, z'. lia.
  - rewrite (proj2 (Z.leb_le (mp - 9) 2)) by lia.
    replace (yoe + era * 400 + 1 - 1) with (yoe + era * 400) by lia.
    replace ((yoe + era * 400) / 400) with era by div_lia.
    replace ((mp - 9 + 9) mod 12) with mp by div_lia.
    replace (yoe + era * 400 - era * 400) with yoe by lia.
    unfold doy, doe, z'. lia.
Qed.

Lemma InLeapYear_true y :
  InLeapYear y = true ↔ y mod 4 = 0 ∧ (y mod 100 ≠ 0 ∨ y mod 400 = 0).
Proof.
  unfold InLeapYear.
  destruct (Z.eqb_spec (y mod 4) 0), (Z.eqb_spec (y mod 100) 0),
    (Z.eqb_spec (y mod 400) 0); simpl; intuition congruence.
Qed.

Lemma DaysInMonth_cases y m :
  1 ≤ m ≤ 12 →
  DaysInMonth y m
  = if decide (m = 2) then (if InLeapYear y then 29 else 28)
    else if decide (m = 4 ∨ m = 6 ∨ m = 9 ∨ m = 11) then 30 else 31.
Proof.
  intros Hm. unfold DaysInMonth.
  destruct (Z.eqb_spec m 2); [by rewrite decide_True|].
  rewrite decide_False by done.
  destruct (Z.eqb_spec m 4), (Z.eqb_spec m 6), (Z.eqb_spec m 9),
    (Z.eqb_spec m 11); simpl; case_decide; try done; lia.
Qed.

Lemma civil_from_days_valid z :
  let '(y, m, d) := civil_from_days z in validDate y m d.
Proof.
  unfold civil_from_days, validDate. cbv beta iota zeta.
  set (z' := z + 719468).
  set (era := z' / 146097).
  set (doe := z' - era * 146097).
  assert (Hdoe : 0 <= doe < 146097) by (subst doe era; div_lia).
  set (yoe := (doe - doe / 1460 + doe / 36524 - doe / 146096) / 365).
  assert (Hyoe : 0 <= yoe <= 399) by (subst yoe; div_lia).
  set (doy := doe - (365 * yoe + yoe / 4 - yoe / 100)).
  assert (Hdoy : 0 <= doy <= 364
                 ∨ (doy = 365 ∧ (yoe + 1) mod 4 = 0
                    ∧ ((yoe + 1) mod 100 ≠ 0 ∨ yoe = 399)))
    by (subst doy yoe; div_lia).
  set (mp := (5 * doy + 2) / 153).
  assert (Hmp : 0 <= mp <= 11) by (subst mp; div_lia).
  set (d := doy - (153 * mp + 2) / 5 + 1).
  set (m := if mp <? 10 then mp + 3 else mp - 9).
  assert (Hm : (mp < 10 ∧ m = mp + 3) ∨ (10 ≤ mp ∧ m = mp - 9)).
  { subst m. destruct (Z.ltb_spec mp 10); lia. }
  assert (Hm12 : 1 ≤ m ≤ 12) by lia.
  split; [done|].
  rewrite DaysInMonth_cases by done.
  destruct (decide (m = 2)) as [Hm2|Hm2].
  - assert (mp = 11) by lia.
    rewrite (proj2 (Z.leb_le m 2)) by lia.
    destruct (InLeapYear (yoe + era * 400 + 1)) eqn:Hleap.
    + subst d mp. div_lia.
    + assert (Hnl : ¬ ((yoe + era * 400 + 1) mod 4 = 0
                 ∧ ((yoe + era * 400 + 1) mod 100 ≠ 0
                    ∨ (yoe + era * 400 + 1) mod 400 = 0))).
      { rewrite <- InLeapYear_true. congruence. }
      assert (doy <= 364) by (destruct Hdoy as [|(? & ? & ?)]; [lia|];
        exfalso; apply Hnl; div_lia).
      subst d mp. div_lia.
  - case_decide; subst d mp; div_lia.
Qed.

Lemma civil_from_days_days_from_civil y m d :
  validDate y m d → civil_from_days (days_from_civil y m d) = (y, m, d).
Proof.
  intros [Hm Hd]. rewrite DaysInMonth_cases in Hd by done.
  unfold civil_from_days, days_from_civil. cbv beta iota zeta.
  set (y' := if m <=? 2 then y - 1 else y).
  assert (Hy' : (m ≤ 2 ∧ y' = y - 1) ∨ (2 < m ∧ y' = y)).
  { subst y'. destruct (Z.leb_spec m 2); lia. }
  set (era := y' / 400).
  set (yoe := y' - era * 400).
  assert (Hyoe : 0 ≤ yoe ≤ 399) by (subst yoe era; div_lia).
  set (mp := (m + 9) mod 12).
  assert (Hmp : (m ≤ 2 ∧ mp = m + 9) ∨ (2 < m ∧ mp = m - 3))
    by (subst mp; div_lia).
  set (doy := (153 * mp + 2) / 5 + d - 1).
  set (doe := yoe * 365 + yoe / 4 - yoe / 100 + doy).
  assert (Hleap : InLeapYear y = true
                  ↔ y mod 4 = 0 ∧ (y mod 100 ≠ 0 ∨ y mod 400 = 0))
    by apply InLeapYear_true.
  assert (Hdoy : 0 ≤ doy ≤ 364
                 ∨ (doy = 365 ∧ (yoe + 1) mod 4 = 0
                    ∧ ((yoe + 1) mod 100 ≠ 0 ∨ yoe = 399))).
  { destruct (decide (m = 2)) as [->|Hm2].
    - destruct (InLeapYear y) eqn:Hl.
      + destruct Hleap as [Hleap _]. specialize (Hleap eq_refl).
        subst doy mp yoe era. div_lia.
      + left. subst doy mp. div_lia.
    - left. case_decide; subst doy mp; div_lia. }
  assert (Hmpd : (5 * doy + 2) / 153 = mp
                 ∧ doy - (153 * mp + 2) / 5 + 1 = d).
  { split; [|subst doy; lia].
    destruct (decide (m = 2)) as [->|Hm2].
    - assert (d ≤ 29) by (destruct (InLeapYear y); lia).
      subst doy mp. div_lia.
    - case_decide; subst doy mp; div_lia. }
  replace (era * 146097 + doe - 719468 + 719468)
    with (doe + era * 146097) by lia.
  assert (Hdoe : 0 ≤ doe < 146097) by (subst doe; div_lia).
  replace ((doe + era * 146097) / 146097) with era by div_lia.
  replace (doe + era * 146097 - era * 146097) with doe by lia.
  assert (Hyoe2 :
    (doe - doe / 1460 + doe / 36524 - doe / 146096) / 365 = yoe)
    by (subst doe; div_lia).
  rewrite Hyoe2.
  replace (doe - (365 * yoe + yoe / 4 - yoe / 100)) with doy
    by (subst doe; lia).
  destruct Hmpd as [-> ->].
  destruct Hmp as [[? ->]|[? ->]], Hy' as [[? Hy]|[? Hy]]; try lia.
  - rewrite (proj2 (Z.ltb_ge (m + 9) 10)) by lia.
    replace (m + 9 - 9) with m by lia.
    rewrite (proj2 (Z.leb_le m 2)) by lia.
    f_equal. f_equal. subst yoe. lia.
  - rewrite (proj2 (Z.ltb_lt (m - 3) 10)) by lia.
    replace (m - 3 + 3) with m by lia.
    rewrite (proj2 (Z.leb_gt m 2)) by lia.
    f_equal. f_equal. subst yoe. lia.
Qed.

Lemma days_from_civil_DayFromYear y m d :
  1 ≤ m ≤ 12 →
  days_from_civil y m d = DayFromYear y + dayWithinYear y m d.
Proof.
  intros Hm. unfold dayWithinYear.
  pose proof (InLeapYear_true y) as Hleap.
  assert (Hl : (InLeapYear y = true ∧ y mod 4 = 0
                ∧ (y mod 100 ≠ 0 ∨ y mod 400 = 0))
               ∨ (InLeapYear y = false
                  ∧ ¬ (y mod 4 = 0 ∧ (y mod 100 ≠ 0 ∨ y mod 400 = 0)))).
  { destruct (InLeapYear y); [left|right]; split; try done.
    - by apply Hleap.
    - intros H. apply Hleap in H. done. }
  unfold days_from_civil, DayFromYear. cbv beta iota zeta.
  assert (m = 1 ∨ m = 2 ∨ m = 3 ∨ m = 4 ∨ m = 5 ∨ m = 6 ∨ m = 7 ∨ m = 8
          ∨ m = 9 ∨ m = 10 ∨ m = 11 ∨ m = 12) as Hcases by lia.
  destruct Hl as [(-> & H4 & H100)|(-> & Hn)];
    repeat (destruct Hcases as [->|Hcases]); try subst m;
    cbn [Z.eqb Z.leb Z.compare Pos.compare Pos.compare_cont Pos.eqb];
    div_lia.
Qed.

(** The day within the year of a valid date is below the length of the
    year. *)
Lemma dayWithinYear_range y m d :
  validDate y m d →
  0 ≤ dayWithinYear y m d < 365 + (if InLeapYear y then 1 else 0).
Proof.
  intros [Hm Hd]. rewrite DaysInMonth_cases in Hd by done.
  unfold dayWithinYear. cbv zeta.
  assert (m = 1 ∨ m = 2 ∨ m = 3 ∨ m = 4 ∨ m = 5 ∨ m = 6 ∨ m = 7 ∨ m = 8
          ∨ m = 9 ∨ m = 10 ∨ m = 11 ∨ m = 12) as Hcases by lia.
  repeat (destruct Hcases as [->|Hcases]); try subst m;
    cbn [Z.eqb Pos.eqb]; repeat case_decide; destruct (InLeapYear y); lia.
Qed.

Lemma DayFromYear_succ y :
  DayFromYear (y + 1)
  = DayFromYear y + 365 + (if InLeapYear y then 1 else 0).
Proof.
  pose proof (InLeapYear_true y) as Hleap. unfold DayFromYear.
  destruct (InLeapYear y).
  - destruct Hleap as [Hleap _]. specialize (Hleap eq_refl). div_lia.
  - assert (¬ (y mod 4 = 0 ∧ (y mod 100 ≠ 0 ∨ y mod 400 = 0)))
      by (intros H; apply Hleap in H; done).
    div_lia.
Qed.

(** The civil date of a time value, through the year, month and date
    functions of the specification of Date. *)
Lemma civil_from_days_fields t :
  civil_from_days (Day t) = (YearFromTime t, MonthFromTime t + 1, DateFromTime t).
Proof.
  pose proof (days_from_civil_civil_from_days (Day t)) as Hrt.
  pose proof (civil_from_days_valid (Day t)) as Hvalid.
  unfold DateFromTime, MonthFromTime, DayWithinYear, InLeapYearOf,
    YearFromTime.
  destruct (civil_from_days (Day t)) as [[y m] d]. cbn [fst snd].
  rewrite <- Hrt. destruct Hvalid as [Hm Hd].
  rewrite (days_from_civil_DayFromYear y m d Hm).
  replace (DayFromYear y + dayWithinYear y m d - DayFromYear y)
    with (dayWithinYear y m d) by lia.
  rewrite DaysInMonth_cases in Hd by done.
  unfold dayWithinYear. cbv zeta.
  assert (m = 1 ∨ m = 2 ∨ m = 3 ∨ m = 4 ∨ m = 5 ∨ m = 6 ∨ m = 7 ∨ m = 8
          ∨ m = 9 ∨ m = 10 ∨ m = 11 ∨ m = 12) as Hcases by lia.
  repeat (destruct Hcases as [->|Hcases]); try subst m;
    cbn [Z.eqb Pos.eqb] in *; repeat case_decide; try lia;
    destruct (InLeapYear y);
    repeat match goal with
           | |- context [?a <? ?b] => destruct (Z.ltb_spec a b); try lia
           end;
    cbn [Z.eqb Pos.eqb]; f_equal; try lia; f_equal; lia.
Qed.

(** The year of a time value is the year the specification defines: the
    one whose first day is not after the day of [t] while the first day of
    the next year is. *)
Lemma YearFromTime_spec t :
  DayFromYear (YearFromTime t) ≤ Day t < DayFromYear (YearFromTime t + 1).
Proof.
  pose proof (days_from_civil_civil_from_days (Day t)) as Hrt.
  pose proof (civil_from_days_valid (Day t)) as Hvalid.
  unfold YearFromTime.
  destruct (civil_from_days (Day t)) as [[y m] d]. cbn [fst snd].
  rewrite DayFromYear_succ, <- Hrt.
  rewrite (days_from_civil_DayFromYear y m d (proj1 Hvalid)).
  pose proof (dayWithinYear_range y m d Hvalid). lia.
Qed.

Lemma MonthFromTime_range t : 0 ≤ MonthFromTime t ≤ 11.
Proof.
  pose proof (civil_from_days_valid (Day t)) as Hvalid.
  rewrite civil_from_days_fields in Hvalid. destruct Hvalid. lia.
Qed.

Lemma days_from_civil_day y m d n :
  days_from_civil y m (d + n) = days_from_civil y m d + n.
Proof. unfold days_from_civil. cbv zeta. lia. Qed.

(** The day number of the date of [t] moved by [n] days of the month. *)
Lemma MakeDay_DateFromTime t n :
  MakeDay (YearFromTime t) (MonthFromTime t) (DateFromTime t + n)
  = Day t + n.
Proof.
  pose proof (MonthFromTime_range t) as Hm.
  pose proof (days_from_civil_civil_from_days (Day t)) as Hrt.
  rewrite civil_from_days_fields in Hrt.
  unfold MakeDay. cbv zeta.
  replace (MonthFromTime t / 12) with 0 by div_lia.
  replace (MonthFromTime t mod 12) with (MonthFromTime t) by div_lia.
  replace (YearFromTime t + 0) with (YearFromTime t) by lia.
  pose proof (days_from_civil_day (YearFromTime t) (MonthFromTime t + 1) 1
                (DateFromTime t - 1)) as Hday.
  replace (1 + (DateFromTime t - 1)) with (DateFromTime t) in Hday by lia.
  lia.
Qed.

(** [d.setDate(d.getDate() + n)], step by step as the specification of
    Date computes it, is the date [n] local days later at the same time of
    day. *)
Lemma setDate_getDate host n (d : Date) :
  (getDate host d ≫= λ date, setDate host (date + n) d)
  = setDate_getDate_plus host n d.
Proof.
  destruct d as [t|]; [|done]. simpl.
  unfold setDate, setDate_getDate_plus. simpl.
  by rewrite MakeDay_DateFromTime.
Qed.

End JSDateFacts.

Module DateStringFacts.
Import JS JSFacts JSDate JSDateFacts.

Lemma digit_of_char k :
  0 ≤ k ≤ 9 → digit (Z.to_N (48 + k)) = Some k.
Proof.
  intros Hk. unfold digit.
  rewrite (proj2 (N.leb_le 48 _)) by lia.
  rewrite (proj2 (N.leb_le _ 57)) by lia.
  simpl. f_equal. lia.
Qed.

Lemma digit_inv c k : digit c = Some k → 0 ≤ k ≤ 9 ∧ c = Z.to_N (48 + k).
Proof.
  unfold digit.
  destruct (N.leb_spec 48 c), (N.leb_spec c 57); simpl; intros [= <-]; lia.
Qed.

Lemma pad_2 n : pad 2 n = [Z.to_N (48 + n / 10 mod 10); Z.to_N (48 + n mod 10)].
Proof. reflexivity. Qed.

Lemma pad_4 n :
  pad 4 n = [Z.to_N (48 + n / 10 / 10 / 10 mod 10);
             Z.to_N (48 + n / 10 / 10 mod 10);
             Z.to_N (48 + n / 10 mod 10); Z.to_N (48 + n mod 10)].
Proof. reflexivity. Qed.

(** A date-only string of a valid date with a four-digit year reads as
    midnight UTC of that date. *)
Lemma parse_date_only_dateString y m d :
  0 ≤ y ≤ 9999 → validDate y m d →
  parse_date_only (dateString y m d) = Some (MakeDate (days_from_civil y m d) 0).
Proof.
  intros Hy [Hm Hd]. unfold dateString. rewrite pad_4, !pad_2.
  assert (d ≤ 31).
  { rewrite DaysInMonth_cases in Hd by done.
    repeat case_decide; destruct (InLeapYear y); lia. }
  cbn [lit list_ascii_of_string map N_of_ascii N_of_digits app
       parse_date_only].
  rewrite !digit_of_char by div_lia.
  cbn [mbind option_bind].
  replace (1000 * (y / 10 / 10 / 10 mod 10) + 100 * (y / 10 / 10 mod 10)
           + 10 * (y / 10 mod 10) + y mod 10) with y by div_lia.
  replace (10 * (m / 10 mod 10) + m mod 10) with m by div_lia.
  replace (10 * (d / 10 mod 10) + d mod 10) with d by div_lia.
  rewrite (proj2 (Z.leb_le 1 m)), (proj2 (Z.leb_le m 12)),
    (proj2 (Z.leb_le 1 d)), (proj2 (Z.leb_le d _)) by lia.
  done.
Qed.

(** What [parse_date_only] reads is a date string of a valid date with a
    four-digit year. *)
Lemma parse_date_only_inv s t :
  parse_date_only s = Some t →
  ∃ y m d, 0 ≤ y ≤ 9999 ∧ validDate y m d ∧ s = dateString y m d
           ∧ t = MakeDate (days_from_civil y m d) 0.
Proof.
  intros Hparse.
  assert (∃ c1 c2 c3 c4 c6 c7 c9 c10,
            s = [c1; c2; c3; c4; 45%N; c6; c7; 45%N; c9; c10]) as Hshape.
  { unfold parse_date_only in Hparse.
    repeat match type of Hparse with
           | match ?x with _ => _ end = _ => destruct x; try discriminate
           end.
    eauto 10. }
  destruct Hshape as (c1 & c2 & c3 & c4 & c6 & c7 & c9 & c10 & ->).
  cbn [parse_date_only] in Hparse.
  destruct (digit c1) as [y1|] eqn:H1; [|done].
  destruct (digit c2) as [y2|] eqn:H2; [|done].
  destruct (digit c3) as [y3|] eqn:H3; [|done].
  destruct (digit c4) as [y4|] eqn:H4; [|done].
  destruct (digit c6) as [m1|] eqn:H6; [|done].
  destruct (digit c7) as [m2|] eqn:H7; [|done].
  destruct (digit c9) as [d1|] eqn:H9; [|done].
  destruct (digit c10) as [d2|] eqn:H10; [|done].
  cbn [mbind option_bind] in Hparse.
  apply digit_inv in H1 as [? ->], H2 as [? ->], H3 as [? ->], H4 as [? ->],
    H6 as [? ->], H7 as [? ->], H9 as [? ->], H10 as [? ->].
  set (y := 1000 * y1 + 100 * y2 + 10 * y3 + y4) in *.
  set (m := 10 * m1 + m2) in *. set (d := 10 * d1 + d2) in *.
  destruct (Z.leb_spec 1 m), (Z.leb_spec m 12), (Z.leb_spec 1 d),
    (Z.leb_spec d (DaysInMonth y m)); try discriminate.
  injection Hparse as <-.
  exists y, m, d. split; [subst y; lia|]. split; [done|]. split; [|done].
  unfold dateString. rewrite pad_4, !pad_2.
  replace (y / 10 / 10 / 10 mod 10) with y1 by (subst y; div_lia).
  replace (y / 10 / 10 mod 10) with y2 by (subst y; div_lia).
  replace (y / 10 mod 10) with y3 by (subst y; div_lia).
  replace (y mod 10) with y4 by (subst y; div_lia).
  replace (m / 10 mod 10) with m1 by (subst m; div_lia).
  replace (m mod 10) with m2 by (subst m; div_lia).
  replace (d / 10 mod 10) with d1 by (subst d; div_lia).
  replace (d mod 10) with d2 by (subst d; div_lia).
  reflexivity.
Qed.

Lemma pad_digits width n :
  Forall (λ c, (48 ≤ c ≤ 57)%N) (pad width n).
Proof.
  revert n. induction width as [|width IH]; intros n; simpl; [done|].
  apply Forall_app. split; [apply IH|].
  repeat constructor; div_lia.
Qed.

Lemma pad_no_T width n : 84%N ∉ pad width n.
Proof.
  intros Hin. eapply Forall_forall in Hin; [|apply pad_digits].
  simpl in Hin. lia.
Qed.

Lemma dateString_no_T y m d : 84%N ∉ dateString y m d.
Proof.
  unfold dateString. change (lit "-") with [45%N].
  rewrite !elem_of_app, !list_elem_of_singleton.
  pose proof (pad_no_T 4 y). pose proof (pad_no_T 2 m).
  pose proof (pad_no_T 2 d). intuition discriminate.
Qed.

Lemma head_split_app sep a b :
  sep ∉ a → head (split sep (a ++ sep :: b)) = Some a.
Proof.
  induction a as [|c a IH]; intros Hsep; simpl.
  - by rewrite N.eqb_refl.
  - destruct (N.eqb_spec c sep) as [->|Hne].
    + exfalso. apply Hsep. by left.
    + assert (Hsep' : sep ∉ a) by (intros ?; apply Hsep; by right).
      specialize (IH Hsep').
      destruct (split sep (a ++ sep :: b)) as [|seg rest]; [done|].
      injection IH as ->. done.
Qed.

(** The part before the [T] of the ISO string of a time value in the years
    0 to 9999 is the date string of its UTC date. *)
Lemma toISOString_date_part t :
  0 ≤ YearFromTime t ≤ 9999 →
  ∃ iso, toISOString (Some t) = Some iso
         ∧ head (split 84 iso)
           = Some (dateString (YearFromTime t) (MonthFromTime t + 1)
                     (DateFromTime t)).
Proof.
  intros Hy.
  exists (dateString (YearFromTime t) (MonthFromTime t + 1) (DateFromTime t)
          ++ 84%N :: (pad 2 (HourFromTime t) ++ lit ":"
                      ++ pad 2 (MinFromTime t) ++ lit ":"
                      ++ pad 2 (SecFromTime t) ++ lit "."
                      ++ pad 3 (msFromTime t) ++ lit "Z")).
  split; [|apply head_split_app, dateString_no_T].
  unfold toISOString, yearString. cbn [mbind option_bind].
  rewrite (proj2 (Z.leb_le 0 _)), (proj2 (Z.leb_le _ 9999)) by lia.
  cbn [andb]. unfold dateString. by rewrite <- !app_assoc.
Qed.
Lemma DayFromYear_mono y y' : y ≤ y' → DayFromYear y ≤ DayFromYear y'.
Proof.
  intros Hle. replace y' with (y + Z.of_nat (Z.to_nat (y' - y))) by lia.
  induction (Z.to_nat (y' - y)) as [|n IH]; [by rewrite Z.add_0_r|].
  replace (y + Z.of_nat (S n)) with (y + Z.of_nat n + 1) by lia.
  rewrite DayFromYear_succ. destruct (InLeapYear _); lia.
Qed.

(** A time value in the years 0 to 9999 is within the range of dates. *)
Lemma YearFromTime_range_TimeClip t :
  0 ≤ YearFromTime t ≤ 9999 → TimeClip t = Some t.
Proof.
  intros Hy. pose proof (YearFromTime_spec t) as Hspec.
  pose proof (DayFromYear_mono 0 (YearFromTime t) ltac:(lia)).
  pose proof (DayFromYear_mono (YearFromTime t + 1) 10000 ltac:(lia)).
  assert (DayFromYear 0 = -719528) by reflexivity.
  assert (DayFromYear 10000 = 2932897) by reflexivity.
  unfold TimeClip. rewrite (proj2 (Z.leb_le _ _)); [done|].
  unfold Day, msPerDay in Hspec. div_lia.
Qed.

(** The days of the dates with a four-digit year. *)
Lemma days_from_civil_range y m d :
  0 ≤ y ≤ 9999 → validDate y m d →
  -719528 ≤ days_from_civil y m d < 2932897.
Proof.
  intros Hy Hvalid.
  rewrite (days_from_civil_DayFromYear y m d (proj1 Hvalid)).
  pose proof (dayWithinYear_range y m d Hvalid).
  pose proof (DayFromYear_mono 0 y ltac:(lia)).
  pose proof (DayFromYear_mono (y + 1) 10000 ltac:(lia)).
  rewrite DayFromYear_succ in *.
  assert (DayFromYear 0 = -719528) by reflexivity.
  assert (DayFromYear 10000 = 2932897) by reflexivity.
  lia.
Qed.

Section LocalDay.
Variable host : Host.
Hypothesis host_fixed : fixed_offset host.

(** In a zone without clock changes, midnight UTC of the UTC day of a
    local end of day lies in that local day: its local end of day is the
    same instant. *)
Lemma localEndOfDay_UTC_midnight t :
  TimeWithinDay (LocalTime host t) = TaskManager.endOfDay →
  TaskManager.localEndOfDay host (MakeDate (Day t) 0) = t.
Proof.
  destruct (fixed_offset_inv host host_fixed) as (offset & Hlocal & Hutc).
  unfold TaskManager.localEndOfDay. rewrite Hutc, !Hlocal.
  unfold MakeDate, Day, TimeWithinDay.
  rewrite TaskManagerFacts.endOfDay_value. unfold msPerDay.
  intros Hend. div_lia.
Qed.

(** In a zone without clock changes, the local end of the local day of a
    midnight UTC lies in that UTC day. *)
Lemma localEndOfDay_midnight_Day day :
  Day (TaskManager.localEndOfDay host (MakeDate day 0)) = day
  ∧ MakeDate day 0 ≤ TaskManager.localEndOfDay host (MakeDate day 0)
    < MakeDate day 0 + msPerDay.
Proof.
  destruct (fixed_offset_inv host host_fixed) as (offset & Hlocal & Hutc).
  unfold TaskManager.localEndOfDay. rewrite Hutc, !Hlocal.
  unfold MakeDate, Day.
  rewrite TaskManagerFacts.endOfDay_value. unfold msPerDay.
  split; div_lia.
Qed.
End LocalDay.

End DateStringFacts.

(** ** The mission list: ids, selection, repeated and inverse actions *)

Module TaskManagerMoreFacts.
Import JS JSFacts JSDate JSDateFacts DateStringFacts.
Import TaskManager TaskManagerFacts TaskManagerView.

Lemma lit_inj s s' : lit s = lit s' → s = s'.
Proof.
  unfold lit. intros H.
  rewrite <- (string_of_list_ascii_of_string s),
    <- (string_of_list_ascii_of_string s'). f_equal.
  revert H. generalize (list_ascii_of_string s) (list_ascii_of_string s').
  induction l as [|a l IH]; intros [|a' l']; simpl; try done.
  intros [= Ha Hl]. f_equal; [|by apply IH].
  by rewrite <- (ascii_N_embedding a), <- (ascii_N_embedding a'), Ha.
Qed.

(** Different integers have different texts. *)
Lemma Number_toString_inj a b :
  Number_toString a = Number_toString b → a = b.
Proof.
  unfold Number_toString. intros H%lit_inj.
  apply DecimalZ.to_int_inj.
  assert (Hnil : ∀ z, Z.to_int z ≠ Decimal.Pos Decimal.Nil
                      ∧ Z.to_int z ≠ Decimal.Neg Decimal.Nil).
  { intros [|p|p]; simpl; split; try discriminate;
      intros [= Hp]; by apply DecimalPos.Unsigned.to_uint_nonnil in Hp. }
  destruct (Hnil a), (Hnil b).
  pose proof (NilZero.isi (Z.to_int a)) as Ha.
  pose proof (NilZero.isi (Z.to_int b)) as Hb.
  rewrite H in Ha. rewrite Ha in Hb by done.
  specialize (Hb ltac:(done) ltac:(done)). congruence.
Qed.

Lemma filter_id_ne_twice (taskId : jsstring) (l : list Task.t) :
  filter (λ task, Task.id task ≠ taskId)
         (filter (λ task, Task.id task ≠ taskId) l)
  = filter (λ task, Task.id task ≠ taskId) l.
Proof.
  induction l as [|task l IH]; [done|].
  destruct (decide (Task.id task ≠ taskId)) as [Hne|Heq].
  - rewrite !filter_cons_True by done. by rewrite IH.
  - by rewrite filter_cons_False.
Qed.

Lemma filter_id_ne_absent (taskId : jsstring) (l : list Task.t) :
  taskId ∉ Task.id <$> l → filter (λ task, Task.id task ≠ taskId) l = l.
Proof.
  induction l as [|task l IH]; [done|].
  rewrite fmap_cons, not_elem_of_cons. intros [Hne Hl].
  rewrite filter_cons_True by done. by rewrite IH.
Qed.

(** Deleting the same id a second time changes nothing more, neither the
    list nor the selection. *)
Theorem handleDelete_twice (taskId : jsstring) (st : State) :
  handleDelete taskId (handleDelete taskId st) = handleDelete taskId st.
Proof.
  unfold handleDelete. simpl. rewrite filter_id_ne_twice.
  set (updatedTasks := filter (λ task, Task.id task ≠ taskId) (tasks st)).
  f_equal.
  assert (Hhead : ∀ first, head updatedTasks = Some first →
                           Task.id first ≠ taskId).
  { intros first Hfirst. apply head_Some_elem_of in Hfirst.
    by apply list_elem_of_filter in Hfirst as [? _]. }
  destruct updatedTasks as [|first rest] eqn:Hupd; simpl.
  - by repeat case_match.
  - rewrite !andb_true_r.
    destruct (bool_decide_reflect (selectedTaskId st = Some taskId))
      as [Hsel|Hsel]; simpl.
    + rewrite bool_decide_eq_false_2; [done|].
      intros [= Hid]. by apply (Hhead first).
    + by rewrite bool_decide_eq_false_2.
Qed.

(** Deleting an id that no task has is a no-op when the selection names a
    task of the list or nothing. *)
Theorem handleDelete_absent (taskId : jsstring) (st : State) :
  taskId ∉ Task.id <$> tasks st →
  selectionValid st →
  handleDelete taskId st = st.
Proof.
  intros Habsent Hvalid. unfold handleDelete.
  rewrite (filter_id_ne_absent _ _ Habsent).
  destruct st as [tasks selected open editing mode days form]. simpl in *.
  f_equal. unfold selectionValid in Hvalid. simpl in Hvalid.
  destruct selected as [id|].
  - rewrite bool_decide_eq_false_2 by congruence. simpl.
    destruct tasks; [|done]. by apply elem_of_nil in Hvalid.
  - rewrite bool_decide_eq_false_2 by done. simpl.
    by destruct (length tasks =? 0)%nat.
Qed.

(** [handleDelete] keeps the selection valid. *)
Lemma handleDelete_selectionValid (taskId : jsstring) (st : State) :
  selectionValid st → selectionValid (handleDelete taskId st).
Proof.
  intros Hvalid. unfold selectionValid, handleDelete in *. simpl.
  set (updatedTasks := filter (λ task, Task.id task ≠ taskId) (tasks st)).
  destruct updatedTasks as [|first rest] eqn:Hupd; simpl.
  - by repeat case_match.
  - rewrite andb_true_r.
    destruct (bool_decide_reflect (selectedTaskId st = Some taskId))
      as [Hsel|Hsel]; simpl; [by left|].
    destruct (selectedTaskId st) as [id|]; [|done].
    apply list_elem_of_fmap in Hvalid as (task & -> & Hin).
    rewrite <- fmap_cons, <- Hupd. apply list_elem_of_fmap.
    exists task. split; [done|]. apply list_elem_of_filter.
    split; [congruence|done].
Qed.


(** The text of an integer is made of digits and, in front of a negative
    one, a minus sign. *)
Lemma Number_toString_chars n :
  Forall (λ c, c = 45 ∨ 48 ≤ c ≤ 57)%N (Number_toString n).
Proof.
  assert (Hcons : ∀ a s, lit (String a s) = N_of_ascii a :: lit s)
    by reflexivity.
  assert (Huint : ∀ d, Forall (λ c, c = 45 ∨ 48 ≤ c ≤ 57)%N
                         (lit (NilEmpty.string_of_uint d))).
  { induction d; cbn [NilEmpty.string_of_uint]; [constructor|..];
      rewrite Hcons; (constructor; [|done]); right; vm_compute;
      split; discriminate. }
  assert (Huint0 : ∀ d, Forall (λ c, c = 45 ∨ 48 ≤ c ≤ 57)%N
                          (lit (NilZero.string_of_uint d))).
  { intros d. destruct d; try apply Huint.
    constructor; [|constructor]. right. vm_compute. split; discriminate. }
  unfold Number_toString.
  destruct (Z.to_int n) as [d|d]; cbn [NilZero.string_of_int].
  - apply Huint0.
  - rewrite Hcons. constructor; [by left|]. apply Huint0.
Qed.

Lemma startsWith_head c needle s :
  head s ≠ Some c → startsWith (c :: needle) s = false.
Proof.
  destruct s as [|b s]; [done|]. simpl. intros Hne.
  destruct (N.eqb_spec c b) as [->|]; [done|done].
Qed.

(** A string without the first character of the search string does not
    include it. *)
Lemma includes_absent c needle s :
  c ∉ s → includes (c :: needle) s = false.
Proof.
  induction s as [|b s IH]; [done|].
  rewrite not_elem_of_cons. intros [Hne Hs].
  cbn [includes]. rewrite startsWith_head, IH; [done|done|].
  simpl. congruence.
Qed.

Lemma includes_app_r needle a b :
  includes needle b = true → includes needle (a ++ b) = true.
Proof.
  intros Hb. induction a as [|c a IH]; [done|].
  cbn [app includes]. rewrite IH. apply orb_true_r.
Qed.

(** The time left of a card is shown in red exactly when the target date
    is not a date or lies a full day or more before now: a deadline missed
    by less than a day is not marked. *)
Theorem overdue_iff (now : Z) (task : Task.t) :
  overdue now task = true
  ↔ match Task.targetDate task with
    | None => True
    | Some target => target - now ≤ - 86400000
    end.
Proof.
  unfold overdue, getTimeLeft.
  destruct (Task.targetDate task) as [target|]; [|done].
  change (lit "overdue") with (111%N :: lit "verdue").
  change (1000 * 60 * 60 * 24) with 86400000.
  pose proof (ceil_div_spec (target - now) 86400000 eq_refl) as Hceil.
  set (days := ceil_div (target - now) 86400000) in *.
  destruct (Z.ltb_spec 1 days) as [Hd|Hd].
  - rewrite includes_absent; [split; [done|lia]|].
    rewrite elem_of_app. intros [Hin|Hin].
    + pose proof (Number_toString_chars days) as Hchars.
      rewrite Forall_forall in Hchars. specialize (Hchars _ Hin). lia.
    + vm_compute in Hin. repeat (apply elem_of_cons in Hin as [Hin|Hin];
        [discriminate|]). by apply elem_of_nil in Hin.
  - destruct (Z.eqb_spec days 1) as [->|H1];
      [split; [discriminate|lia]|].
    destruct (Z.eqb_spec days 0) as [H0|H0];
      [split; [discriminate|lia]|].
    rewrite includes_app_r by reflexivity. split; [lia|done].
Qed.


(** [parseInt] reads the longest prefix of digits: what follows a first
    character that is not a digit is ignored. *)
Lemma digits_app acc ds rest :
  Forall (λ c, is_Some (digit c)) ds →
  (∀ c, head rest = Some c → digit c = None) →
  digits acc (ds ++ rest) = digits acc ds.
Proof.
  intros Hds Hrest. revert acc.
  induction Hds as [|c ds [k Hk] _ IH]; intros acc; simpl.
  - destruct rest as [|c rest]; [done|]. simpl.
    by rewrite (Hrest c eq_refl).
  - rewrite Hk. apply IH.
Qed.

Lemma parseInt_app ds rest :
  ds ≠ [] →
  Forall (λ c, is_Some (digit c)) ds →
  (∀ c, head rest = Some c → digit c = None) →
  parseInt (ds ++ rest) = parseInt ds.
Proof.
  intros Hne Hds Hrest. unfold parseInt.
  destruct ds as [|c ds]; [done|]. clear Hne.
  inversion Hds as [|? ? [k Hk] Hds']; subst.
  assert (Hws : isWhiteSpace c = false).
  { apply digit_inv in Hk as [Hk ->].
    assert (k = 0 ∨ k = 1 ∨ k = 2 ∨ k = 3 ∨ k = 4 ∨ k = 5 ∨ k = 6 ∨ k = 7
            ∨ k = 8 ∨ k = 9) as Hcases by lia.
    repeat (destruct Hcases as [->|Hcases]); try subst k; reflexivity. }
  assert (Hsign : c ≠ 45%N ∧ c ≠ 43%N).
  { apply digit_inv in Hk as [Hk ->]. lia. }
  cbn [app trimStart]. rewrite Hws.
  assert (Hgo : ∀ r, match c :: r with
                     | 45%N :: r' => Z.opp <$> digits None r'
                     | 43%N :: r' => digits None r'
                     | r' => digits None r'
                     end = digits None (c :: r)).
  { intros r. destruct Hsign as [H45 H43].
    destruct c as [|p]; [done|].
    repeat (destruct p as [p|p|]; try done). }
  rewrite !Hgo. apply (digits_app None (c :: ds) rest); [done|done].
Qed.


Section Submit.
Variable host : Host.

(** Whether a request is accepted does not depend on the clock. *)
Lemma requestedDate_None now now' st :
  requestedDate host now st = None → requestedDate host now' st = None.
Proof.
  intros Hnone.
  destruct (requestedDate host now' st) as [d|] eqn:Hd; [|done].
  assert (is_Some (requestedDate host now st)) as [? ?]; [|congruence].
  apply requestedDate_valid, (requestedDate_valid host now'). by rewrite Hd.
Qed.

(** Submitting again right after a submit changes nothing more: an
    accepted request leaves an empty form in date mode, which the handler
    rejects, and a rejected request leaves the state as it was. *)
Theorem handleSubmit_twice (now now' : Z) (st : State) :
  handleSubmit host now' (handleSubmit host now st)
  = handleSubmit host now st.
Proof.
  unfold handleSubmit at 2 3.
  destruct (requestedDate host now st) as [d|] eqn:Hd.
  - reflexivity.
  - unfold handleSubmit. by rewrite (requestedDate_None now now' st Hd).
Qed.

(** The state after an accepted request with no task under edit. *)
Lemma handleSubmit_create now st d :
  requestedDate host now st = Some d →
  editingTask st = None →
  handleSubmit host now st
  = mkState (tasks st ++ [taskData now st (setHours host 23 59 59 999 d)])
            (Some (Number_toString now)) false None DeadlineType.date
            (lit "30") emptyForm.
Proof.
  intros Hd Hnew. unfold handleSubmit. rewrite Hd, Hnew. simpl.
  unfold taskData. by rewrite Hnew.
Qed.

(** An accepted edit of a task whose id is not empty keeps the ids, in
    their order, and the selection. *)
Lemma handleSubmit_edit_ids now st d editing :
  requestedDate host now st = Some d →
  editingTask st = Some editing →
  Task.id editing ≠ [] →
  Task.id <$> tasks (handleSubmit host now st) = Task.id <$> tasks st
  ∧ selectedTaskId (handleSubmit host now st) = selectedTaskId st.
Proof.
  intros Hd Hedit Hid. unfold handleSubmit. rewrite Hd, Hedit. simpl.
  split; [|done].
  unfold taskData. rewrite Hedit. simpl.
  rewrite <- list_fmap_compose. apply list_fmap_ext. intros i task _.
  simpl. case_decide as Hsame; [|done]. simpl.
  unfold or_else. destruct (Task.id editing); [done|]. by rewrite Hsame.
Qed.

(** The ids after an accepted request.  With no task under edit the list
    of ids gains the text of the current time at its end, the new task is
    the selected one, and ids stay without duplicates exactly when they
    were and no task had that text as id.  With a task under edit whose id
    is not empty, the list of ids and the selection are unchanged. *)
Theorem handleSubmit_ids (now : Z) (st : State) :
  validRequest st →
  (editingTask st = None →
   Task.id <$> tasks (handleSubmit host now st)
   = (Task.id <$> tasks st) ++ [Number_toString now]
   ∧ selectedTaskId (handleSubmit host now st) = Some (Number_toString now)
   ∧ (NoDup (Task.id <$> tasks (handleSubmit host now st))
      ↔ NoDup (Task.id <$> tasks st)
        ∧ Number_toString now ∉ Task.id <$> tasks st))
  ∧ (∀ editing, editingTask st = Some editing → Task.id editing ≠ [] →
     Task.id <$> tasks (handleSubmit host now st) = Task.id <$> tasks st
     ∧ selectedTaskId (handleSubmit host now st) = selectedTaskId st).
Proof.
  intros [d Hd]%(requestedDate_valid host now). split.
  - intros Hnew. rewrite (handleSubmit_create now st d Hd Hnew). simpl.
    unfold taskData. rewrite Hnew. simpl.
    rewrite fmap_app. simpl. split; [done|]. split; [done|].
    rewrite NoDup_app. split.
    + intros (Hnd & Hfresh & _). split; [done|].
      intros Hin. apply (Hfresh _ Hin). by left.
    + intros [Hnd Hfresh]. split; [done|]. split.
      * intros id Hin [->|[]%elem_of_nil]%elem_of_cons. done.
      * apply NoDup_singleton.
  - intros editing Hedit Hid.
    exact (handleSubmit_edit_ids now st d editing Hd Hedit Hid).
Qed.

(** Creating a mission and deleting it again gives the list back, when
    no task had the text of the current time as its id; the selection is
    then the first task of the list, or nothing. *)
Theorem handleSubmit_handleDelete (now : Z) (st : State) :
  validRequest st →
  editingTask st = None →
  Number_toString now ∉ Task.id <$> tasks st →
  tasks (handleDelete (Number_toString now) (handleSubmit host now st))
  = tasks st
  ∧ selectedTaskId
      (handleDelete (Number_toString now) (handleSubmit host now st))
    = Task.id <$> head (tasks st).
Proof.
  intros [d Hd]%(requestedDate_valid host now) Hnew Hfresh.
  assert (Hfilter :
    filter (λ task, Task.id task ≠ Number_toString now)
      (tasks (handleSubmit host now st)) = tasks st).
  { unfold handleSubmit. rewrite Hd, Hnew. simpl.
    rewrite filter_app, filter_cons_False, filter_nil, app_nil_r.
    - induction (tasks st) as [|task l IH]; [done|].
      rewrite fmap_cons, not_elem_of_cons in Hfresh.
      destruct Hfresh as [Hne Hfresh].
      rewrite filter_cons_True by done. by rewrite IH.
    - unfold taskData. rewrite Hnew. simpl. intros Hne. by apply Hne. }
  unfold handleDelete. rewrite Hfilter. simpl. split; [done|].
  assert (Hsel : selectedTaskId (handleSubmit host now st)
                 = Some (Number_toString now)).
  { unfold handleSubmit. rewrite Hd, Hnew. simpl.
    unfold taskData. by rewrite Hnew. }
  rewrite Hsel, bool_decide_eq_true_2 by done.
  by destruct (tasks st).
Qed.

(** Every handler keeps the selection valid: after a delete, after a
    submit (when the task under edit, if any, has an id that is not
    empty), after New and after a successful Edit, the selection still
    names a task of the list, or nothing. *)
Theorem handlers_keep_selectionValid (now : Z) (st : State) :
  selectionValid st →
  (∀ taskId, selectionValid (handleDelete taskId st))
  ∧ ((∀ editing, editingTask st = Some editing → Task.id editing ≠ []) →
     selectionValid (handleSubmit host now st))
  ∧ selectionValid (handleNew st)
  ∧ (∀ task st', handleEdit task st = Returns st' → selectionValid st').
Proof.
  intros Hvalid. split; [|split; [|split]].
  - intros taskId. by apply handleDelete_selectionValid.
  - intros Hid.
    destruct (requestedDate host now st) as [d|] eqn:Hd.
    + unfold selectionValid.
      destruct (editingTask st) as [editing|] eqn:Hediting.
      * destruct (handleSubmit_edit_ids now st d editing Hd Hediting
                    (Hid editing eq_refl)) as [-> ->].
        exact Hvalid.
      * rewrite (handleSubmit_create now st d Hd Hediting). simpl.
        rewrite fmap_app. apply elem_of_app. right.
        unfold taskData. rewrite Hediting. by left.
    + unfold handleSubmit. by rewrite Hd.
  - exact Hvalid.
  - intros task st'. unfold handleEdit.
    destruct (toISOString (Task.targetDate task)); [|done].
    intros [= <-]. exact Hvalid.
Qed.

Lemma dateString_truthy y m d : truthy (dateString y m d) = true.
Proof. unfold dateString. by rewrite pad_4. Qed.

(** A host that reads date-only strings reads the date string of a time
    value in the years 0 to 9999 as midnight UTC of its day. *)
Lemma Date_ofString_dateString t :
  reads_date_only host →
  0 ≤ YearFromTime t ≤ 9999 →
  Date_ofString host
    (dateString (YearFromTime t) (MonthFromTime t + 1) (DateFromTime t))
  = Some (MakeDate (Day t) 0).
Proof.
  intros Hhost Hy.
  pose proof (civil_from_days_valid (Day t)) as Hvalid.
  pose proof (days_from_civil_civil_from_days (Day t)) as Hrt.
  rewrite civil_from_days_fields in Hvalid, Hrt.
  unfold Date_ofString.
  rewrite (Hhost _ _ (parse_date_only_dateString _ _ _ Hy Hvalid)), Hrt.
  simpl. unfold TimeClip. rewrite (proj2 (Z.leb_le _ _)); [done|].
  pose proof (days_from_civil_range _ _ _ Hy Hvalid) as Hrange.
  rewrite Hrt in Hrange. unfold MakeDate, msPerDay. lia.
Qed.

(** In a zone without clock changes, opening the edit dialog on a mission
    and submitting the form as it is leaves the mission list and the
    selection as they were: for a host that reads date-only strings, a
    mission of the list with unique ids, whose id and category are not
    empty and whose target date is the end of a local day in the years 0
    to 9999.  (With clock changes the target can move: see
    [azores_edit_moves_target].) *)
Theorem handleEdit_handleSubmit_unchanged
    (now : Z) (st : State) (task : Task.t) (target : Z) :
  fixed_offset host →
  reads_date_only host →
  task ∈ tasks st →
  NoDup (Task.id <$> tasks st) →
  Task.id task ≠ [] →
  Task.category task ≠ [] →
  Task.targetDate task = Some target →
  TimeWithinDay (LocalTime host target) = endOfDay →
  0 ≤ YearFromTime target ≤ 9999 →
  ∃ st', handleEdit task st = Returns st'
         ∧ isAddDialogOpen st' = true
         ∧ editingTask st' = Some task
         ∧ tasks (handleSubmit host now st') = tasks st
         ∧ selectedTaskId (handleSubmit host now st') = selectedTaskId st.
Proof.
  intros Hfixed Hhost Hin Hnodup Hid Hcat Htarget Hend Hyear.
  destruct (toISOString_date_part target Hyear) as (iso & Hiso & Hhead).
  set (ds := dateString (YearFromTime target) (MonthFromTime target + 1)
               (DateFromTime target)) in *.
  set (st' := mkState (tasks st) (selectedTaskId st) true (Some task)
                DeadlineType.date (numberOfDays st)
                (FormData.mk (Task.title task) ds (Task.category task)
                             (Task.priority task))).
  exists st'. split.
  { unfold handleEdit. by rewrite Htarget, Hiso, Hhead. }
  split; [done|]. split; [done|].
  assert (Hreq : requestedDate host now st'
                 = Some (Some (MakeDate (Day target) 0))).
  { unfold requestedDate. cbn [deadlineType formData st' FormData.targetDate].
    unfold ds at 1. rewrite dateString_truthy.
    unfold ds. by rewrite (Date_ofString_dateString target Hhost Hyear). }
  assert (Hsame : taskData now st' (Some target) = task).
  { unfold taskData, or_else. simpl. destruct task as [id ? ? ? category ?].
    simpl in *. destruct id; [done|]. destruct category; [done|].
    by rewrite Htarget. }
  unfold handleSubmit. rewrite Hreq.
  rewrite setHours_endOfDay. cbn [mbind option_bind].
  rewrite (localEndOfDay_UTC_midnight host Hfixed target Hend).
  rewrite (YearFromTime_range_TimeClip target Hyear).
  cbn [editingTask st' tasks selectedTaskId]. rewrite Hsame.
  split; [|done].
  rewrite <- (list_fmap_id (tasks st)) at 2.
  apply list_fmap_ext. intros i other Hi. simpl.
  case_decide as Heq; [|done].
  eapply (NoDup_fmap_lookup_inj Task.id); [exact Hnodup|done| |done].
  by eapply list_elem_of_lookup_2.
Qed.

(** In a zone without clock changes, a mission created in date mode from
    a date the host reads, when opened for editing, shows the date that
    was typed, with the title and priority that were typed and the
    category the mission got. *)
Theorem handleSubmit_handleEdit_date (now : Z) (st : State) (t : Z) :
  fixed_offset host →
  reads_date_only host →
  deadlineType st = DeadlineType.date →
  editingTask st = None →
  parse_date_only (FormData.targetDate (formData st)) = Some t →
  ∃ newTask st',
    tasks (handleSubmit host now st) = tasks st ++ [newTask]
    ∧ handleEdit newTask (handleSubmit host now st) = Returns st'
    ∧ FormData.targetDate (formData st') = FormData.targetDate (formData st)
    ∧ FormData.title (formData st') = FormData.title (formData st)
    ∧ FormData.priority (formData st') = FormData.priority (formData st)
    ∧ FormData.category (formData st')
      = or_else (FormData.category (formData st)) (lit "General")
    ∧ editingTask st' = Some newTask
    ∧ isAddDialogOpen st' = true.
Proof.
  intros Hfixed Hhost Hmode Hnew Hparse.
  destruct (parse_date_only_inv _ _ Hparse)
    as (y & m & d & Hy & Hvalid & Hs & ->).
  pose proof (days_from_civil_range y m d Hy Hvalid) as Hrange.
  set (day := days_from_civil y m d) in *.
  destruct (localEndOfDay_midnight_Day host Hfixed day) as [Hday Hbounds].
  set (target := localEndOfDay host (MakeDate day 0)) in *.
  assert (Hclip : TimeClip target = Some target).
  { unfold TimeClip. rewrite (proj2 (Z.leb_le _ _)); [done|].
    unfold MakeDate, msPerDay in Hbounds. lia. }
  assert (Hreq : requestedDate host now st = Some (Some (MakeDate day 0))).
  { unfold requestedDate. rewrite Hmode, Hs, dateString_truthy.
    unfold Date_ofString. rewrite <- Hs, (Hhost _ _ Hparse). simpl.
    unfold TimeClip. rewrite (proj2 (Z.leb_le _ _)); [done|].
    unfold MakeDate, msPerDay. lia. }
  rewrite (handleSubmit_create now st _ Hreq Hnew).
  rewrite setHours_endOfDay. cbn [mbind option_bind]. fold target.
  rewrite Hclip.
  assert (Hfields : YearFromTime target = y ∧ MonthFromTime target + 1 = m
                    ∧ DateFromTime target = d).
  { pose proof (civil_from_days_fields target) as Hf.
    rewrite Hday in Hf. unfold day in Hf.
    rewrite (civil_from_days_days_from_civil y m d Hvalid) in Hf.
    injection Hf as H1 H2 H3. by rewrite H1, H2, H3. }
  destruct Hfields as (Hfy & Hfm & Hfd).
  destruct (toISOString_date_part target ltac:(lia)) as (iso & Hiso & Hhead).
  rewrite Hfy, Hfm, Hfd, <- Hs in Hhead.
  eexists _, _. split; [reflexivity|]. split.
  { unfold handleEdit. cbn [taskData Task.targetDate].
    by rewrite Hiso, Hhead. }
  cbn. unfold taskData. by rewrite Hnew.
Qed.


(** In a zone without clock changes, the label of a deadline at the end
    of a local day, as [handleSubmit] sets them, by the number [k] of
    local calendar days from today to the day of the deadline (at any time
    but the last millisecond of the day): [k + 1] days left for a later
    day, "1 day left" for today, "Today!" for yesterday, and [- k - 1]
    days overdue before that. *)
Theorem getTimeLeft_endOfDay (now target : Z) :
  fixed_offset host →
  TimeWithinDay (LocalTime host target) = endOfDay →
  TimeWithinDay (LocalTime host now) < endOfDay →
  let k := Day (LocalTime host target) - Day (LocalTime host now) in
  (1 ≤ k →
   getTimeLeft now (Some target)
   = Number_toString (k + 1) ++ lit " days left")
  ∧ (k = 0 → getTimeLeft now (Some target) = lit "1 day left")
  ∧ (k = -1 → getTimeLeft now (Some target) = lit "Today!")
  ∧ (k ≤ -2 →
     getTimeLeft now (Some target)
     = Number_toString (- k - 1) ++ lit " days overdue").
Proof.
  intros Hfixed Htarget Hnow k.
  assert (Hdays : ceil_div (target - now) 86400000 = k + 1).
  { apply ceil_div_unique; [done|]. subst k.
    destruct (fixed_offset_inv host Hfixed) as (offset & Hlocal & _).
    rewrite !Hlocal in *.
    rewrite endOfDay_value in *.
    unfold Day, TimeWithinDay, msPerDay in *. div_lia. }
  unfold getTimeLeft. change (1000 * 60 * 60 * 24) with 86400000.
  rewrite Hdays. repeat split.
  - intros Hk. by rewrite (proj2 (Z.ltb_lt 1 (k + 1))) by lia.
  - by intros ->.
  - by intros ->.
  - intros Hk.
    rewrite (proj2 (Z.ltb_ge 1 (k + 1))) by lia.
    rewrite (proj2 (Z.eqb_neq (k + 1) 1)) by lia.
    rewrite (proj2 (Z.eqb_neq (k + 1) 0)) by lia.
    by replace (Z.abs (k + 1)) with (- k - 1) by lia.
Qed.

(** In days mode the date the request computes is [now] with
    [setDate(getDate() + days)] applied, as the specification of Date
    computes it (year, month and day of the month of the local time, then
    the day number of that month's first day).  Whenever it is a date, it
    is the instant the host reads this local time as: the day [days]
    calendar days after the local day of now, across the ends of months
    and years, at the local time of day of now.  When the zone has that
    local time (no clock change skips it; always, without clock changes)
    the local clock shows that day and that time of day at the computed
    date.  (For a skipped local time see
    [new_york_skipped_time].) *)
Theorem requestedDate_days_calendar (now : Z) (st : State) (n : Z) :
  deadlineType st = DeadlineType.days →
  parseInt (numberOfDays st) = Some n →
  0 < n →
  let moved := (LocalTime host now / 86400000 + n) * 86400000
               + LocalTime host now mod 86400000 in
  requestedDate host now st
  = Some (getDate host (Some now)
          ≫= λ date, setDate host (date + n) (Some now))
  ∧ (∀ c, (getDate host (Some now)
           ≫= λ date, setDate host (date + n) (Some now)) = Some c →
          c = moved - LocalTZA host moved false
          ∧ (local_time_exists host moved →
             LocalTime host c / 86400000 = LocalTime host now / 86400000 + n
             ∧ LocalTime host c mod 86400000
               = LocalTime host now mod 86400000))
  ∧ (fixed_offset host → local_time_exists host moved).
Proof.
  intros Hmode Hn Hpos moved.
  assert (Heq : (getDate host (Some now)
                 ≫= λ date, setDate host (date + n) (Some now))
                = setDate_getDate_plus host n (Some now)).
  { simpl. unfold setDate, setDate_getDate_plus. simpl.
    by rewrite MakeDay_DateFromTime. }
  rewrite Heq. split; [|split].
  - unfold requestedDate. rewrite Hmode, Hn.
    destruct (Z.eqb_spec n 0); [lia|]. by destruct (Z.leb_spec n 0); [lia|].
  - intros c Hc.
    apply setDate_getDate_plus_Some in Hc as [Hmoved Hlocal].
    split; [exact Hmoved|]. exact Hlocal.
  - intros Hfixed. apply LocalTime_UTC, Hfixed.
Qed.

(** A number of days beyond 200000001 is accepted and takes the date out
    of the range of time values: the mission is appended with an Invalid
    Date as target, its card reads "NaN days overdue", in red, and Edit on
    it throws, leaving the dialog closed and the form as it was. *)
Theorem handleSubmit_days_beyond_range (now : Z) (st : State) (n : Z) :
  deadlineType st = DeadlineType.days →
  editingTask st = None →
  parseInt (numberOfDays st) = Some n →
  200000001 < n →
  Z.abs now ≤ 8640000000000000 →
  (∀ t isUTC t' isUTC',
     Z.abs (LocalTZA host t isUTC - LocalTZA host t' isUTC') ≤ msPerDay) →
  ∃ newTask,
    tasks (handleSubmit host now st) = tasks st ++ [newTask]
    ∧ Task.targetDate newTask = None
    ∧ (∀ later, getTimeLeft later (Task.targetDate newTask)
                = lit "NaN days overdue")
    ∧ (∀ later, overdue later newTask = true)
    ∧ ∃ st', handleEdit newTask (handleSubmit host now st) = Throws st'
             ∧ isAddDialogOpen st' = false
             ∧ formData st' = emptyForm
             ∧ editingTask st' = Some newTask.
Proof.
  intros Hmode Hnew Hn Hbig Hnow Htza.
  assert (Hnone : setDate_getDate_plus host n (Some now) = None).
  { unfold setDate_getDate_plus, TimeClip. simpl.
    destruct (Z.leb_spec (Z.abs (UTC host (MakeDate
      (Day (LocalTime host now) + n) (TimeWithinDay (LocalTime host now)))))
      8640000000000000) as [Hle|]; [|done].
    exfalso. unfold UTC, LocalTime in Hle.
    set (moved := MakeDate (Day (now + LocalTZA host now true) + n)
                    (TimeWithinDay (now + LocalTZA host now true))) in *.
    pose proof (Htza now true moved false) as Hoffsets. subst moved.
    revert Hle Hoffsets.
    generalize (LocalTZA host now true).
    intros offset.
    generalize (LocalTZA host
      (MakeDate (Day (now + offset) + n) (TimeWithinDay (now + offset)))
      false).
    intros offset'.
    unfold MakeDate, Day, TimeWithinDay, msPerDay. intros. div_lia. }
  assert (Hreq : requestedDate host now st = Some None).
  { unfold requestedDate. rewrite Hmode, Hn.
    destruct (Z.eqb_spec n 0); [lia|]. destruct (Z.leb_spec n 0); [lia|].
    cbn [orb]. by rewrite Hnone. }
  rewrite (handleSubmit_create now st _ Hreq Hnew).
  eexists. split; [reflexivity|]. split; [done|]. split; [done|].
  split; [done|]. eexists. split; [reflexivity|]. done.
Qed.

(** In days mode only the leading integer of the text counts: "2.5",
    "2e3" and "2 weeks" ask for what "2" asks for. *)
Theorem requestedDate_days_suffix (now : Z) (st : State)
    (ds rest : jsstring) :
  deadlineType st = DeadlineType.days →
  numberOfDays st = ds ++ rest →
  ds ≠ [] →
  Forall (λ c, is_Some (digit c)) ds →
  (∀ c, head rest = Some c → digit c = None) →
  requestedDate host now st
  = requestedDate host now
      (mkState (tasks st) (selectedTaskId st) (isAddDialogOpen st)
               (editingTask st) (deadlineType st) ds (formData st))
  ∧ tasks (handleSubmit host now st)
    = tasks (handleSubmit host now
               (mkState (tasks st) (selectedTaskId st) (isAddDialogOpen st)
                        (editingTask st) (deadlineType st) ds
                        (formData st))).
Proof.
  intros Hmode Hdays Hne Hds Hrest.
  assert (Hreq : requestedDate host now st
    = requestedDate host now
        (mkState (tasks st) (selectedTaskId st) (isAddDialogOpen st)
                 (editingTask st) (deadlineType st) ds (formData st))).
  { unfold requestedDate. cbn [deadlineType numberOfDays].
    by rewrite Hmode, Hdays, (parseInt_app ds rest Hne Hds Hrest). }
  split; [done|]. unfold handleSubmit. rewrite <- Hreq.
  by destruct (requestedDate host now st).
Qed.

(** Ids come from the clock alone.  When a mission is created and then,
    from a state with the resulting list, a second one, the ids of the
    list are without duplicates exactly when the two were created at
    different milliseconds (the list before having unique ids, none of
    them the text of either time). *)
Theorem handleSubmit_ids_by_time (now now' : Z) (st st1 : State) :
  validRequest st → editingTask st = None →
  tasks st1 = tasks (handleSubmit host now st) →
  validRequest st1 → editingTask st1 = None →
  NoDup (Task.id <$> tasks st) →
  Number_toString now ∉ Task.id <$> tasks st →
  Number_toString now' ∉ Task.id <$> tasks st →
  NoDup (Task.id <$> tasks (handleSubmit host now' st1)) ↔ now ≠ now'.
Proof.
  intros [d Hd]%(requestedDate_valid host now) Hnew Htasks
         [d1 Hd1]%(requestedDate_valid host now') Hnew1 Hnd Hfresh Hfresh'.
  rewrite (handleSubmit_create now' st1 d1 Hd1 Hnew1). simpl.
  rewrite Htasks, (handleSubmit_create now st d Hd Hnew). simpl.
  unfold taskData. rewrite Hnew, Hnew1. simpl.
  rewrite !fmap_app. simpl. unfold or_else. simpl.
  rewrite NoDup_app. split.
  - intros (_ & Hdisj & _) ->. apply (Hdisj (Number_toString now')).
    + apply elem_of_app. right. by left.
    + by left.
  - intros Hne. split; [|split].
    + apply NoDup_app. split; [done|]. split; [|apply NoDup_singleton].
      intros id Hin [->|[]%elem_of_nil]%elem_of_cons. done.
    + intros id [Hin|[Hid|[]%elem_of_nil]%elem_of_cons]%elem_of_app
             [Hid'|[]%elem_of_nil]%elem_of_cons.
      * by subst id.
      * apply Hne, Number_toString_inj. congruence.
    + apply NoDup_singleton.
Qed.


End Submit.
(** Clock changes at work.  In New York at 23:30 on Saturday 2024-03-09,
    the night before clocks go forward, a mission asked for in 1 day is
    due in 23 h 29 min 59.999 s and reads "1 day left"; at 02:30 that day,
    the date one day later is 03:30 local time, since 02:30 does not exist
    on the 10th.  In the Azores a mission due at the end of 2024-03-31,
    edited and submitted unchanged, is then due at 00:59:59.999Z of that
    day, the end of the 30th there. *)
Example new_york_one_day_left :
  Task.targetDate
  <$> last (tasks (handleSubmit host_new_york (instant 2024 3 10 4 30 0)
                     (in_days "1")))
  = Some (Some (instant 2024 3 11 3 59 59 + 999))
  ∧ getTimeLeft (instant 2024 3 10 4 30 0)
                (Some (instant 2024 3 11 3 59 59 + 999))
    = lit "1 day left".
Proof. vm_compute. split; reflexivity. Qed.

Example new_york_skipped_time :
  requestedDate host_new_york (instant 2024 3 9 7 30 0) (in_days "1")
  = Some (Some (instant 2024 3 10 7 30 0))
  ∧ TimeWithinDay (LocalTime host_new_york (instant 2024 3 9 7 30 0))
    = MakeTime 2 30 0 0
  ∧ TimeWithinDay (LocalTime host_new_york (instant 2024 3 10 7 30 0))
    = MakeTime 3 30 0 0.
Proof. vm_compute. repeat split; reflexivity. Qed.

Example azores_edit_moves_target :
  TimeWithinDay (LocalTime host_azores (instant 2024 3 31 23 59 59 + 999))
  = endOfDay
  ∧ ∃ st', handleEdit azores_mission (delete_state [azores_mission] None)
           = Returns st'
           ∧ Task.targetDate
             <$> tasks (handleSubmit host_azores scenario_now st')
             = [Some (instant 2024 3 31 0 59 59 + 999)].
Proof. split; [reflexivity|]. eexists. split; [reflexivity|]. reflexivity. Qed.

Lemma host_utc_fixed_offset : fixed_offset host_utc.
Proof. intros t isUTC t' isUTC'. reflexivity. Defined.

Lemma host_utc_minus_5_fixed_offset : fixed_offset host_utc_minus_5.
Proof. intros t isUTC t' isUTC'. reflexivity. Defined.

Lemma host_utc_reads_date_only : reads_date_only host_utc.
Proof. intros s t Hparse. exact Hparse. Defined.

Lemma host_utc_minus_5_reads_date_only : reads_date_only host_utc_minus_5.
Proof. intros s t Hparse. exact Hparse. Defined.

Lemma handleSubmit_ids_witness :
  validRequest in_two_days_state
  ∧ Task.id <$> tasks (handleSubmit host_utc afternoon in_two_days_state)
    = (Task.id <$> tasks in_two_days_state) ++ [Number_toString afternoon]
  ∧ selectedTaskId (handleSubmit host_utc afternoon in_two_days_state)
    = Some (Number_toString afternoon).
Proof.
  assert (Hvalid : validRequest in_two_days_state).
  { exists 2. split; [reflexivity|lia]. }
  split; [exact Hvalid|].
  destruct (handleSubmit_ids host_utc afternoon in_two_days_state Hvalid)
    as [Hcreate _].
  destruct (Hcreate eq_refl) as (Hids & Hsel & _).
  exact (conj Hids Hsel).
Defined.

Lemma handleSubmit_handleDelete_witness :
  validRequest in_two_days_state
  ∧ editingTask in_two_days_state = None
  ∧ (Number_toString afternoon ∉ Task.id <$> tasks in_two_days_state)
  ∧ tasks (handleDelete (Number_toString afternoon)
             (handleSubmit host_utc afternoon in_two_days_state))
    = tasks in_two_days_state
  ∧ selectedTaskId
      (handleDelete (Number_toString afternoon)
         (handleSubmit host_utc afternoon in_two_days_state))
    = Task.id <$> head (tasks in_two_days_state).
Proof.
  assert (Hvalid : validRequest in_two_days_state).
  { exists 2. split; [reflexivity|lia]. }
  assert (Hfresh :
    Number_toString afternoon ∉ Task.id <$> tasks in_two_days_state).
  { intros Hin. apply list_elem_of_In in Hin. vm_compute in Hin.
    destruct Hin as [Hin|[]]. discriminate Hin. }
  exact (conj Hvalid (conj eq_refl (conj Hfresh
    (handleSubmit_handleDelete host_utc afternoon in_two_days_state
       Hvalid eq_refl Hfresh)))).
Defined.

Lemma two_missions_selectionValid : selectionValid two_missions.
Proof.
  unfold selectionValid. simpl. apply list_elem_of_In. right. left.
  reflexivity.
Defined.

Lemma handleDelete_absent_witness :
  (lit "z" ∉ Task.id <$> tasks two_missions)
  ∧ selectionValid two_missions
  ∧ handleDelete (lit "z") two_missions = two_missions.
Proof.
  assert (Habsent : lit "z" ∉ Task.id <$> tasks two_missions).
  { intros Hin. apply list_elem_of_In in Hin. vm_compute in Hin.
    destruct Hin as [Hin|[Hin|[]]]; discriminate Hin. }
  exact (conj Habsent (conj two_missions_selectionValid
    (handleDelete_absent (lit "z") two_missions Habsent
       two_missions_selectionValid))).
Defined.

Lemma handlers_keep_selectionValid_witness :
  selectionValid two_missions
  ∧ selectionValid (handleDelete (lit "b") two_missions)
  ∧ selectionValid (handleNew two_missions).
Proof.
  destruct (handlers_keep_selectionValid host_utc scenario_now two_missions
              two_missions_selectionValid) as (Hdelete & _ & Hnew & _).
  exact (conj two_missions_selectionValid (conj (Hdelete (lit "b")) Hnew)).
Defined.

Lemma handleEdit_handleSubmit_unchanged_witness :
  fixed_offset host_utc
  ∧ reads_date_only host_utc
  ∧ mission "a" ∈ tasks two_missions
  ∧ NoDup (Task.id <$> tasks two_missions)
  ∧ Task.id (mission "a") ≠ []
  ∧ Task.category (mission "a") ≠ []
  ∧ Task.targetDate (mission "a") = Some 1705103999999
  ∧ TimeWithinDay (LocalTime host_utc 1705103999999) = endOfDay
  ∧ 0 ≤ YearFromTime 1705103999999 ≤ 9999
  ∧ ∃ st', handleEdit (mission "a") two_missions = Returns st'
           ∧ isAddDialogOpen st' = true
           ∧ editingTask st' = Some (mission "a")
           ∧ tasks (handleSubmit host_utc scenario_now st')
             = tasks two_missions
           ∧ selectedTaskId (handleSubmit host_utc scenario_now st')
             = selectedTaskId two_missions.
Proof.
  assert (Hin : mission "a" ∈ tasks two_missions) by (by left).
  assert (Hnodup : NoDup (Task.id <$> tasks two_missions)).
  { apply NoDup_ListNoDup. repeat constructor; simpl;
      intros H; intuition discriminate. }
  assert (Hid : Task.id (mission "a") ≠ []) by discriminate.
  assert (Hcat : Task.category (mission "a") ≠ []) by discriminate.
  assert (Hyear : 0 ≤ YearFromTime 1705103999999 ≤ 9999).
  { vm_compute. split; discriminate. }
  exact (conj host_utc_fixed_offset (conj host_utc_reads_date_only
    (conj Hin (conj Hnodup (conj Hid
    (conj Hcat (conj eq_refl (conj eq_refl (conj Hyear
      (handleEdit_handleSubmit_unchanged host_utc scenario_now two_missions
         (mission "a") 1705103999999 host_utc_fixed_offset
         host_utc_reads_date_only Hin Hnodup
         Hid Hcat eq_refl eq_refl Hyear)))))))))).
Defined.

Lemma handleSubmit_handleEdit_date_witness :
  fixed_offset host_utc_minus_5
  ∧ reads_date_only host_utc_minus_5
  ∧ deadlineType empty_title_state = DeadlineType.date
  ∧ editingTask empty_title_state = None
  ∧ parse_date_only (FormData.targetDate (formData empty_title_state))
    = Some 1705017600000
  ∧ ∃ newTask st',
      tasks (handleSubmit host_utc_minus_5 scenario_now empty_title_state)
      = tasks empty_title_state ++ [newTask]
      ∧ handleEdit newTask
          (handleSubmit host_utc_minus_5 scenario_now empty_title_state)
        = Returns st'
      ∧ FormData.targetDate (formData st') = lit "2024-01-12".
Proof.
  split; [exact host_utc_minus_5_fixed_offset|].
  split; [exact host_utc_minus_5_reads_date_only|].
  split; [reflexivity|]. split; [reflexivity|]. split; [reflexivity|].
  destruct (handleSubmit_handleEdit_date host_utc_minus_5 scenario_now
              empty_title_state 1705017600000
              host_utc_minus_5_fixed_offset
              host_utc_minus_5_reads_date_only eq_refl eq_refl eq_refl)
    as (newTask & st' & Htasks & Hedit & Hdate & _).
  exists newTask, st'. exact (conj Htasks (conj Hedit Hdate)).
Defined.



Lemma getTimeLeft_endOfDay_witness :
  fixed_offset host_utc
  ∧ TimeWithinDay (LocalTime host_utc 1705103999999) = endOfDay
  ∧ TimeWithinDay (LocalTime host_utc scenario_now) < endOfDay
  ∧ getTimeLeft scenario_now (Some 1705103999999) = lit "3 days left".
Proof.
  assert (Htime : TimeWithinDay (LocalTime host_utc scenario_now)
                  < endOfDay) by reflexivity.
  split; [exact host_utc_fixed_offset|].
  split; [reflexivity|]. split; [exact Htime|].
  destruct (getTimeLeft_endOfDay host_utc scenario_now 1705103999999
              host_utc_fixed_offset eq_refl Htime) as [Hleft _].
  apply Hleft. vm_compute. discriminate.
Defined.

Lemma requestedDate_days_calendar_witness :
  deadlineType in_two_days_state = DeadlineType.days
  ∧ parseInt (numberOfDays in_two_days_state) = Some 2
  ∧ 0 < 2
  ∧ requestedDate host_utc_minus_5 afternoon in_two_days_state
    = Some (getDate host_utc_minus_5 (Some afternoon)
            ≫= λ date, setDate host_utc_minus_5 (date + 2) (Some afternoon))
  ∧ LocalTime host_utc_minus_5 1705071600000 / 86400000
    = LocalTime host_utc_minus_5 afternoon / 86400000 + 2.
Proof.
  assert (Hpos : 0 < 2) by lia.
  split; [reflexivity|]. split; [reflexivity|]. split; [exact Hpos|].
  destruct (requestedDate_days_calendar host_utc_minus_5 afternoon
              in_two_days_state 2 eq_refl eq_refl Hpos)
    as (Hdate & Hmoved & Hexists).
  split; [exact Hdate|].
  destruct (Hmoved 1705071600000 eq_refl) as [_ Hlocal].
  destruct (Hlocal (Hexists host_utc_minus_5_fixed_offset)) as [Hday _].
  exact Hday.
Defined.

Lemma handleSubmit_days_beyond_range_witness :
  deadlineType far_state = DeadlineType.days
  ∧ editingTask far_state = None
  ∧ parseInt (numberOfDays far_state) = Some 300000000
  ∧ 200000001 < 300000000
  ∧ Z.abs afternoon ≤ 8640000000000000
  ∧ (∀ t isUTC t' isUTC',
       Z.abs (LocalTZA host_utc_minus_5 t isUTC
              - LocalTZA host_utc_minus_5 t' isUTC') ≤ msPerDay)
  ∧ ∃ newTask,
      tasks (handleSubmit host_utc_minus_5 afternoon far_state)
      = tasks far_state ++ [newTask]
      ∧ Task.targetDate newTask = None
      ∧ overdue afternoon newTask = true.
Proof.
  assert (Hfar : 200000001 < 300000000) by lia.
  assert (Hnow : Z.abs afternoon ≤ 8640000000000000).
  { vm_compute. discriminate. }
  assert (Hzone : ∀ t isUTC t' isUTC',
            Z.abs (LocalTZA host_utc_minus_5 t isUTC
                   - LocalTZA host_utc_minus_5 t' isUTC') ≤ msPerDay).
  { intros t isUTC t' isUTC'. vm_compute. discriminate. }
  split; [reflexivity|]. split; [reflexivity|]. split; [reflexivity|].
  split; [exact Hfar|]. split; [exact Hnow|]. split; [exact Hzone|].
  destruct (handleSubmit_days_beyond_range host_utc_minus_5 afternoon
              far_state 300000000 eq_refl eq_refl eq_refl Hfar Hnow Hzone)
    as (newTask & Htasks & Hdate & _ & Hoverdue & _).
  exists newTask. exact (conj Htasks (conj Hdate (Hoverdue afternoon))).
Defined.

Lemma requestedDate_days_suffix_witness :
  deadlineType (in_days "2e3") = DeadlineType.days
  ∧ numberOfDays (in_days "2e3") = lit "2" ++ lit "e3"
  ∧ lit "2" ≠ []
  ∧ Forall (λ c, is_Some (digit c)) (lit "2")
  ∧ (∀ c, head (lit "e3") = Some c → digit c = None)
  ∧ requestedDate host_utc afternoon (in_days "2e3")
    = requestedDate host_utc afternoon (in_days "2").
Proof.
  assert (Hne : lit "2" ≠ []) by discriminate.
  assert (Hdigits : Forall (λ c, is_Some (digit c)) (lit "2")).
  { constructor; [|constructor]. exists 2. reflexivity. }
  assert (Hrest : ∀ c, head (lit "e3") = Some c → digit c = None).
  { intros c Hc. injection Hc as <-. reflexivity. }
  split; [reflexivity|]. split; [reflexivity|]. split; [exact Hne|].
  split; [exact Hdigits|]. split; [exact Hrest|].
  destruct (requestedDate_days_suffix host_utc afternoon (in_days "2e3")
              (lit "2") (lit "e3") eq_refl eq_refl Hne Hdigits Hrest)
    as [Hdate _].
  exact Hdate.
Defined.


Lemma handleSubmit_ids_by_time_witness :
  validRequest in_two_days_state
  ∧ editingTask in_two_days_state = None
  ∧ tasks (in_days_after "2")
    = tasks (handleSubmit host_utc scenario_now in_two_days_state)
  ∧ validRequest (in_days_after "2")
  ∧ editingTask (in_days_after "2") = None
  ∧ NoDup (Task.id <$> tasks in_two_days_state)
  ∧ (Number_toString scenario_now ∉ Task.id <$> tasks in_two_days_state)
  ∧ (Number_toString afternoon ∉ Task.id <$> tasks in_two_days_state)
  ∧ NoDup (Task.id
             <$> tasks (handleSubmit host_utc afternoon (in_days_after "2"))).
Proof.
  assert (Hvalid : validRequest in_two_days_state).
  { exists 2. split; [reflexivity|lia]. }
  assert (Hvalid1 : validRequest (in_days_after "2")).
  { exists 2. split; [reflexivity|lia]. }
  assert (Hnd : NoDup (Task.id <$> tasks in_two_days_state)).
  { apply NoDup_singleton. }
  assert (Hfresh :
    Number_toString scenario_now ∉ Task.id <$> tasks in_two_days_state).
  { intros Hin. apply list_elem_of_In in Hin. vm_compute in Hin.
    destruct Hin as [Hin|[]]. discriminate Hin. }
  assert (Hfresh' :
    Number_toString afternoon ∉ Task.id <$> tasks in_two_days_state).
  { intros Hin. apply list_elem_of_In in Hin. vm_compute in Hin.
    destruct Hin as [Hin|[]]. discriminate Hin. }
  split; [exact Hvalid|]. split; [reflexivity|]. split; [reflexivity|].
  split; [exact Hvalid1|]. split; [reflexivity|]. split; [exact Hnd|].
  split; [exact Hfresh|]. split; [exact Hfresh'|].
  apply (handleSubmit_ids_by_time host_utc scenario_now afternoon
           in_two_days_state (in_days_after "2") Hvalid eq_refl eq_refl
           Hvalid1 eq_refl Hnd Hfresh Hfresh').
  vm_compute. discriminate.
Defined.

End TaskManagerMoreFacts.

(** ** The daily card: what a click changes and what is shown *)

Module DailyTaskCardViewFacts.
Import JS JSFacts JSDate JSDateFacts.
Import DailyTaskCard DailyTaskCardFacts DailyTaskCardView.

(** The task of the selected day after a completion event for that day is
    the rebuilt task of the selected day. *)
Lemma selectedDayTask_handleSubTaskCompletion dailyTasks day idx c :
  selectedDayTask (handleSubTaskCompletion dailyTasks day idx c).1 day
  = (λ task, rebuildTask task idx c) <$> selectedDayTask dailyTasks day.
Proof.
  unfold selectedDayTask. rewrite handleSubTaskCompletion_fst.
  change (map ?f ?l) with (f <$> l). rewrite list_find_fmap.
  rewrite (list_find_ext _ (λ task, DailyTask.day task = day)).
  - destruct (list_find _ dailyTasks) as [[i task]|] eqn:Hfind; [|done].
    apply list_find_Some in Hfind as (_ & Hday & _). simpl.
    by rewrite decide_True.
  - intros task. simpl. by case_decide.
Qed.

Lemma checked_rebuildTask task idx c j :
  checked (rebuildTask task idx c) j
  = match split semicolon (DailyTask.task task) !! j with
    | Some _ => if decide (Z.of_nat j = idx) then c else checked task j
    | None => false
    end.
Proof.
  unfold checked, subTaskData, subTaskAt. cbn [rebuildTask DailyTask.subTasks].
  cbn [mbind option_bind]. rewrite rebuildSubTasks_lookup.
  destruct (split semicolon (DailyTask.task task) !! j); [|done].
  simpl. by case_decide.
Qed.

Lemma studyLogs_rebuildTask task idx c j :
  SubTask.studyLogs <$> subTaskData (rebuildTask task idx c) j
  = match split semicolon (DailyTask.task task) !! j with
    | Some _ => Some (default [] (SubTask.studyLogs <$> subTaskData task j))
    | None => None
    end.
Proof.
  unfold subTaskData, subTaskAt. cbn [rebuildTask DailyTask.subTasks].
  cbn [mbind option_bind]. rewrite rebuildSubTasks_lookup.
  by destruct (split semicolon (DailyTask.task task) !! j).
Qed.

(** A click on the checkbox of a sub-task sets that checkbox and no
    other: afterwards the checkbox of the clicked position shows the new
    value, the checkboxes of the other positions of the split text show
    what they showed, and positions beyond the split text show unchecked. *)
Theorem onCheckedChange_checked
    (dailyTasks : list DailyTask.t) (selectedDay : Z) (index : nat)
    (c : bool) (task : DailyTask.t) :
  selectedDayTask dailyTasks selectedDay = Some task →
  (index < length (split semicolon (DailyTask.task task)))%nat →
  ∃ task',
    selectedDayTask (onCheckedChange dailyTasks selectedDay index c).1
                    selectedDay = Some task'
    ∧ DailyTask.task task' = DailyTask.task task
    ∧ checked task' index = c
    ∧ (∀ j, j ≠ index →
         (j < length (split semicolon (DailyTask.task task)))%nat →
         checked task' j = checked task j)
    ∧ (∀ j, (length (split semicolon (DailyTask.task task)) ≤ j)%nat →
         checked task' j = false).
Proof.
  intros Hselected Hindex. exists (rebuildTask task (Z.of_nat index) c).
  unfold onCheckedChange.
  rewrite selectedDayTask_handleSubTaskCompletion, Hselected.
  split; [done|]. split; [done|]. split; [|split].
  - rewrite checked_rebuildTask.
    destruct (lookup_lt_is_Some_2 _ _ Hindex) as [seg ->].
    by rewrite decide_True.
  - intros j Hne Hj. rewrite checked_rebuildTask.
    destruct (lookup_lt_is_Some_2 _ _ Hj) as [seg ->].
    by rewrite decide_False by lia.
  - intros j Hj. rewrite checked_rebuildTask.
    by rewrite (lookup_ge_None_2 _ _ Hj).
Qed.

(** A click keeps the study time shown under every sub-task of the split
    text; the records of positions beyond the split text are dropped, so
    nothing is shown there afterwards. *)
Theorem onCheckedChange_studyTime
    (dailyTasks : list DailyTask.t) (selectedDay : Z) (index : nat)
    (c : bool) (task : DailyTask.t) :
  selectedDayTask dailyTasks selectedDay = Some task →
  ∃ task',
    selectedDayTask (onCheckedChange dailyTasks selectedDay index c).1
                    selectedDay = Some task'
    ∧ (∀ j, (j < length (split semicolon (DailyTask.task task)))%nat →
         studyTime task' j = studyTime task j)
    ∧ (∀ j, (length (split semicolon (DailyTask.task task)) ≤ j)%nat →
         subTaskData task' j = None ∧ studyTime task' j = None).
Proof.
  intros Hselected. exists (rebuildTask task (Z.of_nat index) c).
  unfold onCheckedChange.
  rewrite selectedDayTask_handleSubTaskCompletion, Hselected.
  split; [done|]. split.
  - intros j Hj. unfold studyTime. rewrite studyLogs_rebuildTask.
    destruct (lookup_lt_is_Some_2 _ _ Hj) as [seg ->].
    by destruct (SubTask.studyLogs <$> subTaskData task j).
  - intros j Hj.
    pose proof (studyLogs_rebuildTask task (Z.of_nat index) c j) as Hlogs.
    rewrite (lookup_ge_None_2 _ _ Hj) in Hlogs.
    unfold studyTime. rewrite Hlogs. split; [|done].
    by destruct (subTaskData _ j).
Qed.

Lemma rebuildSubTasks_text task idx c :
  SubTask.text <$> rebuildSubTasks task idx c
  = map trim (split semicolon (DailyTask.task task)).
Proof.
  apply list_eq. intros i.
  rewrite list_lookup_fmap, rebuildSubTasks_lookup.
  change (map trim ?l) with (trim <$> l). rewrite list_lookup_fmap.
  by destruct (split semicolon (DailyTask.task task) !! i).
Qed.

(** The texts the card lists and the positions the handler updates agree
    when no segment of the task text is blank: the listed text number [i]
    is the text of the rebuilt sub-task number [i].  With a blank segment
    the list is shorter than the split text. *)
Theorem subTasks_positions (task : DailyTask.t) :
  (Forall (λ seg, trim seg ≠ []) (split semicolon (DailyTask.task task)) →
   ∀ idx c, subTasks (Some task) = SubTask.text <$> rebuildSubTasks task idx c)
  ∧ (Exists (λ seg, trim seg = []) (split semicolon (DailyTask.task task)) →
     (length (subTasks (Some task))
      < length (split semicolon (DailyTask.task task)))%nat).
Proof.
  unfold subTasks. split.
  - intros Hall idx c. rewrite rebuildSubTasks_text.
    induction (split semicolon (DailyTask.task task)) as [|seg l IH];
      [done|].
    inversion Hall as [|? ? Hseg Hl]; subst. simpl.
    rewrite filter_cons_True by (by destruct (trim seg)).
    by rewrite IH.
  - intros (seg & Hin & Hblank)%Exists_exists.
    rewrite <- (length_map trim (split semicolon (DailyTask.task task))).
    apply (length_filter_lt _ _ (trim seg)).
    + change (map trim ?l) with (trim <$> l).
      apply list_elem_of_fmap. eauto.
    + by rewrite Hblank.
Qed.

Lemma completed_rebuildTask task idx c :
  DailyTask.completed (rebuildTask task idx c) = true
  ↔ ∀ j, (j < length (split semicolon (DailyTask.task task)))%nat →
         checked (rebuildTask task idx c) j = true.
Proof.
  cbn [rebuildTask DailyTask.completed]. rewrite forallb_forall. split.
  - intros Hall j Hj.
    unfold checked, subTaskData, subTaskAt.
    cbn [rebuildTask DailyTask.subTasks mbind option_bind].
    rewrite <- (rebuildSubTasks_length task idx c) in Hj.
    destruct (lookup_lt_is_Some_2 _ _ Hj) as [st Hst]. rewrite Hst. simpl.
    apply Hall, list_elem_of_In. by eapply list_elem_of_lookup_2.
  - intros Hall st [j Hst]%list_elem_of_In%list_elem_of_lookup.
    pose proof (lookup_lt_Some _ _ _ Hst) as Hj.
    rewrite rebuildSubTasks_length in Hj. specialize (Hall j Hj).
    unfold checked, subTaskData, subTaskAt in Hall.
    cbn [rebuildTask DailyTask.subTasks mbind option_bind] in Hall.
    by rewrite Hst in Hall.
Qed.

(** The day after a click: it is complete exactly when the click checks
    the box and the boxes of all other positions of the split text were
    checked.  In particular unchecking a box always leaves the day
    incomplete. *)
Theorem onCheckedChange_completed
    (dailyTasks : list DailyTask.t) (selectedDay : Z) (index : nat)
    (c : bool) (task : DailyTask.t) :
  selectedDayTask dailyTasks selectedDay = Some task →
  (index < length (split semicolon (DailyTask.task task)))%nat →
  ∃ task',
    selectedDayTask (onCheckedChange dailyTasks selectedDay index c).1
                    selectedDay = Some task'
    ∧ (DailyTask.completed task' = true
       ↔ c = true
         ∧ ∀ j, j ≠ index →
             (j < length (split semicolon (DailyTask.task task)))%nat →
             checked task j = true).
Proof.
  intros Hselected Hindex. exists (rebuildTask task (Z.of_nat index) c).
  unfold onCheckedChange.
  rewrite selectedDayTask_handleSubTaskCompletion, Hselected.
  split; [done|]. rewrite completed_rebuildTask. split.
  - intros Hall. split.
    + specialize (Hall index Hindex). rewrite checked_rebuildTask in Hall.
      destruct (lookup_lt_is_Some_2 _ _ Hindex) as [seg Hseg].
      rewrite Hseg in Hall. by rewrite decide_True in Hall.
    + intros j Hne Hj. specialize (Hall j Hj).
      rewrite checked_rebuildTask in Hall.
      destruct (lookup_lt_is_Some_2 _ _ Hj) as [seg Hseg].
      rewrite Hseg in Hall. by rewrite decide_False in Hall by lia.
  - intros [-> Hothers] j Hj. rewrite checked_rebuildTask.
    destruct (lookup_lt_is_Some_2 _ _ Hj) as [seg ->].
    case_decide; [done|]. apply Hothers; [lia|done].
Qed.

Lemma selectedDayTask_clicks dailyTasks day events :
  selectedDayTask (clicks dailyTasks day events) day
  = (λ task, fold_left (λ t event, rebuildTask t (Z.of_nat event.1) event.2)
                       events task)
    <$> selectedDayTask dailyTasks day.
Proof.
  unfold clicks. revert dailyTasks.
  induction events as [|event events IH]; intros dailyTasks; simpl.
  - by destruct (selectedDayTask dailyTasks day).
  - rewrite IH. unfold onCheckedChange.
    rewrite selectedDayTask_handleSubTaskCompletion.
    by destruct (selectedDayTask dailyTasks day).
Qed.

(** A blank segment in the task text keeps the day from ever being
    completed by clicks: the card lists fewer sub-tasks than the split
    text has positions, no click reaches the positions at and beyond the
    number listed, and one of them that is not checked stays so.  So after
    any clicks on listed positions, at least one, the day is not
    complete. *)
Theorem blank_segment_never_complete
    (dailyTasks : list DailyTask.t) (selectedDay : Z)
    (events : list (nat * bool)) (task : DailyTask.t) (p : nat) :
  selectedDayTask dailyTasks selectedDay = Some task →
  (length (subTasks (Some task)) ≤ p
   < length (split semicolon (DailyTask.task task)))%nat →
  checked task p = false →
  events ≠ [] →
  Forall (λ event, (event.1 < length (subTasks (Some task)))%nat) events →
  ∃ task',
    selectedDayTask (clicks dailyTasks selectedDay events) selectedDay
    = Some task'
    ∧ DailyTask.completed task' = false.
Proof.
  intros Hselected Hp Hunchecked Hevents Hlisted.
  rewrite selectedDayTask_clicks, Hselected. eexists. split; [done|].
  assert (Hinv : ∀ evs t,
    DailyTask.task t = DailyTask.task task → checked t p = false →
    Forall (λ event, (event.1 < length (subTasks (Some task)))%nat) evs →
    let t' := fold_left (λ t event,
                rebuildTask t (Z.of_nat event.1) event.2) evs t in
    DailyTask.task t' = DailyTask.task task ∧ checked t' p = false
    ∧ (evs ≠ [] → DailyTask.completed t' = false)).
  { clear Hevents Hlisted Hunchecked Hselected. intros evs.
    induction evs as [|event evs IH]; intros t Htext Hunchecked Hall;
      cbn [fold_left]; [done|].
    inversion Hall as [|? ? Hevent Hrest]; subst.
    assert (Hstep : checked (rebuildTask t (Z.of_nat event.1) event.2) p
                    = false).
    { rewrite checked_rebuildTask, Htext.
      destruct (split semicolon (DailyTask.task task) !! p); [|done].
      by rewrite decide_False by lia. }
    destruct (IH (rebuildTask t (Z.of_nat event.1) event.2) Htext Hstep
                Hrest) as (Htext' & Hp' & Hcompleted).
    split; [done|]. split; [done|]. intros _.
    destruct evs as [|event' evs']; [|by apply Hcompleted].
    cbn [fold_left] in *. apply not_true_is_false. intros Hall'.
    pose proof (proj1 (completed_rebuildTask _ _ _) Hall' p) as Hchecked.
    rewrite Htext, Hp' in Hchecked. discriminate Hchecked. lia. }
  destruct (Hinv events task eq_refl Hunchecked Hlisted) as (_ & _ & Hdone).
  by apply Hdone.
Qed.

(** A completion event touches the list of unfinished earlier days only
    through the tasks of its own day: a task of another day is in the list
    afterwards exactly when it was before.  An event for the current day
    or a later one leaves the list, and so the warning, as they were. *)
Theorem previousIncompleteTasks_frame
    (dailyTasks : list DailyTask.t) (day idx : Z) (c : bool)
    (selectedDay currentDay : Z) :
  let updatedTasks := (handleSubTaskCompletion dailyTasks day idx c).1 in
  (∀ task, DailyTask.day task ≠ day →
     task ∈ previousIncompleteTasks updatedTasks currentDay
     ↔ task ∈ previousIncompleteTasks dailyTasks currentDay)
  ∧ (currentDay ≤ day →
     previousIncompleteTasks updatedTasks currentDay
     = previousIncompleteTasks dailyTasks currentDay
     ∧ incompleteWarning updatedTasks selectedDay currentDay
       = incompleteWarning dailyTasks selectedDay currentDay).
Proof.
  intros updatedTasks. subst updatedTasks.
  rewrite handleSubTaskCompletion_fst. change (map ?f ?l) with (f <$> l).
  split.
  - intros task Hday. unfold previousIncompleteTasks.
    rewrite !list_elem_of_filter, list_elem_of_fmap. split.
    + intros [Hp (task0 & Heq & Hin)]. split; [done|].
      case_decide as Hday0; [|by subst].
      subst task. by destruct Hday.
    + intros [Hp Hin]. split; [done|]. exists task.
      by rewrite decide_False.
  - intros Hlater.
    assert (Hsame : previousIncompleteTasks
        ((λ task, if decide (DailyTask.day task = day)
                  then rebuildTask task idx c else task) <$> dailyTasks)
        currentDay = previousIncompleteTasks dailyTasks currentDay).
    { unfold previousIncompleteTasks.
      induction dailyTasks as [|task l IH]; [done|]. rewrite fmap_cons.
      destruct (decide (DailyTask.day task = day)) as [Hday|Hday].
      - rewrite !filter_cons_False; [done| |]; simpl; lia.
      - destruct (decide (DailyTask.day task < currentDay
                          ∧ DailyTask.completed task = false)).
        + rewrite !filter_cons_True by done. by rewrite IH.
        + rewrite !filter_cons_False by done. done. }
    split; [done|]. unfold incompleteWarning. by rewrite Hsame.
Qed.

Lemma trim_elem_of c s : c ∈ trim s → c ∈ s.
Proof.
  destruct (trim_spec s) as (pre & post & Hs & _).
  intros Hin. rewrite Hs, !elem_of_app. auto.
Qed.

(** Every text the card lists is a segment of the task text with the
    white space at its ends removed: it is not empty, holds no semicolon,
    and neither starts nor ends with white space.  Without a task for the
    selected day nothing is listed. *)
Theorem subTasks_wellformed (selectedTask : option DailyTask.t) :
  Forall (λ text,
            text ≠ []
            ∧ (semicolon ∉ text)
            ∧ (∀ c, head text = Some c → isWhiteSpace c = false)
            ∧ (∀ c, last text = Some c → isWhiteSpace c = false)
            ∧ (∃ segment,
                 segment ∈ split semicolon
                             (default [] (DailyTask.task <$> selectedTask))
                 ∧ text = trim segment))
         (subTasks selectedTask)
  ∧ (selectedTask = None → subTasks selectedTask = []).
Proof.
  split; [|by intros ->].
  destruct selectedTask as [task|]; [|constructor]. simpl.
  apply Forall_forall. intros text.
  rewrite list_elem_of_filter. change (map trim ?l) with (trim <$> l).
  rewrite list_elem_of_fmap. intros [Htruthy (seg & -> & Hin)].
  destruct (trim_spec seg) as (pre & post & _ & _ & _ & Hhead & Hlast).
  split; [by destruct (trim seg)|]. split; [|split; [done|split; [done|]]].
  - intros Hsemi%trim_elem_of.
    pose proof (split_no_sep semicolon (DailyTask.task task)) as Hno.
    rewrite Forall_forall in Hno. by apply (Hno seg).
  - exists seg. done.
Qed.

(** The date in the header of the card, by [getDate] and [setDate] as
    the specification of Date computes them.  For a start date that is a
    date, day [selectedDay] of the roadmap is shown with the instant the
    host reads this local time as: the day [selectedDay - 1] calendar days
    after the local day of the start, across the ends of months and years,
    at the local time of day of the start; it is no date when that instant
    leaves the range of time values.  When the zone has that local time
    (no clock change skips it; always, without clock changes) the local
    clock shows that day and that time of day at the date shown.  An
    Invalid start date is left as it is. *)
Theorem selectedDate_spec (host : Host) (startDate : Date) (selectedDay : Z) :
  (startDate = None → selectedDate host startDate selectedDay = None)
  ∧ (∀ start, startDate = Some start →
       let moved :=
         (LocalTime host start / 86400000 + (selectedDay - 1)) * 86400000
         + LocalTime host start mod 86400000 in
       let shown := moved - LocalTZA host moved false in
       selectedDate host startDate selectedDay
       = (if Z.abs shown <=? 8640000000000000 then Some shown else None)
       ∧ (local_time_exists host moved →
          LocalTime host shown / 86400000
          = LocalTime host start / 86400000 + (selectedDay - 1)
          ∧ LocalTime host shown mod 86400000
            = LocalTime host start mod 86400000)
       ∧ (fixed_offset host → local_time_exists host moved)).
Proof.
  assert (Heq : selectedDate host startDate selectedDay
                = setDate_getDate_plus host (selectedDay - 1) startDate).
  { unfold selectedDate. destruct startDate as [t|]; [|done]. simpl.
    unfold setDate, setDate_getDate_plus. simpl.
    replace (DateFromTime (LocalTime host t) + selectedDay - 1)
      with (DateFromTime (LocalTime host t) + (selectedDay - 1)) by lia.
    by rewrite MakeDay_DateFromTime. }
  split; [by rewrite Heq; intros ->|].
  intros start -> moved shown. rewrite Heq. split; [reflexivity|]. split.
  - unfold local_time_exists. intros Hexists.
    change shown with (UTC host moved). rewrite Hexists.
    apply (TaskManagerFacts.Day_MakeDate
             (LocalTime host start / 86400000 + (selectedDay - 1))
             (LocalTime host start mod 86400000)).
    apply Z.mod_pos_bound. reflexivity.
  - intros Hfixed. apply TaskManagerFacts.LocalTime_UTC, Hfixed.
Qed.

(** In New York, for a roadmap started at 02:30 on 2024-03-09, day 2 is
    shown at 03:30 of the 10th: clocks go forward that night and 02:30
    does not exist then. *)
Example new_york_header_date :
  selectedDate host_new_york (Some (instant 2024 3 9 7 30 0)) 2
  = Some (instant 2024 3 10 7 30 0)
  ∧ TimeWithinDay (LocalTime host_new_york (instant 2024 3 10 7 30 0))
    = MakeTime 3 30 0 0.
Proof. vm_compute. split; reflexivity. Qed.

Lemma totalSeconds_Permutation logs logs' :
  logs ≡ₚ logs' → totalSeconds logs = totalSeconds logs'.
Proof.
  induction 1 as [|log l l' _ IH|log1 log2 l|l1 l2 l3 _ IH1 _ IH2];
    rewrite ?totalSeconds_cons; [done|by rewrite IH|lia|congruence].
Qed.

Lemma totalSeconds_zero logs :
  totalSeconds logs = 0%N ↔ Forall (λ log, duration log = 0%N) logs.
Proof.
  induction logs as [|log logs IH]; [done|].
  rewrite totalSeconds_cons, Forall_cons, <- IH. lia.
Qed.

(** The study time shown depends on the logs only through their sum: the
    order of the logs does not matter, and nothing is shown exactly when
    every log has duration 0 (in particular when there is none). *)
Theorem formatStudyTime_sum (logs : list StudyLog) :
  (∀ logs', logs ≡ₚ logs' →
     formatStudyTime (Some logs) = formatStudyTime (Some logs'))
  ∧ (formatStudyTime (Some logs) = None
     ↔ Forall (λ log, duration log = 0%N) logs).
Proof.
  assert (Htotal : ∀ l, formatStudyTime (Some l)
    = if (totalSeconds l =? 0)%N then None
      else formatStudyTime (Some [Build_StudyLog (totalSeconds l)])).
  { intros [|log l]; [done|].
    unfold formatStudyTime at 1.
    destruct (N.eqb_spec (totalSeconds (log :: l)) 0) as [|Hne]; [done|].
    unfold formatStudyTime.
    change (totalSeconds [Build_StudyLog ?n]) with (0 + n)%N.
    rewrite N.add_0_l. by rewrite (proj2 (N.eqb_neq _ _) Hne). }
  split.
  - intros logs' Hperm.
    by rewrite (Htotal logs), (Htotal logs'),
      (totalSeconds_Permutation _ _ Hperm).
  - rewrite <- totalSeconds_zero, Htotal.
    destruct (N.eqb_spec (totalSeconds logs) 0) as [|Hne]; [done|].
    split; [|done]. unfold formatStudyTime.
    change (totalSeconds [Build_StudyLog ?n]) with (0 + n)%N.
    rewrite N.add_0_l, (proj2 (N.eqb_neq _ _) Hne).
    by repeat case_match.
Qed.


Lemma onCheckedChange_checked_witness :
  selectedDayTask roadmap_example 1 = Some task_day1
  ∧ (1 < length (split semicolon (DailyTask.task task_day1)))%nat
  ∧ ∃ task',
      selectedDayTask (onCheckedChange roadmap_example 1 1 true).1 1
      = Some task'
      ∧ checked task' 1 = true
      ∧ checked task' 0 = checked task_day1 0.
Proof.
  assert (Hlt : (1 < length (split semicolon (DailyTask.task task_day1)))%nat).
  { vm_compute. lia. }
  split; [reflexivity|]. split; [exact Hlt|].
  destruct (onCheckedChange_checked roadmap_example 1 1 true task_day1
              eq_refl Hlt) as (task' & Hfind & _ & Hat & Hother & _).
  exists task'. split; [exact Hfind|]. split; [exact Hat|].
  apply Hother; [discriminate|]. vm_compute. lia.
Defined.

Lemma onCheckedChange_studyTime_witness :
  selectedDayTask roadmap_example 1 = Some task_day1
  ∧ ∃ task',
      selectedDayTask (onCheckedChange roadmap_example 1 1 true).1 1
      = Some task'
      ∧ studyTime task' 0 = studyTime task_day1 0.
Proof.
  split; [reflexivity|].
  destruct (onCheckedChange_studyTime roadmap_example 1 1 true task_day1
              eq_refl) as (task' & Hfind & Hsame & _).
  exists task'. split; [exact Hfind|]. apply Hsame. vm_compute. lia.
Defined.

Lemma onCheckedChange_completed_witness :
  selectedDayTask roadmap_example 2 = Some (DailyTask.mk 2 (lit "run") false None)
  ∧ (0 < length (split semicolon (lit "run")))%nat
  ∧ ∃ task',
      selectedDayTask (onCheckedChange roadmap_example 2 0 true).1 2
      = Some task'
      ∧ DailyTask.completed task' = true.
Proof.
  assert (Hlt : (0 < length (split semicolon (lit "run")))%nat).
  { vm_compute. lia. }
  split; [reflexivity|]. split; [exact Hlt|].
  destruct (onCheckedChange_completed roadmap_example 2 0 true
              (DailyTask.mk 2 (lit "run") false None) eq_refl Hlt)
    as (task' & Hfind & Hcompleted).
  exists task'. split; [exact Hfind|]. apply Hcompleted.
  split; [reflexivity|]. intros j Hj Hlen. vm_compute in Hlen. lia.
Defined.

Lemma blank_segment_never_complete_witness :
  selectedDayTask roadmap_trailing 3 = Some task_trailing
  ∧ (length (subTasks (Some task_trailing)) ≤ 2
     < length (split semicolon (DailyTask.task task_trailing)))%nat
  ∧ checked task_trailing 2 = false
  ∧ [(0%nat, true); (1%nat, true)] ≠ []
  ∧ Forall (λ event : nat * bool,
              (event.1 < length (subTasks (Some task_trailing)))%nat)
           [(0%nat, true); (1%nat, true)]
  ∧ ∃ task',
      selectedDayTask
        (clicks roadmap_trailing 3 [(0%nat, true); (1%nat, true)]) 3
      = Some task'
      ∧ DailyTask.completed task' = false.
Proof.
  assert (Hp : (length (subTasks (Some task_trailing)) ≤ 2
                < length (split semicolon (DailyTask.task task_trailing)))%nat).
  { vm_compute. lia. }
  assert (Hne : [(0%nat, true); (1%nat, true)] ≠ []) by discriminate.
  assert (Hev : Forall (λ event : nat * bool,
                   (event.1 < length (subTasks (Some task_trailing)))%nat)
                  [(0%nat, true); (1%nat, true)]).
  { repeat constructor; vm_compute; lia. }
  exact (conj eq_refl (conj Hp (conj eq_refl (conj Hne (conj Hev
    (blank_segment_never_complete roadmap_trailing 3
       [(0%nat, true); (1%nat, true)] task_trailing 2 eq_refl Hp eq_refl
       Hne Hev)))))).
Defined.

End DailyTaskCardViewFacts.
